(** * Distance-dependent statistical potential for RNA structures

    A shallow embedding of [train.py], [scoring.py] and [plot.py]: the PDB
    reader, the pairwise distance histogram, its aggregation over a corpus,
    the log-odds scores, the score files, the evaluation of candidate
    structures and the interpolation of the profiles.

    Modelling choices, fixed once for the whole development:
    - Python exceptions are values of [result]; a loop stops at the first
      one.
    - A string is a sequence of code points below 256; files are lists of
      lines.
    - Coordinates are IEEE binary64 numbers (Rocq's primitive floats).
      Subtraction, [math.sqrt] and [int] are those of IEEE 754 and of the
      interpreter. [x ** 2] goes through the [pow] of the C library and
      [sum] depends on the version of the interpreter: both are parameters
      ([Platform]), and no statement assumes anything of them.
    - [float] on a string is a parameter too; what it does not accept
      raises [ValueError].
    - Bin counts are natural numbers ([N]); Python holds them in floats,
      which are exact far beyond any reachable count.
    - The logarithm has no IEEE-specified value, so frequencies and scores
      are real numbers ([R]): the formulas are the source's, their
      rounding is not represented. A score file holds the characters the
      program writes; what is read back from it is a binary64 number.
    - A dict is a [gmap]; the order in which a dict is traversed only
      affects the rounding of a float total, which [R] does not see. *)

From Stdlib Require Import ZArith Reals Lra Lia Floats Uint63 Ascii String.
From stdpp Require Import gmap strings list fin_maps pretty.

(** ** Exceptions *)

Inductive exn :=
  IndexError | ValueError | OverflowError | OSError | ZeroDivisionError.

Inductive result (A : Type) :=
  | Ok (a : A)
  | Raise (e : exn).
Arguments Ok {A} a.
Arguments Raise {A} e.

#[global] Instance result_ret : MRet result := @Ok.
#[global] Instance result_bind : MBind result := λ A B k m,
  match m with Ok a => k a | Raise e => Raise e end.

Definition returns {A} (m : result A) : Prop := ∃ a, m = Ok a.

(** [for x in l: body] over a state [s]. *)
Fixpoint for_each {A S : Type} (l : list A) (body : A → S → result S) (s : S)
  : result S :=
  match l with
  | [] => Ok s
  | x :: l' => s' ← body x s; for_each l' body s'
  end.

(** ** The arithmetic of the platform

    Two operations on floats are not fixed by IEEE 754 and change with the
    platform and the interpreter: the [pow] of the C library, which the
    interpreter calls for [x ** 2] and which need not be correctly rounded,
    and [sum] over floats, which adds from the left in interpreters before
    3.12 and compensates the rounding errors from 3.12 on. Both are
    parameters: every statement holds for all of them. *)

(** What a call of the C library leaves in [errno]. *)
Inductive errno := NoError | ERANGE | OtherError.

Class Platform := {
  libm_pow : float → float → float * errno;
  float_sum : list float → float
}.

(** ** Python built-ins used by the program *)

Module Py.

(** *** Floats *)

Definition is_inf (x : float) : bool :=
  match Prim2SF x with
  | S754_infinity _ => true
  | _ => false
  end.

(** [x ** 2] for a float [x], as [float_pow] of the interpreter computes
    it: a NaN, an infinity and a zero are answered without the library;
    otherwise the library's [pow] is called on the absolute value, unless
    that is 1. An infinite result is an overflow even when the library did
    not report it, a range error on a zero result is an underflow and is
    ignored, and any other [errno] is a [ValueError]. *)
Definition pow2 {platform : Platform} (x : float) : result float :=
  match Prim2SF x with
  | S754_nan => Ok x
  | S754_infinity _ => Ok PrimFloat.infinity
  | S754_zero _ => Ok 0%float
  | S754_finite _ _ _ =>
      let iv := PrimFloat.abs x in
      if (iv =? 1)%float then Ok 1%float
      else
        let '(ix, err) := libm_pow iv 2 in
        let err :=
          match err with
          | NoError => if is_inf ix then ERANGE else NoError
          | ERANGE => if (ix =? 0)%float then NoError else ERANGE
          | OtherError => OtherError
          end in
        match err with
        | NoError => Ok ix
        | ERANGE => Raise OverflowError
        | OtherError => Raise ValueError
        end
  end.

(** [math.sqrt(x)]: the correctly rounded root; the root of a negative
    number is a domain error. *)
Definition sqrt (x : float) : result float :=
  if (x <? 0)%float then Raise ValueError else Ok (PrimFloat.sqrt x).

(** [int(x)]: truncation toward zero; infinities and NaN raise. *)
Definition int_of_float (x : float) : result Z :=
  match Prim2SF x with
  | S754_zero _ => Ok 0%Z
  | S754_finite s m e => Ok (cond_Zopp s (Z.shiftl (Z.pos m) e))
  | S754_infinity _ => Raise OverflowError
  | S754_nan => Raise ValueError
  end.

(** *** Lists *)

(** The position [l[i]] designates: negative indices count from the end. *)
Definition index (n : nat) (i : Z) : result nat :=
  let j := if (i <? 0)%Z then (i + Z.of_nat n)%Z else i in
  if (0 <=? j)%Z && (j <? Z.of_nat n)%Z then Ok (Z.to_nat j)
  else Raise IndexError.

(** [l[i] += d] *)
Definition iadd (l : list N) (i : Z) (d : N) : result (list N) :=
  k ← index (length l) i;
  Ok (<[k := (default 0 (l !! k) + d)%N]> l).

(** [l[i]] *)
Definition getitem {A : Type} (l : list A) (i : Z) : result A :=
  k ← index (length l) i;
  match l !! k with
  | Some x => Ok x
  | None => Raise IndexError
  end.

Definition sum (l : list N) : N := foldr N.add 0%N l.

(** The number a count denotes in a division. *)
Definition real (n : N) : R := IZR (Z.of_N n).

(** [x / n] for an integer [n]. *)
Definition truediv (x : R) (n : nat) : result R :=
  if (n =? 0)%nat then Raise ZeroDivisionError else Ok (x / INR n)%R.

(** [enumerate(l)], counting from [i]. *)
Fixpoint enumerate_from {A : Type} (i : nat) (l : list A) : list (nat * A) :=
  match l with
  | [] => []
  | x :: l' => (i, x) :: enumerate_from (S i) l'
  end.

Definition enumerate {A : Type} (l : list A) : list (nat * A) :=
  enumerate_from 0 l.

(** *** Strings *)

Definition is_space (c : ascii) : bool :=
  let n := nat_of_ascii c in
  (n =? 32) || ((9 <=? n) && (n <=? 13)) || ((28 <=? n) && (n <=? 31)) ||
  (n =? 133) || (n =? 160).

Fixpoint lstrip (s : string) : string :=
  match s with
  | String c s' => if is_space c then lstrip s' else s
  | EmptyString => EmptyString
  end.

Definition strip (s : string) : string :=
  String.rev (lstrip (String.rev (lstrip s))).

(** [s[i:j]] for [0 <= i <= j]. *)
Definition slice (i j : nat) (s : string) : string :=
  String.substring i (j - i) s.

(** [s[i]] *)
Definition char_at (i : nat) (s : string) : result string :=
  match String.get i s with
  | Some c => Ok (String c EmptyString)
  | None => Raise IndexError
  end.

Definition startswith (p s : string) : bool := String.prefix p s.

(** [p in s] *)
Fixpoint contains (p s : string) : bool :=
  String.prefix p s ||
  match s with
  | String _ s' => contains p s'
  | EmptyString => false
  end.

(** [s.endswith(p)] *)
Definition endswith (p s : string) : bool :=
  String.prefix (String.rev p) (String.rev s).

(** [os.path.join(a, b)] *)
Definition path_join (a b : string) : string :=
  if startswith "/" b then b
  else if bool_decide (a = EmptyString) || endswith "/" a
  then String.append a b
  else String.append a (String.append "/" b).

(** [''.join(sorted([a, b]))]: the sort is stable, so the two swap only
    when [b] is strictly smaller. *)
Definition join_sorted (a b : string) : string :=
  if String.ltb b a then String.append b a else String.append a b.

Definition is_digit (c : ascii) : bool :=
  let n := nat_of_ascii c in (48 <=? n) && (n <=? 57).

Definition digit_value (c : ascii) : Z := Z.of_nat (nat_of_ascii c - 48).

(** Digits with single underscores between them, as [int] accepts them;
    [acc] is the value read so far and [after_digit] tells whether the
    previous character was a digit. *)
Fixpoint read_digits (s : string) (acc : Z) (after_digit : bool) : option Z :=
  match s with
  | EmptyString => if after_digit then Some acc else None
  | String c s' =>
      if is_digit c then read_digits s' (10 * acc + digit_value c)%Z true
      else if Ascii.eqb c "_" && after_digit then
        match s' with
        | String c' _ => if is_digit c' then read_digits s' acc false else None
        | EmptyString => None
        end
      else None
  end.

(** [int(s)] on an ASCII string. *)
Definition int_of_string (s : string) : result Z :=
  let body sign t :=
    match read_digits t 0 false with
    | Some n => Ok (sign * n)%Z
    | None => Raise ValueError
    end in
  match strip s with
  | String "+" t => body 1%Z t
  | String "-" t => body (-1)%Z t
  | t => body 1%Z t
  end.

(** [float(s)] for a string [s]. The conversion itself is a parameter:
    [float_of_string s] is the number [float] reads from [s] when it
    accepts it; a string it does not accept raises [ValueError]. *)
Definition to_float (float_of_string : string → option float) (s : string)
  : result float :=
  match float_of_string s with
  | Some x => Ok x
  | None => Raise ValueError
  end.

End Py.

(** ** Shared data *)

(** One retained atom record: [(chain, res_id, res_name, (x, y, z))]. *)
Record residue := Residue {
  chain : string;
  res_id : Z;
  res_name : string;
  coord : float * float * float
}.

Definition newline : string := String "010"%char EmptyString.

Definition VALID_RESIDUES : list string := ["A"; "U"; "G"; "C"].

Definition VALID_PAIRS : list string :=
  ["AA"; "AC"; "AG"; "AU"; "CC"; "CG"; "CU"; "GG"; "GU"; "UU"].

(** [math.sqrt(sum((a - b) ** 2 for a, b in zip(coord1, coord2)))] *)
Definition distance {platform : Platform} (c1 c2 : float * float * float)
  : result float :=
  let '(x1, y1, z1) := c1 in
  let '(x2, y2, z2) := c2 in
  dx ← Py.pow2 (x1 - x2)%float;
  dy ← Py.pow2 (y1 - y2)%float;
  dz ← Py.pow2 (z1 - z2)%float;
  Py.sqrt (float_sum [dx; dy; dz]).

(** ** train.py *)

Module Train.

Definition initialize_counts : list N := replicate 20 0%N.

Section Reader.

(** [float] is the decimal-to-binary64 conversion of the interpreter; the
    reader is defined for any such conversion. *)
Variable float_of_string : string → option float.

(** The body of the loop over the lines of the file. *)
Definition parse_line (line : string) (residues : list residue)
  : result (list residue) :=
  if Py.startswith "ATOM" line && Py.contains "C3'" line then
    c ← Py.char_at 21 line;
    let chain := Py.strip c in
    res_id ← Py.int_of_string (Py.strip (Py.slice 22 26 line));
    let res_name := Py.strip (Py.slice 17 20 line) in
    if bool_decide (res_name ∈ VALID_RESIDUES) then
      x ← Py.to_float float_of_string (Py.slice 30 38 line);
      y ← Py.to_float float_of_string (Py.slice 38 46 line);
      z ← Py.to_float float_of_string (Py.slice 46 54 line);
      Ok (residues ++ [Residue chain res_id res_name (x, y, z)])
    else Ok residues
  else Ok residues.

(** [fs] maps the path of each readable file to its lines. *)
Definition parse_pdb (fs : gmap string (list string)) (file_path : string)
  : result (list residue) :=
  match fs !! file_path with
  | None => Raise OSError
  | Some lines => for_each lines parse_line []
  end.

End Reader.

Definition compute_distances {platform : Platform} (residues : list residue)
  : result (gmap string (list N)) :=
  for_each residues (λ r1 distances,
    for_each residues (λ r2 distances,
      if bool_decide (chain r1 = chain r2) &&
         (3 <=? Z.abs (res_id r1 - res_id r2))%Z then
        dist ← distance (coord r1) (coord r2);
        bin_index ← Py.int_of_float dist;
        if (bin_index <? 20)%Z then
          let pair := Py.join_sorted (res_name r1) (res_name r2) in
          if bool_decide (pair ∈ VALID_PAIRS) then
            bins ← Py.iadd (default initialize_counts (distances !! pair))
                           bin_index 1;
            Ok (<[pair := bins]> distances)
          else Ok distances
        else Ok distances
      else Ok distances) distances) ∅.

(** [for bin_idx, count in enumerate(bins):
       combined_counts[pair][bin_idx] += count] *)
Definition add_bins (pair : string) (bins : list N)
    (combined_counts : gmap string (list N))
  : result (gmap string (list N)) :=
  for_each (Py.enumerate bins)
    (λ '(bin_idx, count) combined_counts,
      row ← Py.iadd (default (replicate 20 0%N) (combined_counts !! pair))
                    (Z.of_nat bin_idx) count;
      Ok (<[pair := row]> combined_counts))
    combined_counts.

(** The loop over [distances.items()]. *)
Definition add_histogram (distances combined_counts : gmap string (list N))
  : result (gmap string (list N)) :=
  map_fold (λ pair bins acc,
    combined_counts ← acc;
    if bool_decide (pair ∈ VALID_PAIRS) then add_bins pair bins combined_counts
    else Ok combined_counts) (Ok combined_counts) distances.

Definition aggregate_counts (all_distances : list (gmap string (list N)))
  : result (gmap string (list N)) :=
  for_each all_distances add_histogram ∅.

(** The score of one bin, given the total of its pair. *)
Definition bin_score (total_counts count : N) : R :=
  let observed_freq :=
    if (0 <? total_counts)%N then (Py.real count / Py.real total_counts)%R
    else 0%R in
  let ref_freq := (1 / 20)%R in
  let score :=
    if Rlt_dec 0 observed_freq then (- ln (observed_freq / ref_freq))%R
    else 10%R in
  Rmin score 10.

Definition pair_scores (counts : list N) : list R :=
  let total_counts := Py.sum counts in
  map (bin_score total_counts) counts.

Definition calculate_scores (combined_counts : gmap string (list N))
  : gmap string (list R) :=
  map_fold (λ pair counts scores, <[pair := pair_scores counts]> scores)
    ∅ combined_counts.

(** Round to the nearest integer, ties to even. *)
Definition round_half_even (x : R) : Z :=
  let f := Int_part x in
  let frac := (x - IZR f)%R in
  if Rlt_dec frac (1 / 2) then f
  else if Rlt_dec (1 / 2) frac then (f + 1)%Z
  else if Z.even f then f else (f + 1)%Z.

(** [format4 score] is the line [f"{score:.4f}\n"]: the sign, the digits of
    the integer part, a point and four decimals, of the multiple of 0.0001
    nearest to the score, ties to even. The score is a real number here;
    where it is the value of a binary64 number this is the line the
    interpreter prints for that number, except that a real zero has no
    sign and prints as 0.0000 where a negative zero prints as -0.0000. *)
Definition format4 (score : R) : string :=
  let k := round_half_even (Rabs score * 10000) in
  String.append (if Rlt_dec score 0 then "-" else "")
    (String.append (pretty (k / 10000)%Z)
      (String.append "."
        (String.append (Py.slice 1 5 (pretty (10000 + k mod 10000)%Z))
          newline))).

(** [any(score > 0 for score in l)] *)
Definition any_positive (l : list R) : bool :=
  existsb (λ score, if Rlt_dec 0 score then true else false) l.

(** The score directory maps the name of each file to its lines. *)
Definition write_scores (scores : gmap string (list R))
    (output_dir : gmap string (list string)) : gmap string (list string) :=
  foldl (λ dir pair,
    match scores !! pair with
    | Some l =>
        if any_positive l then <[String.append pair ".txt" := map format4 l]> dir
        else dir
    | None => dir
    end) output_dir VALID_PAIRS.

Section Driver.

Context {platform : Platform}.
Variable float_of_string : string → option float.

Definition process_single_file (fs : gmap string (list string))
    (pdb_file : string) : result (gmap string (list N)) :=
  residues ← parse_pdb float_of_string fs pdb_file;
  compute_distances residues.

(** The workers share nothing, so the pool is the map of
    [process_single_file] over the files, in their order. *)
Definition process_pdb_files_parallel (fs : gmap string (list string))
    (pdb_files : list string) (output_dir : gmap string (list string))
  : result (gmap string (list string)) :=
  all_distances ← mapM (process_single_file fs) pdb_files;
  combined_counts ← aggregate_counts all_distances;
  let scores := calculate_scores combined_counts in
  Ok (write_scores scores output_dir).

End Driver.

End Train.

(** ** scoring.py *)

Module Scoring.

Section Reader.

Variable float_of_string : string → option float.

(** A missing file only prints a warning; a line that [float] does not
    accept raises. *)
Definition read_scores (input_dir : gmap string (list string))
  : result (gmap string (list float)) :=
  for_each VALID_PAIRS (λ pair scores,
    match input_dir !! String.append pair ".txt" with
    | Some lines =>
        l ← mapM (λ line, Py.to_float float_of_string (Py.strip line)) lines;
        Ok (<[pair := l]> scores)
    | None => Ok scores
    end) ∅.

Definition parse_line (line : string) (residues : list residue)
  : result (list residue) :=
  if Py.startswith "ATOM" line && Py.contains "C3'" line then
    c ← Py.char_at 21 line;
    let chain := Py.strip c in
    res_id ← Py.int_of_string (Py.strip (Py.slice 22 26 line));
    let res_name := Py.strip (Py.slice 17 20 line) in
    if bool_decide (res_name ∈ VALID_RESIDUES) then
      x ← Py.to_float float_of_string (Py.slice 30 38 line);
      y ← Py.to_float float_of_string (Py.slice 38 46 line);
      z ← Py.to_float float_of_string (Py.slice 46 54 line);
      Ok (residues ++ [Residue chain res_id res_name (x, y, z)])
    else Ok residues
  else Ok residues.

Definition parse_pdb (fs : gmap string (list string)) (file_path : string)
  : result (list residue) :=
  match fs !! file_path with
  | None => Raise OSError
  | Some lines => for_each lines parse_line []
  end.

End Reader.

(** The first loop of [compute_distances_and_scores]: the histogram of the
    structure. *)
Definition distances_of {platform : Platform} (residues : list residue)
  : result (gmap string (list N)) :=
  for_each residues (λ r1 distances,
    for_each residues (λ r2 distances,
      if bool_decide (chain r1 = chain r2) &&
         (3 <=? Z.abs (res_id r1 - res_id r2))%Z then
        dist ← distance (coord r1) (coord r2);
        bin_index ← Py.int_of_float dist;
        if (bin_index <? 20)%Z then
          let pair := Py.join_sorted (res_name r1) (res_name r2) in
          if bool_decide (pair ∈ VALID_PAIRS) then
            bins ← Py.iadd (default (replicate 20 0%N) (distances !! pair))
                           bin_index 1;
            Ok (<[pair := bins]> distances)
          else Ok distances
        else Ok distances
      else Ok distances) distances) ∅.

(** The inner loop of the second half: the score of one pair. *)
Definition pair_score (bins : list N) : R :=
  let total_counts := Py.sum bins in
  foldl (λ pair_score count,
    let observed_freq :=
      if (0 <? total_counts)%N then (Py.real count / Py.real total_counts)%R
      else 0%R in
    let ref_freq := (1 / 20)%R in
    let score :=
      if Rlt_dec 0 observed_freq then (- ln (observed_freq / ref_freq))%R
      else 10%R in
    (pair_score + Rmin score 10)%R) 0%R bins.

Definition compute_distances_and_scores {platform : Platform} {V : Type}
    (residues : list residue) (scores : gmap string V) : result R :=
  distances ← distances_of residues;
  Ok (map_fold (λ pair bins total_score,
        match scores !! pair with
        | Some _ => (total_score + pair_score bins)%R
        | None => total_score
        end) 0%R distances).

Section Driver.

Context {platform : Platform}.
Variable float_of_string : string → option float.

Definition evaluate_structures (fs : gmap string (list string))
    (pdb_files : list string) (score_dir : gmap string (list string))
  : result R :=
  scores ← read_scores float_of_string score_dir;
  total_gibbs_energy ← for_each pdb_files (λ pdb_file total_gibbs_energy,
    residues ← parse_pdb float_of_string fs pdb_file;
    score ← compute_distances_and_scores residues scores;
    Ok (total_gibbs_energy + score)%R) 0%R;
  let num_files := length pdb_files in
  if (0 <? num_files)%nat then Py.truediv total_gibbs_energy num_files
  else Ok 0%R.

(** [dirs] maps the path of each directory to the names it lists; a path
    it lacks is not a directory. *)
Definition evaluate_all_puzzles (dirs fs : gmap string (list string))
    (base_dir : string) (score_dir : gmap string (list string))
  : result (gmap string R) :=
  match dirs !! base_dir with
  | None => Raise OSError
  | Some entries =>
      for_each entries (λ puzzle_dir results,
        let puzzle_path := Py.path_join base_dir puzzle_dir in
        match dirs !! puzzle_path with
        | Some names =>
            let pdb_files :=
              map (Py.path_join puzzle_path)
                  (filter (λ f, Py.endswith ".pdb" f = true) names) in
            gibbs_energy ← evaluate_structures fs pdb_files score_dir;
            Ok (<[puzzle_dir := gibbs_energy]> results)
        | None => Ok results
        end) ∅
  end.

End Driver.

End Scoring.

(** ** plot.py *)

Module Plot.

Definition VALID_PAIRS : list string :=
  ["AA"; "AC"; "AG"; "AU"; "CC"; "CG"; "CU"; "GG"; "GU"; "UU"].

Definition read_scores (float_of_string : string → option float)
    (input_dir : gmap string (list string))
  : result (gmap string (list float)) :=
  for_each VALID_PAIRS (λ pair scores,
    match input_dir !! String.append pair ".txt" with
    | Some lines =>
        l ← mapM (λ line, Py.to_float float_of_string (Py.strip line)) lines;
        Ok (<[pair := l]> scores)
    | None => Ok scores
    end) ∅.

(** [list(range(1, 21))] *)
Definition distance_bins : list Z := map Z.of_nat (seq 1 20).

(** The points of one segment, appended to [interpolated_scores]. *)
Definition segment (x1 x2 : Z) (y1 y2 : R) (interpolated_scores : list (R * R))
  : list (R * R) :=
  let num_points := 10%Z in
  foldl (λ interpolated_scores (j : nat),
    let x := (IZR x1 + IZR ((x2 - x1) * Z.of_nat j) / IZR (num_points - 1))%R in
    let y := (y1 + (y2 - y1) * INR j / IZR (num_points - 1))%R in
    interpolated_scores ++ [(x, y)])
    interpolated_scores (seq 0 (Z.to_nat num_points)).

Definition interpolate_scores (score_list : list R) : result (list (R * R)) :=
  for_each (seq 0 (length score_list - 1)) (λ i interpolated_scores,
    x1 ← Py.getitem distance_bins (Z.of_nat i);
    y1 ← Py.getitem score_list (Z.of_nat i);
    x2 ← Py.getitem distance_bins (Z.of_nat (i + 1));
    y2 ← Py.getitem score_list (Z.of_nat (i + 1));
    Ok (segment x1 x2 y1 y2 interpolated_scores)) [].

End Plot.

(** ** A reading of fixed-point coordinate fields

    The conversion used in the examples. On the decimal fields of a
    coordinate file, at most fifteen digits with an optional sign and
    point, [float] is one correctly rounded division of two exactly
    represented integers, which is what [decimal_field] computes. [float]
    itself accepts more (exponents, [inf], [nan], underscores);
    [decimal_field] refuses those, and no general statement depends on
    it. *)

Fixpoint digits_value (s : string) (acc : Z) : option (Z * nat) :=
  match s with
  | EmptyString => Some (acc, 0)
  | String c s' =>
      if Py.is_digit c then
        '(v, n) ← digits_value s' (10 * acc + Py.digit_value c)%Z;
        Some (v, S n)
      else None
  end.

Fixpoint split_point (s : string) : string * option string :=
  match s with
  | EmptyString => (EmptyString, None)
  | String c s' =>
      if Ascii.eqb c "." then (EmptyString, Some s')
      else let '(a, b) := split_point s' in (String c a, b)
  end.

Definition float_of_Z (z : Z) : float := PrimFloat.of_uint63 (Uint63.of_Z z).

Definition decimal_field (s : string) : option float :=
  let body (negative : bool) (t : string) : option float :=
    let '(ip, fp) := split_point t in
    let fp := default EmptyString fp in
    match digits_value (String.append ip fp) 0 with
    | Some (v, n) =>
        if (0 <? n)%nat && (n <=? 15)%nat then
          let x := (float_of_Z v / float_of_Z (10 ^ Z.of_nat (String.length fp)))%float in
          Some (if negative then (- x)%float else x)
        else None
    | None => None
    end in
  match Py.strip s with
  | String "+" t => body false t
  | String "-" t => body true t
  | t => body false t
  end.

(** ** Vocabulary of the statements *)

(** *** Histograms *)

(** The base type of a residue is one of the four letters. *)
Definition valid_residue (r : residue) : Prop := res_name r ∈ VALID_RESIDUES.

(** The bin of a pair of residues: the integer part of their distance. *)
Definition bin_of {platform : Platform} (r1 r2 : residue) : result Z :=
  dist ← distance (coord r1) (coord r2);
  Py.int_of_float dist.

(** Same chain, at least three positions apart. *)
Definition separated (r1 r2 : residue) : bool :=
  bool_decide (chain r1 = chain r2) &&
  (3 <=? Z.abs (res_id r1 - res_id r2))%Z.

(** Separated, and closer than 20. *)
Definition qualifies {platform : Platform} (r1 r2 : residue) : bool :=
  separated r1 r2 &&
  match bin_of r1 r2 with
  | Ok b => (b <? 20)%Z
  | Raise _ => false
  end.

Definition pair_key (r1 r2 : residue) : string :=
  Py.join_sorted (res_name r1) (res_name r2).

(** The ordered pairs that add one to the histogram. *)
Definition counted {platform : Platform} (r1 r2 : residue) : bool :=
  qualifies r1 r2 && bool_decide (pair_key r1 r2 ∈ VALID_PAIRS).

Definition indicator (b : bool) : N := if b then 1%N else 0%N.

(** The pairs [(l_i, l_j)] with [i < j]. *)
Fixpoint unordered_pairs {A : Type} (l : list A) : list (A * A) :=
  match l with
  | [] => []
  | x :: l' => map (pair x) l' ++ unordered_pairs l'
  end.

Definition qualifying_pairs {platform : Platform} (residues : list residue) : N :=
  N.of_nat (length (filter (λ p, qualifies p.1 p.2 = true)
                           (unordered_pairs residues))).

(** The count of a histogram at a key and a bin; zero where it has none. *)
Definition count_at (h : gmap string (list N)) (pair : string) (i : nat) : N :=
  default 0%N (h !! pair ≫= (.!! i)).

Definition sum_with {A : Type} (f : A → N) (l : list A) : N :=
  foldr (λ x acc, (f x + acc)%N) 0%N l.

(** The sum over the ten keys and the twenty bins. *)
Definition grand_total (h : gmap string (list N)) : N :=
  sum_with (λ pair, sum_with (count_at h pair) (seq 0 20)) VALID_PAIRS.

(** The sum of everything a histogram holds. *)
Definition histogram_total (h : gmap string (list N)) : N :=
  map_fold (λ _ bins acc, (Py.sum bins + acc)%N) 0%N h.

(** A histogram as the builder makes them. *)
Definition well_formed (h : gmap string (list N)) : Prop :=
  ∀ pair bins, h !! pair = Some bins →
    pair ∈ VALID_PAIRS ∧ length bins = 20 ∧ (0 < Py.sum bins)%N.

(** The body of the inner loop, as both programs write it. *)
Definition visit {platform : Platform} (r1 r2 : residue) (distances : gmap string (list N))
  : result (gmap string (list N)) :=
  if bool_decide (chain r1 = chain r2) &&
     (3 <=? Z.abs (res_id r1 - res_id r2))%Z then
    dist ← distance (coord r1) (coord r2);
    bin_index ← Py.int_of_float dist;
    if (bin_index <? 20)%Z then
      let pair := Py.join_sorted (res_name r1) (res_name r2) in
      if bool_decide (pair ∈ VALID_PAIRS) then
        bins ← Py.iadd (default (replicate 20 0%N) (distances !! pair))
                       bin_index 1;
        Ok (<[pair := bins]> distances)
      else Ok distances
    else Ok distances
  else Ok distances.

(** *** Aggregation *)

(** What the loop of [add_bins] does to the row of its pair: bin [off + i]
    receives the [i]-th count. *)
Fixpoint add_at (off : nat) (bins cur : list N) : list N :=
  match bins with
  | [] => cur
  | b :: bs => add_at (S off) bs (<[off := (default 0 (cur !! off) + b)%N]> cur)
  end.

(** One iteration of the loop over [distances.items()]. *)
Definition add_item (pair : string) (bins : list N)
    (combined_counts : gmap string (list N))
  : result (gmap string (list N)) :=
  if bool_decide (pair ∈ VALID_PAIRS) then
    Train.add_bins pair bins combined_counts
  else Ok combined_counts.

Definition row (c : gmap string (list N)) (pair : string) : list N :=
  default (replicate 20 0%N) (c !! pair).

(** The loop over [distances.items()] from an accumulator that may
    already hold an exception. *)
Definition add_items (distances : gmap string (list N))
    (acc : result (gmap string (list N))) : result (gmap string (list N)) :=
  map_fold (λ pair bins acc, acc ≫= add_item pair bins) acc distances.

(** *** Scores, in the words of their description *)

(** The observed frequency of a bin: its share of the total of its pair,
    or zero when the total is zero. *)
Definition observed_freq (counts : list N) (count : N) : R :=
  if decide (Py.sum counts = 0%N) then 0%R
  else (Py.real count / Py.real (Py.sum counts))%R.

(** The log-odds of the bin against the uniform reference, or the sentinel
    10 for a bin that was never observed. *)
Definition raw_score (counts : list N) (count : N) : R :=
  if Rlt_dec 0 (observed_freq counts count)
  then (- ln (observed_freq counts count / (1 / 20)))%R
  else 10%R.

Definition Rsum_with {A : Type} (f : A → R) (l : list A) : R :=
  foldr (λ x acc, (f x + acc)%R) 0%R l.

(** The pseudo-energy of a histogram against a table: over the keys both
    hold, over the twenty bins, the capped log-odds score of the
    histogram's own count. The values of the table do not occur. *)
Definition pseudo_energy {V : Type} (h : gmap string (list N))
    (scores : gmap string V) : R :=
  Rsum_with (λ pair,
    match h !! pair, scores !! pair with
    | Some bins, Some _ =>
        Rsum_with (λ i,
          Rmin (raw_score bins (default 0%N (bins !! i))) 10) (seq 0 20)
    | _, _ => 0%R
    end) VALID_PAIRS.

(** *** Score files *)

Definition file_name (pair : string) : string := String.append pair ".txt".

(** *** Reading structures, in the words of the description *)

(** The lines the reader looks at. *)
Definition relevant (line : string) : bool :=
  Py.startswith "ATOM" line && Py.contains "C3'" line.

(** A relevant line the reader gets through: it has a chain column, an
    integer in the residue-number columns and, when its base type is
    retained, three coordinate fields that [float] accepts. *)
Definition readable_record (float_of_string : string → option float)
    (line : string) : Prop :=
  returns (Py.char_at 21 line) ∧
  returns (Py.int_of_string (Py.strip (Py.slice 22 26 line))) ∧
  (Py.strip (Py.slice 17 20 line) ∈ VALID_RESIDUES →
   returns (Py.to_float float_of_string (Py.slice 30 38 line)) ∧
   returns (Py.to_float float_of_string (Py.slice 38 46 line)) ∧
   returns (Py.to_float float_of_string (Py.slice 46 54 line))).

(** ** Examples *)

(** Three residues of chain A: an A at position 1, a C at position 5,
    3.5 away from it, and a G at position 9, out of reach of both; and the
    histogram of this structure. *)
Definition example_residues : list residue :=
  [ Residue "A" 1 "A" (0, 0, 0)%float;
    Residue "A" 5 "C" (0, 0, 3.5)%float;
    Residue "A" 9 "G" (0, 0, 30.25)%float ].

Definition example_histogram : gmap string (list N) :=
  {[ "AC" := <[3%nat := 2%N]> (replicate 20 0%N) ]}.

(** The same structure as a file, with an atom that is not C3' and a line
    that is not an atom; and a file whose only record stops short. *)
Definition example_lines : list string :=
  [ String.append
      "ATOM      1  C3'   A A   1       0.000   0.000   0.000  1.00  0.00"
      newline;
    String.append
      "ATOM      2  C3'   C A   5       0.000   0.000   3.500  1.00  0.00"
      newline;
    String.append
      "ATOM      3  P     C A   5       1.000   1.000   1.000  1.00  0.00"
      newline;
    String.append
      "ATOM      4  C3'   G A   9       0.000   0.000  30.250  1.00  0.00"
      newline;
    String.append "END" newline ].

Definition example_fs : gmap string (list string) :=
  {[ "a.pdb" := example_lines;
     "short.pdb" := [String.append "ATOM      1  C3'" newline] ]}.

(** Two histograms and the sum of their counts. *)
Definition example_histogram_2 : gmap string (list N) :=
  {[ "AC" := <[7%nat := 4%N]> (replicate 20 0%N);
     "GU" := <[12%nat := 2%N]> (replicate 20 0%N) ]}.

Definition example_combined : gmap string (list N) :=
  {[ "AC" := <[3%nat := 2%N]> (<[7%nat := 4%N]> (replicate 20 0%N));
     "GU" := <[12%nat := 2%N]> (replicate 20 0%N) ]}.

(** A pair whose first bin holds one count out of two millions. *)
Definition rare_counts : list N :=
  [1; 1999999]%N ++ replicate 18 0%N.

(** Two tables with the same keys and different values. *)
Definition example_table : gmap string (list R) :=
  {[ "AC" := replicate 20 0%R ]}.

Definition example_table_2 : gmap string (list R) :=
  {[ "AC" := replicate 20 10%R ]}.

(** *** Bins, one by one *)

(** The ordered pair [(r1, r2)] adds one to bin [i] of the key [pair]. *)
Definition hits {platform : Platform} (pair : string) (i : nat) (r1 r2 : residue)
  : bool :=
  counted r1 r2 &&
  bool_decide (pair_key r1 r2 = pair) &&
  match bin_of r1 r2 with
  | Ok b => bool_decide (b = Z.of_nat i)
  | Raise _ => false
  end.

(** The unordered pairs of residues that fall in bin [i] of the key
    [pair]. *)
Definition pairs_in_bin {platform : Platform} (pair : string) (i : nat)
    (residues : list residue) : N :=
  N.of_nat (length (filter (λ p, hits pair i p.1 p.2 = true)
                           (unordered_pairs residues))).

(** A structure with a coordinate beyond the range of a square. *)
Definition far_residues : list residue :=
  [ Residue "A" 1 "A" (0, 0, 0)%float;
    Residue "A" 5 "C" (0x1p+600, 0, 0)%float ].

(** *** Aggregated counts *)

(** The rows [aggregate_counts] can add: those of valid keys have at most
    twenty bins. *)
Definition addable (h : gmap string (list N)) : Prop :=
  ∀ pair bins, h !! pair = Some bins → pair ∈ VALID_PAIRS → length bins ≤ 20.

(** The combined counts as the loop keeps them: valid keys, twenty bins. *)
Definition tidy (c : gmap string (list N)) : Prop :=
  ∀ pair bins, c !! pair = Some bins → pair ∈ VALID_PAIRS ∧ length bins = 20.

(** A histogram with a row of twenty-one bins, and one with a key that is
    not a pair. *)
Definition long_histogram : gmap string (list N) :=
  {[ "AC" := replicate 21 1%N ]}.

Definition foreign_histogram : gmap string (list N) :=
  {[ "AC" := [1; 2; 3]%N; "XY" := replicate 30 5%N ]}.


(** *** The loops over the set of pairs *)

(** One iteration of [write_scores]. *)
Definition write_pair (scores : gmap string (list R))
    (dir : gmap string (list string)) (pair : string)
  : gmap string (list string) :=
  match scores !! pair with
  | Some l =>
      if Train.any_positive l
      then <[String.append pair ".txt" := map Train.format4 l]> dir
      else dir
  | None => dir
  end.

(** One step of a loop that fills a table: the key gets the value [E]
    computes for it, when [E] has one. *)
Definition fill {V : Type} (E : string → option (result V)) (key : string)
    (results : gmap string V) : result (gmap string V) :=
  match E key with
  | Some m => v ← m; Ok (<[key := v]> results)
  | None => Ok results
  end.

(** The numbers [read_scores] reads from the lines of a file, and from
    the file of a pair when there is one. *)
Definition read_lines (float_of_string : string → option float)
    (lines : list string) : result (list float) :=
  mapM (λ line, Py.to_float float_of_string (Py.strip line)) lines.

Definition read_file (float_of_string : string → option float)
    (input_dir : gmap string (list string)) (pair : string)
  : option (result (list float)) :=
  read_lines float_of_string <$> input_dir !! file_name pair.

(** One iteration of [read_scores]. *)
Definition read_pair (float_of_string : string → option float)
    (input_dir : gmap string (list string)) (pair : string)
    (scores : gmap string (list float)) : result (gmap string (list float)) :=
  fill (read_file float_of_string input_dir) pair scores.

(** A directory left by an earlier training, with a file that is not a
    score file of a pair. *)
Definition stale_dir : gmap string (list string) :=
  {[ "CG.txt" := replicate 20 (String.append "1.2345" newline);
     "notes.txt" := ["remember"] ]}.

(** A directory whose file for AC has a blank line. *)
Definition blank_dir : gmap string (list string) :=
  {[ "AC.txt" := [String.append "0.5000" newline; newline] ]}.

(** *** Numbers written and read back *)




(** A line whose residue the reader keeps, and what it reads from it. *)
Definition retained (line : string) : bool :=
  relevant line &&
  bool_decide (Py.strip (Py.slice 17 20 line) ∈ VALID_RESIDUES).

Definition read_from (float_of_string : string → option float)
    (line : string) (r : residue) : Prop :=
  (c ← Py.char_at 21 line; Ok (Py.strip c)) = Ok (chain r) ∧
  Py.int_of_string (Py.strip (Py.slice 22 26 line)) = Ok (res_id r) ∧
  Py.strip (Py.slice 17 20 line) = res_name r ∧
  Py.to_float float_of_string (Py.slice 30 38 line) = Ok (coord r).1.1 ∧
  Py.to_float float_of_string (Py.slice 38 46 line) = Ok (coord r).1.2 ∧
  Py.to_float float_of_string (Py.slice 46 54 line) = Ok (coord r).2.

(** The score at distance [i + 1], and the [j]-th of the ten points
    drawn from it towards the next one. *)
Definition knot (score_list : list R) (i : nat) : R :=
  default 0%R (score_list !! i).

Definition interpolated (score_list : list R) (i j : nat) : R * R :=
  (INR (i + 1) + INR j / 9,
   knot score_list i
   + (knot score_list (i + 1) - knot score_list i) * INR j / 9)%R.

(** The structure files of a puzzle: the [.pdb] names of its directory,
    when it is one. *)
Definition puzzle_files (dirs : gmap string (list string))
    (base_dir puzzle_dir : string) : option (list string) :=
  names ← dirs !! Py.path_join base_dir puzzle_dir;
  Some (map (Py.path_join (Py.path_join base_dir puzzle_dir))
            (filter (λ f, Py.endswith ".pdb" f = true) names)).

(** A data set with one puzzle holding one structure, an empty puzzle and a
    stray file. *)
Definition example_dirs : gmap string (list string) :=
  {[ "data" := ["p1"; "README"; "p2"];
     "data/p1" := ["a.pdb"; "notes.txt"];
     "data/p2" := ["notes.txt"] ]}.

Definition example_puzzle_fs : gmap string (list string) :=
  {[ "data/p1/a.pdb" := example_lines ]}.


(** Three residues no two of which are separated: neighbours in chain A,
    and a residue of chain B with a coordinate whose square overflows. *)
Definition near_residues : list residue :=
  [ Residue "A" 1 "A" (0, 0, 0)%float;
    Residue "A" 2 "C" (3.5, 0, 0)%float;
    Residue "B" 9 "G" (0x1p+600, 0, 0)%float ].







(** *** The platform of the examples

    The examples run on a platform whose [pow] gives the correctly rounded
    square and reports nothing, and whose [sum] adds from the left. Their
    squares and sums are exact, so that every platform agrees on them. *)
#[global] Instance example_platform : Platform := {|
  libm_pow x _ := ((x * x)%float, NoError);
  float_sum l := foldl PrimFloat.add 0%float l
|}.

(** * Properties *)

(** ** Loops *)

Lemma bind_Ok {A B} (m : result A) (k : A → result B) (b : B) :
  m ≫= k = Ok b ↔ ∃ a, m = Ok a ∧ k a = Ok b.
Proof.
  destruct m as [a|e]; simpl.
  - split; [eauto | by intros (? & [= <-] & ?)].
  - split; [done | by intros (? & ? & ?)].
Qed.

Lemma returns_Ok {A} (a : A) : returns (Ok a).
Proof. by exists a. Qed.

Lemma not_returns_Raise {A} (e : exn) : ¬ returns (@Raise A e).
Proof. by intros [a Ha]. Qed.

Lemma returns_bind {A B} (m : result A) (k : A → result B) :
  returns (m ≫= k) ↔ ∃ a, m = Ok a ∧ returns (k a).
Proof.
  destruct m as [a|e]; simpl.
  - split; [eauto | by intros (? & [= <-] & ?)].
  - split; [by intros ?%not_returns_Raise | by intros (? & ? & ?)].
Qed.

(** An invariant that each iteration keeps holds when the loop ends. *)
Lemma for_each_invariant {A S} (P : S → Prop) (l : list A)
    (body : A → S → result S) (s s' : S) :
  for_each l body s = Ok s' →
  P s →
  (∀ x t t', x ∈ l → P t → body x t = Ok t' → P t') →
  P s'.
Proof.
  revert s. induction l as [|x l IH]; intros s; simpl.
  - by intros [= <-].
  - intros (t & Ht & Hrest)%bind_Ok Hs Hbody.
    apply (IH t); [done|by eapply Hbody; [left| |]|].
    intros y u u' Hy. apply Hbody. by right.
Qed.

(** A quantity that grows by [w x] at the iteration of [x] has grown by
    the sum of the [w x] when the loop ends. *)
Lemma for_each_measure {A S} (P : S → Prop) (mu : S → N) (w : A → N)
    (l : list A) (body : A → S → result S) (s s' : S) :
  for_each l body s = Ok s' →
  P s →
  (∀ x t t', x ∈ l → P t → body x t = Ok t' →
     P t' ∧ mu t' = (mu t + w x)%N) →
  P s' ∧ mu s' = (mu s + sum_with w l)%N.
Proof.
  revert s. induction l as [|x l IH]; intros s; simpl.
  - intros [= <-]. split; [done | lia].
  - intros (t & Ht & Hrest)%bind_Ok Hs Hbody.
    destruct (Hbody x s t) as [HPt Hmu]; [by left|done..|].
    destruct (IH t) as [HP' Hmu']; [done..| |].
    { intros y u u' Hy. apply Hbody. by right. }
    split; [done | lia].
Qed.

(** A loop that returns went through every iteration. *)
Lemma for_each_Ok_elem {A S} (l : list A) (body : A → S → result S)
    (s s' : S) (x : A) :
  for_each l body s = Ok s' → x ∈ l → ∃ t t', body x t = Ok t'.
Proof.
  revert s. induction l as [|y l IH]; intros s; simpl.
  - by intros _ ?%elem_of_nil.
  - intros (t & Ht & Hrest)%bind_Ok [->|Hx]%elem_of_cons; [eauto|].
    by apply (IH t).
Qed.

(** A loop whose iterations all return under an invariant returns. *)
Lemma for_each_returns {A S} (P : S → Prop) (l : list A)
    (body : A → S → result S) (s : S) :
  (∀ x t, x ∈ l → P t → ∃ t', body x t = Ok t' ∧ P t') →
  P s → ∃ s', for_each l body s = Ok s' ∧ P s'.
Proof.
  revert s. induction l as [|x l IH]; intros s Hbody Hs; simpl.
  - by exists s.
  - destruct (Hbody x s) as (t & -> & Ht); [by left|done|]. simpl.
    apply IH; [|done]. intros y u Hy. apply Hbody. by right.
Qed.

(** A loop that raises raised in one of its iterations, from a state the
    invariant holds of. *)
Lemma for_each_Raise {A S} (P : S → Prop) (l : list A)
    (body : A → S → result S) (s : S) (e : exn) :
  for_each l body s = Raise e →
  P s →
  (∀ x t t', x ∈ l → P t → body x t = Ok t' → P t') →
  ∃ x t, x ∈ l ∧ P t ∧ body x t = Raise e.
Proof.
  revert s. induction l as [|x l IH]; intros s; simpl; [done|].
  intros Hrun Hs Hbody. destruct (body x s) as [t|e'] eqn:Hx.
  - cbn [mbind result_bind] in Hrun.
    destruct (IH t Hrun) as (y & u & Hy & Hu & Hraise).
    { eapply Hbody; [by left|done..]. }
    { intros y u u' Hy. apply Hbody. by right. }
    exists y, u. split; [by right | done].
  - injection Hrun as ->. exists x, s. split; [by left | done].
Qed.

Lemma for_each_stops {A S} (l1 l2 : list A) (x : A)
    (body : A → S → result S) (s t : S) (e : exn) :
  for_each l1 body s = Ok t → body x t = Raise e →
  for_each (l1 ++ x :: l2) body s = Raise e.
Proof.
  revert s. induction l1 as [|y l1 IH]; intros s; simpl.
  - intros [= ->] ->. done.
  - intros (u & -> & Hrest)%bind_Ok Hx. simpl. by apply IH.
Qed.

Lemma for_each_unchanged {A S} (l : list A) (body : A → S → result S) (s : S) :
  (∀ x, x ∈ l → body x s = Ok s) → for_each l body s = Ok s.
Proof.
  induction l as [|x l IH]; intros Hbody; [done|].
  cbn [for_each]. rewrite Hbody by left. cbn [mbind result_bind].
  apply IH. intros; apply Hbody; by right.
Qed.

Lemma for_each_ext {A S} (l : list A) (f g : A → S → result S) (s : S) :
  (∀ x t, x ∈ l → f x t = g x t) → for_each l f s = for_each l g s.
Proof.
  revert s. induction l as [|x l IH]; intros s Hfg; [done|].
  cbn [for_each]. rewrite Hfg by left.
  destruct (g x s) as [t|e]; [|done]. cbn [mbind result_bind].
  apply IH. intros; apply Hfg; by right.
Qed.


Lemma mapM_returns {A B} (f : A → result B) (l : list A) :
  returns (mapM f l) ↔ ∀ x, x ∈ l → returns (f x).
Proof.
  induction l as [|x l IH]; simpl.
  - split; [by intros _ y ?%elem_of_nil | intros _; apply returns_Ok].
  - rewrite returns_bind. split.
    + intros (b & Hb & (k & Hk & _)%returns_bind) y [->|Hy]%elem_of_cons.
      * rewrite Hb. apply returns_Ok.
      * apply IH; [|done]. rewrite Hk. apply returns_Ok.
    + intros Hall. destruct (Hall x) as [b Hb]; [by left|].
      exists b. split; [done|]. apply returns_bind.
      destruct (proj2 IH) as [k Hk]; [intros y Hy; apply Hall; by right|].
      exists k. split; [done | apply returns_Ok].
Qed.

Lemma mapM_Forall {A B} (P : B → Prop) (f : A → result B) (l : list A)
    (ys : list B) :
  (∀ x y, f x = Ok y → P y) → mapM f l = Ok ys → Forall P ys.
Proof.
  intros Hf. revert ys. induction l as [|x l IH]; intros ys; simpl.
  - by intros [= <-].
  - intros (b & Hb & (k & Hk & [= <-])%bind_Ok)%bind_Ok.
    constructor; [by eapply Hf | by apply IH].
Qed.

Lemma mapM_Raise {A B} (f : A → result B) (l : list A) (e : exn) :
  mapM f l = Raise e → ∃ x, x ∈ l ∧ f x = Raise e.
Proof.
  induction l as [|x l IH]; simpl; [done|].
  destruct (f x) as [b|e'] eqn:Hx; cbn [mbind result_bind].
  - destruct (mapM f l) as [k|e'']; cbn [mbind result_bind]; [done|].
    intros [= <-]. destruct IH as (y & Hy & Hraise); [done|].
    exists y. split; [by right | done].
  - intros [= <-]. exists x. split; [by left | done].
Qed.

Lemma mapM_length {A B} (f : A → result B) (l : list A) (ys : list B) :
  mapM f l = Ok ys → length ys = length l.
Proof.
  revert ys. induction l as [|x l IH]; intros ys; simpl.
  - by intros [= <-].
  - intros (b & _ & (k & Hk & [= <-])%bind_Ok)%bind_Ok. simpl.
    by rewrite (IH k).
Qed.

Section Table.

Context {V : Type} (E : string → option (result V)).

Lemma for_each_fill_lookup (l : list string) (r r' : gmap string V)
    (q : string) (v : V) :
  for_each l (fill E) r = Ok r' →
  r' !! q = Some v
  ↔ (q ∈ l ∧ E q = Some (Ok v)) ∨
    (¬ (q ∈ l ∧ is_Some (E q)) ∧ r !! q = Some v).
Proof.
  revert r. induction l as [|p l IH]; intros r.
  - intros [= <-]. rewrite elem_of_nil. split; [|by intros [[[] _]|[_ ?]]].
    intros Hr. right. split; [by intros [[] _] | done].
  - cbn [for_each]. intros (r1 & Hp & Hrest)%bind_Ok.
    rewrite (IH _ Hrest). clear IH Hrest. rewrite elem_of_cons.
    unfold fill in Hp. destruct (E p) as [m|] eqn:Hm.
    + apply bind_Ok in Hp as (w & -> & [= <-]).
      rewrite lookup_insert_Some.
      destruct (decide (q = p)) as [->|Hne].
      * rewrite Hm. destruct (decide (p ∈ l)); split.
        -- intros [[_ ->]|[Hno _]]; [left; split; [by right|done]|].
           destruct Hno. split; [done | by eexists].
        -- intros [[_ [= <-]]|[Hno _]]; [by left|].
           destruct Hno. split; [by left | by eexists].
        -- intros [[? _]|[_ [[_ <-]|[? _]]]]; [done| |done].
           left. split; [by left | done].
        -- intros [[_ [= <-]]|[Hno _]].
           ++ right. split; [by intros [? _] | by left].
           ++ destruct Hno. split; [by left | by eexists].
      * split.
        -- intros [[Hl HE]|[Hno [[? _]|[_ Hr]]]];
             [left; split; [by right|done] | done |].
           right. split; [|done]. intros [[?|Hl] HE]; [done|]. by apply Hno.
        -- intros [[[?|Hl] HE]|[Hno Hr]]; [done | by left |].
           right. split; [|by right]. intros [Hl HE]. apply Hno.
           split; [by right | done].
    + injection Hp as <-.
      assert (¬ is_Some (E p)) as Hnone by (rewrite Hm; by intros [? ?]).
      split.
      * intros [[Hl HE]|[Hno Hr]]; [left; split; [by right|done]|].
        right. split; [|done]. intros [[->|Hl] HE]; [done|]. by apply Hno.
      * intros [[[->|Hl] HE]|[Hno Hr]]; [congruence | by left |].
        right. split; [|done]. intros [Hl HE]. apply Hno.
        split; [by right | done].
Qed.

Lemma for_each_fill_returns (l : list string) (r : gmap string V) :
  returns (for_each l (fill E) r)
  ↔ ∀ p m, p ∈ l → E p = Some m → returns m.
Proof.
  revert r. induction l as [|p l IH]; intros r.
  - split; [by intros _ p m ?%elem_of_nil | intros _; apply returns_Ok].
  - cbn [for_each]. rewrite returns_bind. split.
    + intros (r1 & Hp & Hrest) q m [->|Hq]%elem_of_cons Hm.
      * unfold fill in Hp. rewrite Hm in Hp.
        apply bind_Ok in Hp as (w & -> & _). apply returns_Ok.
      * by apply (proj1 (IH r1) Hrest q m).
    + intros Hall. unfold fill at 1. destruct (E p) as [m|] eqn:Hm.
      * destruct (Hall p m) as [w ->]; [by left|done|].
        eexists. split; [done|]. apply IH. intros q m' Hq. apply Hall. by right.
      * exists r. split; [done|]. apply IH. intros q m' Hq. apply Hall. by right.
Qed.

Lemma for_each_fill_Raise (l : list string) (r : gmap string V) (e : exn) :
  for_each l (fill E) r = Raise e → ∃ p, p ∈ l ∧ E p = Some (Raise e).
Proof.
  revert r. induction l as [|p l IH]; intros r; [done|].
  cbn [for_each]. destruct (fill E p r) as [r1|e'] eqn:Hp;
    cbn [mbind result_bind].
  - intros (q & Hq & Hraise)%IH. exists q. split; [by right | done].
  - intros [= <-]. exists p. split; [by left|]. unfold fill in Hp.
    destruct (E p) as [[v|e'']|]; cbn [mbind result_bind] in Hp;
      by simplify_eq.
Qed.

End Table.

(** ** Lists of counts *)

Lemma sum_insert (l : list N) (i : nat) (x y : N) :
  l !! i = Some x → (Py.sum (<[i := y]> l) + x = Py.sum l + y)%N.
Proof.
  revert i. induction l as [|a l IH]; intros [|i]; simpl; try done.
  - intros [= ->]. lia.
  - intros Hi. specialize (IH _ Hi). lia.
Qed.

Lemma index_in_range (n : nat) (i : Z) :
  (0 ≤ i < Z.of_nat n)%Z → Py.index n i = Ok (Z.to_nat i).
Proof.
  intros Hi. unfold Py.index.
  destruct (Z.ltb_spec i 0); [lia|].
  destruct (Z.leb_spec 0 i); [|lia].
  destruct (Z.ltb_spec i (Z.of_nat n)); [done | lia].
Qed.

Lemma iadd_in_range (l : list N) (i : Z) (d : N) :
  (0 ≤ i < Z.of_nat (length l))%Z →
  ∃ l', Py.iadd l i d = Ok l' ∧ length l' = length l ∧
        Py.sum l' = (Py.sum l + d)%N.
Proof.
  intros Hi. unfold Py.iadd. rewrite index_in_range by done. simpl.
  eexists; split; [done|]. split; [by rewrite length_insert|].
  destruct (lookup_lt_is_Some_2 l (Z.to_nat i)) as [x Hx]; [lia|].
  rewrite Hx. simpl. pose proof (sum_insert l _ x (x + d)%N Hx). lia.
Qed.

(** ** Totals of histograms *)

Lemma histogram_total_insert (h : gmap string (list N)) k v :
  (histogram_total (<[k := v]> h) + Py.sum (default [] (h !! k))
   = histogram_total h + Py.sum v)%N.
Proof.
  unfold histogram_total.
  assert (Hcomm : ∀ (z1 z2 : list N) (y : N),
    (Py.sum z1 + (Py.sum z2 + y) = Py.sum z2 + (Py.sum z1 + y))%N) by (intros; lia).
  destruct (h !! k) as [old|] eqn:Hk; simpl.
  - rewrite <- (insert_delete_eq h k v).
    rewrite (map_fold_insert_L _ _ k v (delete k h));
      [|intros; apply Hcomm|by rewrite lookup_delete_eq].
    rewrite (map_fold_delete_L _ _ k old h); [lia| |done].
    intros; apply Hcomm.
  - rewrite map_fold_insert_L; [lia| |done]. intros; apply Hcomm.
Qed.

(** ** Binary64 arithmetic *)

Lemma SFopp_binary_round_aux s m e l :
  SFopp (binary_round_aux prec emax s m e l)
  = binary_round_aux prec emax (negb s) m e l.
Proof.
  unfold binary_round_aux.
  destruct (shr_fexp prec emax m e l) as [mrs e'].
  destruct (shr_fexp prec emax _ e' loc_Exact) as [mrs' e''].
  destruct (shr_m mrs'); simpl; [reflexivity| |reflexivity].
  destruct (e'' <=? emax - prec)%Z; reflexivity.
Qed.

Lemma SFopp_binary_round s m e :
  SFopp (binary_round prec emax s m e) = binary_round prec emax (negb s) m e.
Proof.
  unfold binary_round. destruct (shl_align _ _ _) as [mz ez].
  apply SFopp_binary_round_aux.
Qed.

Lemma binary_normalize_opp m e :
  binary_normalize prec emax (- m) e false
  = SFopp (binary_normalize prec emax m e false)
  ∨ binary_normalize prec emax (- m) e false
    = binary_normalize prec emax m e false.
Proof.
  destruct m as [|p|p]; simpl.
  - right; reflexivity.
  - left. rewrite SFopp_binary_round. reflexivity.
  - left. rewrite SFopp_binary_round. reflexivity.
Qed.

Lemma SF64sub_swap x y :
  SF64sub y x = SFopp (SF64sub x y) ∨ SF64sub y x = SF64sub x y.
Proof.
  unfold SF64sub.
  destruct x as [sx|sx| |sx mx ex], y as [sy|sy| |sy my ey]; simpl;
    try (destruct sx, sy; simpl; auto; fail);
    try (destruct sx; simpl; auto; fail);
    try (destruct sy; simpl; auto; fail); auto.
  rewrite (Z.min_comm ey ex).
  set (p := cond_Zopp sx _). set (q := cond_Zopp sy _).
  replace (q - p)%Z with (- (p - q))%Z by lia.
  apply binary_normalize_opp.
Qed.

Lemma SFabs_opp u : SFabs (SFopp u) = SFabs u.
Proof. by destruct u as [[]|[]| |[] m e]. Qed.

(** The square does not see the sign. *)
Lemma pow2_opp {platform : Platform} (x y : float) :
  Prim2SF y = SFopp (Prim2SF x) → Py.pow2 y = Py.pow2 x.
Proof.
  intros Hy.
  assert (PrimFloat.abs y = PrimFloat.abs x) as Habs.
  { apply Prim2SF_inj. by rewrite !FloatAxioms.abs_spec, Hy, SFabs_opp. }
  unfold Py.pow2. rewrite Hy, Habs.
  destruct (Prim2SF x) as [s|s| |s m e] eqn:Hx; cbn [SFopp]; try done.
  f_equal. apply Prim2SF_inj. by rewrite Hy, Hx.
Qed.

Lemma pow2_diff_sym {platform : Platform} (a b : float) :
  Py.pow2 (a - b) = Py.pow2 (b - a).
Proof.
  destruct (SF64sub_swap (Prim2SF a) (Prim2SF b)) as [Hopp|Heq].
  - symmetry. apply pow2_opp. by rewrite !FloatAxioms.sub_spec.
  - f_equal. apply Prim2SF_inj. by rewrite !FloatAxioms.sub_spec.
Qed.

Lemma distance_sym {platform : Platform} c1 c2 : distance c1 c2 = distance c2 c1.
Proof.
  destruct c1 as [[x1 y1] z1], c2 as [[x2 y2] z2]. unfold distance.
  by rewrite (pow2_diff_sym x1), (pow2_diff_sym y1), (pow2_diff_sym z1).
Qed.

Lemma SF64sqrt_sign x :
  match SF64sqrt x with
  | S754_finite s _ _ => s = false
  | _ => True
  end.
Proof.
  unfold SF64sqrt, SFsqrt. destruct x as [s|[]| |[] m e]; try exact I.
  destruct (SFsqrt_core_binary _ _ _ _) as [[mz ez] lz].
  unfold binary_round_aux.
  destruct (shr_fexp prec emax mz ez lz) as [mrs e'].
  destruct (shr_fexp prec emax _ e' loc_Exact) as [mrs' e''].
  destruct (shr_m mrs'); try exact I.
  destruct (e'' <=? emax - prec)%Z; [reflexivity | exact I].
Qed.

Lemma int_of_sqrt_nonneg (x : float) (z : Z) :
  Py.int_of_float (PrimFloat.sqrt x) = Ok z → (0 ≤ z)%Z.
Proof.
  unfold Py.int_of_float. rewrite FloatAxioms.sqrt_spec.
  pose proof (SF64sqrt_sign (Prim2SF x)) as Hs.
  destruct (SF64sqrt (Prim2SF x)) as [s|s| |s m e]; intros [= <-]; [lia|].
  subst s. simpl. apply Z.shiftl_nonneg. lia.
Qed.


(** ** The histogram builder *)

Lemma distance_is_root {platform : Platform} c1 c2 d :
  distance c1 c2 = Ok d → ∃ x, d = PrimFloat.sqrt x.
Proof.
  destruct c1 as [[x1 y1] z1], c2 as [[x2 y2] z2]. unfold distance.
  intros (dx & _ & (dy & _ & (dz & _ & Hroot)%bind_Ok)%bind_Ok)%bind_Ok.
  unfold Py.sqrt in Hroot. destruct (_ <? _)%float; [done|].
  injection Hroot as <-. eauto.
Qed.

Lemma bin_of_nonneg {platform : Platform} r1 r2 b : bin_of r1 r2 = Ok b → (0 ≤ b)%Z.
Proof.
  unfold bin_of. intros (d & Hd & Hb)%bind_Ok.
  apply distance_is_root in Hd as [x ->]. by eapply int_of_sqrt_nonneg.
Qed.

Lemma bin_of_sym {platform : Platform} r1 r2 : bin_of r1 r2 = bin_of r2 r1.
Proof. unfold bin_of. by rewrite distance_sym. Qed.

Lemma compute_distances_visit {platform : Platform} (residues : list residue) :
  Train.compute_distances residues
  = for_each residues (λ r1 distances,
      for_each residues (visit r1) distances) ∅.
Proof. reflexivity. Qed.

Lemma visit_cases {platform : Platform} r1 r2 (h h' : gmap string (list N)) :
  visit r1 r2 h = Ok h' →
  well_formed h →
  (counted r1 r2 = false ∧ h' = h) ∨
  (counted r1 r2 = true ∧
   ∃ bins', h' = <[pair_key r1 r2 := bins']> h ∧ length bins' = 20 ∧
     Py.sum bins' = (Py.sum (default [] (h !! pair_key r1 r2)) + 1)%N).
Proof.
  intros Hrun Hwf. unfold counted, qualifies, separated, bin_of.
  unfold visit in Hrun. cbv beta zeta in Hrun. fold (pair_key r1 r2) in Hrun.
  destruct (bool_decide (chain r1 = chain r2) &&
            (3 <=? Z.abs (res_id r1 - res_id r2))%Z) eqn:Hsep; simpl;
    [|left; split; [done | congruence]].
  apply bind_Ok in Hrun as (d & Hd & Hrun). rewrite Hd. simpl.
  apply bind_Ok in Hrun as (b & Hb & Hrun). rewrite Hb.
  assert (0 ≤ b)%Z as Hb0.
  { apply (bin_of_nonneg r1 r2). unfold bin_of. by rewrite Hd. }
  destruct (b <? 20)%Z eqn:Hlt; simpl; [|left; split; [done | congruence]].
  destruct (bool_decide (pair_key r1 r2 ∈ VALID_PAIRS)) eqn:Hvalid;
    [|left; split; [done | congruence]].
  right. split; [done|].
  apply bind_Ok in Hrun as (bins' & Hbins & [= <-]).
  set (bins := default (replicate 20 0%N) (h !! pair_key r1 r2)) in *.
  assert (length bins = 20) as Hlen.
  { unfold bins. destruct (h !! pair_key r1 r2) as [l|] eqn:Hl; simpl.
    - by apply Hwf in Hl as (_ & ? & _).
    - done. }
  destruct (iadd_in_range bins b 1) as (l' & Hl' & Hlen' & Hsum'); [lia|].
  rewrite Hl' in Hbins. injection Hbins as <-.
  exists l'. split; [done|]. split; [lia|]. rewrite Hsum'.
  unfold bins. by destruct (h !! pair_key r1 r2).
Qed.

Lemma visit_spec {platform : Platform} r1 r2 (h h' : gmap string (list N)) :
  visit r1 r2 h = Ok h' →
  well_formed h →
  well_formed h' ∧
  histogram_total h' = (histogram_total h + indicator (counted r1 r2))%N.
Proof.
  intros Hrun Hwf.
  destruct (visit_cases _ _ _ _ Hrun Hwf)
    as [[-> ->] | [Hc (bins' & -> & Hlen & Hsum)]].
  - split; [done | simpl; lia].
  - rewrite Hc. simpl. split.
    + intros k l. destruct (decide (k = pair_key r1 r2)) as [->|Hne].
      * rewrite lookup_insert_eq. intros [= <-].
        apply andb_prop in Hc as [_ Hv%bool_decide_eq_true].
        repeat split; [done..|lia].
      * rewrite lookup_insert_ne by done. apply Hwf.
    + pose proof (histogram_total_insert h (pair_key r1 r2) bins'). lia.
Qed.

Lemma compute_distances_spec {platform : Platform} (residues : list residue) h :
  Train.compute_distances residues = Ok h →
  well_formed h ∧
  histogram_total h
  = sum_with (λ r1, sum_with (λ r2, indicator (counted r1 r2)) residues)
             residues.
Proof.
  rewrite compute_distances_visit. intros Hrun.
  apply (for_each_measure well_formed histogram_total
    (λ r1, sum_with (λ r2, indicator (counted r1 r2)) residues)) in Hrun
    as [Hwf Htot].
  - split; [done|]. rewrite Htot. unfold histogram_total.
    by rewrite map_fold_empty.
  - intros k l. by rewrite lookup_empty.
  - intros r1 t t' _ Hwf Hinner.
    apply (for_each_measure well_formed histogram_total
      (λ r2, indicator (counted r1 r2))) in Hinner; [done..|].
    intros r2 u u' _ Hu Hbody. by apply visit_spec.
Qed.

Lemma visit_returns {platform : Platform} r1 r2 (h : gmap string (list N)) :
  well_formed h →
  (separated r1 r2 = true → returns (bin_of r1 r2)) →
  ∃ h', visit r1 r2 h = Ok h' ∧ well_formed h'.
Proof.
  intros Hwf Hbin.
  assert (returns (visit r1 r2 h)) as [h' Hh'].
  { unfold visit. fold (separated r1 r2).
    destruct (separated r1 r2); [|apply returns_Ok].
    destruct (Hbin eq_refl) as [b Hb].
    pose proof (bin_of_nonneg _ _ _ Hb) as Hb0. unfold bin_of in Hb.
    destruct (distance (coord r1) (coord r2)) as [d|e]; [|done].
    cbn [mbind result_bind] in *. rewrite Hb. cbn [mbind result_bind].
    destruct (Z.ltb_spec b 20); [|apply returns_Ok].
    cbv zeta. destruct (bool_decide _); [|apply returns_Ok].
    set (bins := default (replicate 20 0%N) _).
    assert (length bins = 20) as Hlen.
    { unfold bins. destruct (h !! _) as [l|] eqn:Hl; simpl; [|done].
      by apply Hwf in Hl as (_ & ? & _). }
    destruct (iadd_in_range bins b 1) as (l' & -> & _); [lia|].
    apply returns_Ok. }
  exists h'. split; [done|]. by destruct (visit_spec _ _ _ _ Hh' Hwf).
Qed.

Lemma pow2_Raise {platform : Platform} (x : float) (e : exn) :
  Py.pow2 x = Raise e → e = OverflowError ∨ e = ValueError.
Proof.
  unfold Py.pow2. destruct (Prim2SF x); try done.
  destruct (_ =? _)%float; [done|].
  destruct (libm_pow _ _) as [ix [| |]];
    repeat (destruct (_ : bool)); intros [= <-]; auto.
Qed.

Lemma distance_Raise {platform : Platform} c1 c2 (e : exn) :
  distance c1 c2 = Raise e → e = OverflowError ∨ e = ValueError.
Proof.
  destruct c1 as [[x1 y1] z1], c2 as [[x2 y2] z2]. unfold distance.
  destruct (Py.pow2 (x1 - x2)) as [dx|e1] eqn:Hx; cbn [mbind result_bind];
    [|intros [= <-]; by eapply pow2_Raise].
  destruct (Py.pow2 (y1 - y2)) as [dy|e2] eqn:Hy; cbn [mbind result_bind];
    [|intros [= <-]; by eapply pow2_Raise].
  destruct (Py.pow2 (z1 - z2)) as [dz|e3] eqn:Hz; cbn [mbind result_bind];
    [|intros [= <-]; by eapply pow2_Raise].
  unfold Py.sqrt. destruct (_ <? _)%float; [|done]. intros [= <-]. by right.
Qed.

Lemma int_of_float_Raise (x : float) (e : exn) :
  Py.int_of_float x = Raise e → e = OverflowError ∨ e = ValueError.
Proof.
  unfold Py.int_of_float. destruct (Prim2SF x); intros [= <-]; auto.
Qed.

Lemma visit_Raise {platform : Platform} r1 r2 (h : gmap string (list N)) (e : exn) :
  visit r1 r2 h = Raise e → well_formed h →
  separated r1 r2 = true ∧ bin_of r1 r2 = Raise e ∧
  (e = OverflowError ∨ e = ValueError).
Proof.
  intros Hrun Hwf.
  destruct (separated r1 r2) eqn:Hsep.
  2:{ unfold visit in Hrun. fold (separated r1 r2) in Hrun.
      by rewrite Hsep in Hrun. }
  destruct (bin_of r1 r2) as [b|e'] eqn:Hbin.
  - destruct (visit_returns r1 r2 h Hwf) as (h' & Hh' & _);
      [intros _; by exists b | congruence].
  - unfold visit in Hrun. fold (separated r1 r2) in Hrun.
    rewrite Hsep in Hrun. unfold bin_of in Hbin.
    destruct (distance (coord r1) (coord r2)) as [d|e''] eqn:Hd;
      cbn [mbind result_bind] in *.
    + rewrite Hbin in Hrun. cbn [mbind result_bind] in Hrun.
      injection Hrun as ->. split; [done|]. split; [done|].
      by apply int_of_float_Raise in Hbin.
    + injection Hrun as ->. injection Hbin as ->.
      split; [done|]. split; [done|]. by apply distance_Raise in Hd.
Qed.


(** The builder returns exactly when every separated pair has a bin: no
    squared difference overflows and the distance is a number. *)
Lemma compute_distances_returns_iff {platform : Platform} (residues : list residue) :
  returns (Train.compute_distances residues)
  ↔ ∀ r1 r2, r1 ∈ residues → r2 ∈ residues →
      separated r1 r2 = true → returns (bin_of r1 r2).
Proof.
  rewrite compute_distances_visit. split.
  - intros [h Hrun] r1 r2 H1 H2 Hsep.
    destruct (for_each_Ok_elem _ _ _ _ r1 Hrun H1) as (t & t' & Hinner).
    destruct (for_each_Ok_elem _ _ _ _ r2 Hinner H2) as (u & u' & Hvisit).
    unfold visit in Hvisit. fold (separated r1 r2) in Hvisit.
    rewrite Hsep in Hvisit. unfold bin_of.
    destruct (distance (coord r1) (coord r2)) as [d|e]; [|done].
    cbn [mbind result_bind] in *.
    destruct (Py.int_of_float d) as [b|e]; [apply returns_Ok | done].
  - intros Hall.
    destruct (for_each_returns well_formed residues
      (λ r1 distances, for_each residues (visit r1) distances) ∅)
      as (h & Hh & _); [| |by exists h].
    + intros r1 t H1 Ht. apply for_each_returns; [|done].
      intros r2 u H2 Hu. apply visit_returns; [done|]. by apply Hall.
    + intros k l. by rewrite lookup_empty.
Qed.

(** ** Counting pairs *)

Lemma sum_with_ext {A} (f g : A → N) (l : list A) :
  (∀ x, x ∈ l → f x = g x) → sum_with f l = sum_with g l.
Proof.
  induction l as [|x l IH]; intros Hfg; simpl; [done|].
  rewrite (Hfg x) by left. rewrite IH; [done|].
  intros y Hy. apply Hfg. by right.
Qed.

Lemma sum_with_add {A} (f g : A → N) (l : list A) :
  sum_with (λ x, (f x + g x)%N) l = (sum_with f l + sum_with g l)%N.
Proof. induction l as [|x l IH]; simpl; [done | rewrite IH; lia]. Qed.

Lemma sum_with_zero {A} (l : list A) : sum_with (λ _, 0%N) l = 0%N.
Proof. induction l as [|x l IH]; simpl; [done | by rewrite IH]. Qed.

Section Pairs.

Context {A : Type} (q : A → A → bool).
Hypothesis q_sym : ∀ a b, q a b = q b a.
Hypothesis q_irrefl : ∀ a, q a a = false.

Lemma row_count (x : A) (l : list A) :
  N.of_nat (length (filter (λ p, q p.1 p.2 = true) (map (pair x) l)))
  = sum_with (λ b, indicator (q x b)) l.
Proof.
  induction l as [|b l IH]; simpl; [done|].
  rewrite filter_cons. simpl. destruct (decide (q x b = true)) as [Hq|Hq].
  - rewrite Hq. simpl. lia.
  - apply not_true_is_false in Hq. rewrite Hq. simpl. lia.
Qed.

(** Every unordered pair is met twice by the two nested loops, and no
    element is paired with itself. *)
Lemma ordered_twice_unordered (l : list A) :
  sum_with (λ a, sum_with (λ b, indicator (q a b)) l) l
  = (2 * N.of_nat (length (filter (λ p, q p.1 p.2 = true)
                                  (unordered_pairs l))))%N.
Proof.
  induction l as [|x l IH]; simpl; [done|].
  rewrite q_irrefl. simpl.
  rewrite sum_with_add, IH, filter_app, length_app, Nat2N.inj_add, row_count.
  rewrite (sum_with_ext (λ a, indicator (q a x)) (λ a, indicator (q x a)))
    by (intros; by rewrite q_sym).
  lia.
Qed.

End Pairs.

Lemma qualifies_sym {platform : Platform} r1 r2 : qualifies r1 r2 = qualifies r2 r1.
Proof.
  unfold qualifies, separated. rewrite (bin_of_sym r1 r2).
  replace (res_id r2 - res_id r1)%Z with (- (res_id r1 - res_id r2))%Z by lia.
  rewrite Z.abs_opp. f_equal. f_equal. apply bool_decide_ext. split; congruence.
Qed.

Lemma qualifies_irrefl {platform : Platform} r : qualifies r r = false.
Proof.
  unfold qualifies, separated. rewrite Z.sub_diag. simpl.
  by rewrite andb_false_r.
Qed.

(** Two valid base types always form one of the ten keys. *)
Lemma pair_key_valid r1 r2 :
  valid_residue r1 → valid_residue r2 → pair_key r1 r2 ∈ VALID_PAIRS.
Proof.
  unfold valid_residue, pair_key, VALID_RESIDUES.
  rewrite !elem_of_cons, !elem_of_nil.
  intros [->|[->|[->|[->|[]]]]] [->|[->|[->|[->|[]]]]];
    vm_compute; set_solver.
Qed.

Lemma counted_valid {platform : Platform} r1 r2 :
  valid_residue r1 → valid_residue r2 → counted r1 r2 = qualifies r1 r2.
Proof.
  intros H1 H2. unfold counted.
  rewrite bool_decide_eq_true_2 by by apply pair_key_valid.
  apply andb_true_r.
Qed.

(** ** The two ways of summing a histogram *)

Lemma sum_with_point {A} `{EqDecision A} (f g : A → N) (l : list A) (i : A) (d : N) :
  NoDup l → i ∈ l → (∀ k, k ≠ i → g k = f k) → g i = (f i + d)%N →
  sum_with g l = (sum_with f l + d)%N.
Proof.
  intros Hnd Hi Hne Heq. induction Hnd as [|x l Hx Hnd IH]; [by apply elem_of_nil in Hi|].
  simpl. destruct (decide (x = i)) as [->|Hxi].
  - rewrite Heq. rewrite (sum_with_ext g f); [lia|].
    intros y Hy. apply Hne. intros ->. done.
  - rewrite (Hne x) by done. apply elem_of_cons in Hi as [->|Hi]; [done|].
    rewrite IH by done. lia.
Qed.

Lemma sum_bins_20 (bins : list N) :
  length bins = 20 →
  sum_with (λ i, default 0%N (bins !! i)) (seq 0 20) = Py.sum bins.
Proof.
  intros Hlen.
  do 21 (destruct bins as [|? bins]; try done).
Qed.

Lemma VALID_PAIRS_NoDup : NoDup VALID_PAIRS.
Proof. apply (bool_decide_unpack _). by vm_compute. Qed.

Lemma grand_total_histogram_total (h : gmap string (list N)) :
  well_formed h → grand_total h = histogram_total h.
Proof.
  induction h as [|k bins h Hk IH] using map_ind; intros Hwf.
  - unfold grand_total, histogram_total. rewrite map_fold_empty.
    rewrite (sum_with_ext _ (λ _, 0%N)); [apply sum_with_zero|].
    intros pair _. rewrite (sum_with_ext _ (λ _, 0%N)); [apply sum_with_zero|].
    intros i _. unfold count_at. by rewrite lookup_empty.
  - pose proof (histogram_total_insert h k bins) as Htot.
    rewrite Hk in Htot. simpl in Htot. rewrite N.add_0_r in Htot.
    rewrite Htot, <- IH.
    2:{ intros p l Hp. apply Hwf. rewrite lookup_insert_ne; [done|].
        intros <-. congruence. }
    destruct (Hwf k bins) as (Hin & Hlen & _); [by rewrite lookup_insert_eq|].
    unfold grand_total.
    apply (sum_with_point _ _ _ k); [apply VALID_PAIRS_NoDup|done| |].
    + intros p Hp. apply sum_with_ext. intros i _. unfold count_at.
      by rewrite lookup_insert_ne.
    + rewrite (sum_with_ext (count_at h k) (λ _, 0%N)), sum_with_zero.
      2:{ intros i _. unfold count_at. by rewrite Hk. }
      rewrite <- (sum_bins_20 bins Hlen), N.add_0_l.
      apply sum_with_ext. intros i _. unfold count_at.
      by rewrite lookup_insert_eq.
Qed.

(** C1: the histogram of a structure counts every qualifying unordered
    pair of residues exactly twice: the sum of all its bins, over the ten
    keys and the twenty bins, and equally the sum of everything it
    holds, is twice the number of pairs of distinct residues that are on
    the same chain, at least three positions apart, and whose distance
    has an integer part below 20. This holds on every platform: the
    distance of a pair is computed alike in both orders, because the
    interpreter squares the absolute value of a difference. *)
Theorem histogram_counts_each_pair_twice {platform : Platform} (residues : list residue)
    (h : gmap string (list N)) :
  Forall valid_residue residues →
  Train.compute_distances residues = Ok h →
  grand_total h = (2 * qualifying_pairs residues)%N ∧
  histogram_total h = (2 * qualifying_pairs residues)%N.
Proof.
  intros Hvalid Hrun.
  apply compute_distances_spec in Hrun as [Hwf Htot].
  rewrite grand_total_histogram_total by done.
  assert (histogram_total h = (2 * qualifying_pairs residues)%N) as ->; [|done].
  rewrite Htot. unfold qualifying_pairs.
  rewrite <- (ordered_twice_unordered qualifies qualifies_sym qualifies_irrefl).
  rewrite Forall_forall in Hvalid.
  apply sum_with_ext. intros r1 H1. apply sum_with_ext. intros r2 H2.
  by rewrite counted_valid by auto.
Qed.

Lemma histogram_counts_each_pair_twice_witness :
  Forall valid_residue example_residues ∧
  Train.compute_distances example_residues = Ok example_histogram ∧
  grand_total example_histogram = (2 * qualifying_pairs example_residues)%N ∧
  histogram_total example_histogram
  = (2 * qualifying_pairs example_residues)%N.
Proof.
  assert (Forall valid_residue example_residues) as Hvalid.
  { repeat constructor; vm_compute; set_solver. }
  assert (Train.compute_distances example_residues = Ok example_histogram)
    as Hrun by (vm_compute; reflexivity).
  split; [done|]. split; [done|].
  exact (histogram_counts_each_pair_twice _ _ Hvalid Hrun).
Defined.

(** The example of the description: two residues of chain A at positions 1
    and 5, an A and a C, 3.5 apart, fill bin 3 of the key AC, twice. *)
Lemma two_residues_histogram :
  Train.compute_distances
    [ Residue "A" 1 "A" (0, 0, 0)%float; Residue "A" 5 "C" (0, 0, 3.5)%float ]
  = Ok {[ "AC" := <[3%nat := 2%N]> (replicate 20 0%N) ]}.
Proof. vm_compute. reflexivity. Qed.

(** ** Aggregation *)

Lemma iadd_nat (l : list N) (i : nat) (d : N) :
  Py.iadd l (Z.of_nat i) d
  = if decide (i < length l)
    then Ok (<[i := (default 0 (l !! i) + d)%N]> l)
    else Raise IndexError.
Proof.
  unfold Py.iadd, Py.index.
  destruct (Z.ltb_spec (Z.of_nat i) 0); [lia|].
  destruct (Z.leb_spec 0 (Z.of_nat i)); [|lia]. simpl.
  destruct (Z.ltb_spec (Z.of_nat i) (Z.of_nat (length l)));
    case_decide; try lia; simpl; [|done].
  by rewrite Nat2Z.id.
Qed.

Lemma add_at_shift (off : nat) (bins : list N) (x : N) (l : list N) :
  add_at (S off) bins (x :: l) = x :: add_at off bins l.
Proof.
  revert off l. induction bins as [|b bs IH]; intros off l; simpl; [done|].
  apply IH.
Qed.

Lemma add_at_cons (b c : N) (bs cs : list N) :
  add_at 0 (b :: bs) (c :: cs) = (c + b)%N :: add_at 0 bs cs.
Proof. simpl. apply add_at_shift. Qed.

Lemma add_at_nil_r (off : nat) (bins : list N) : add_at off bins [] = [].
Proof. revert off. induction bins as [|b bs IH]; intros off; simpl; auto. Qed.

Lemma length_add_at (off : nat) (bins cur : list N) :
  length (add_at off bins cur) = length cur.
Proof.
  revert off cur. induction bins as [|b bs IH]; intros off cur; simpl; [done|].
  by rewrite IH, length_insert.
Qed.

Lemma sum_add_at (bins cur : list N) :
  length bins ≤ length cur →
  Py.sum (add_at 0 bins cur) = (Py.sum cur + Py.sum bins)%N.
Proof.
  revert cur. induction bins as [|b bs IH]; intros [|c cs] Hlen;
    simpl in Hlen; try lia.
  - simpl. lia.
  - simpl. lia.
  - rewrite add_at_cons. simpl. rewrite IH by lia. lia.
Qed.

Lemma add_at_comm (b1 b2 cur : list N) :
  add_at 0 b1 (add_at 0 b2 cur) = add_at 0 b2 (add_at 0 b1 cur).
Proof.
  revert b1 b2. induction cur as [|c cs IH]; intros b1 b2.
  - by rewrite !add_at_nil_r.
  - destruct b1 as [|x1 b1], b2 as [|x2 b2]; try done.
    rewrite !add_at_cons, IH. f_equal. lia.
Qed.

(** The loop of [add_bins] from bin [off] on, once the pair has its row. *)
Lemma add_bins_from (pair : string) (off : nat) (bins cur : list N)
    (c : gmap string (list N)) :
  c !! pair = Some cur → off ≤ length cur →
  for_each (Py.enumerate_from off bins)
    (λ '(bin_idx, count) combined_counts,
      row ← Py.iadd (default (replicate 20 0%N) (combined_counts !! pair))
                    (Z.of_nat bin_idx) count;
      Ok (<[pair := row]> combined_counts)) c
  = if decide (off + length bins ≤ length cur)
    then Ok (<[pair := add_at off bins cur]> c)
    else Raise IndexError.
Proof.
  revert off cur c. induction bins as [|b bs IH]; intros off cur c Hc Hoff;
    cbn [for_each Py.enumerate_from length].
  - rewrite decide_True by lia. by rewrite insert_id.
  - rewrite Hc. change (default (replicate 20 0%N) (Some cur)) with cur.
    rewrite iadd_nat.
    destruct (decide (off < length cur)) as [Hlt|Hge]; cbn [mbind result_bind].
    + rewrite (IH (S off) (<[off := (default 0 (cur !! off) + b)%N]> cur));
        [|by rewrite lookup_insert_eq|rewrite length_insert; lia].
      rewrite length_insert, insert_insert_eq.
      repeat case_decide; try lia; done.
    + rewrite decide_False by lia. done.
Qed.

(** The whole loop: nothing for an empty row, [IndexError] for a row
    longer than the one it is added to. *)
Lemma add_bins_closed (pair : string) (bins : list N)
    (c : gmap string (list N)) :
  Train.add_bins pair bins c
  = match bins with
    | [] => Ok c
    | _ => if decide (length bins ≤ length (row c pair))
           then Ok (<[pair := add_at 0 bins (row c pair)]> c)
           else Raise IndexError
    end.
Proof.
  unfold Train.add_bins, Py.enumerate, row.
  destruct bins as [|b bs]; [done|].
  destruct (c !! pair) as [cur|] eqn:Hc.
  - rewrite (add_bins_from pair 0 (b :: bs) cur c Hc) by lia. done.
  - cbn [for_each Py.enumerate_from]. rewrite Hc.
    change (default (replicate 20 0%N) None) with (replicate 20 0%N).
    rewrite iadd_nat. rewrite decide_True by (simpl; lia). cbn [mbind result_bind].
    rewrite (add_bins_from pair 1 bs
               (<[0%nat := (default 0 (replicate 20 0 !! 0%nat) + b)]> (replicate 20 0))%N);
      [|by rewrite lookup_insert_eq|rewrite length_insert; simpl; lia].
    rewrite length_insert, insert_insert_eq.
    cbn [length]. repeat case_decide; try lia; done.
Qed.

Lemma row_insert_eq c pair l : row (<[pair := l]> c) pair = l.
Proof. unfold row. by rewrite lookup_insert_eq. Qed.

Lemma row_insert_ne c p1 p2 l : p1 ≠ p2 → row (<[p1 := l]> c) p2 = row c p2.
Proof. intros. unfold row. by rewrite lookup_insert_ne. Qed.

Lemma add_item_closed (pair : string) (bins : list N)
    (c : gmap string (list N)) :
  add_item pair bins c
  = if decide (pair ∈ VALID_PAIRS ∧ bins ≠ []) then
      if decide (length bins ≤ length (row c pair))
      then Ok (<[pair := add_at 0 bins (row c pair)]> c)
      else Raise IndexError
    else Ok c.
Proof.
  unfold add_item. rewrite add_bins_closed.
  destruct (bool_decide_reflect (pair ∈ VALID_PAIRS)) as [Hin|Hout].
  - destruct bins as [|b bs].
    + rewrite decide_False; [done | intros [_ ?]; done].
    + by rewrite (decide_True (P := pair ∈ VALID_PAIRS ∧ b :: bs ≠ [])).
  - rewrite decide_False; [done | intros [? _]; done].
Qed.

(** Two items can be added in either order, so the order in which a dict
    yields its items does not matter. *)
Lemma add_item_comm (p1 p2 : string) (b1 b2 : list N)
    (c : gmap string (list N)) :
  add_item p1 b1 c ≫= add_item p2 b2 = add_item p2 b2 c ≫= add_item p1 b1.
Proof.
  rewrite (add_item_closed p1 b1 c), (add_item_closed p2 b2 c).
  destruct (decide (p1 = p2)) as [<-|Hne].
  - repeat case_decide; cbn [mbind result_bind];
      rewrite ?add_item_closed, ?row_insert_eq, ?length_add_at;
      repeat case_decide; try done; try lia.
    by rewrite !insert_insert_eq, add_at_comm.
  - repeat case_decide; cbn [mbind result_bind];
      rewrite ?add_item_closed, ?row_insert_ne by done;
      repeat case_decide; try done; try lia.
    by rewrite insert_insert_ne.
Qed.

Lemma add_histogram_add_items (distances c : gmap string (list N)) :
  Train.add_histogram distances c = add_items distances (Ok c).
Proof. reflexivity. Qed.

Lemma bind_add_item_comm (p1 p2 : string) (b1 b2 : list N)
    (acc : result (gmap string (list N))) :
  (acc ≫= add_item p1 b1) ≫= add_item p2 b2
  = (acc ≫= add_item p2 b2) ≫= add_item p1 b1.
Proof. destruct acc as [c|e]; [apply add_item_comm | done]. Qed.

Lemma add_items_bind (distances : gmap string (list N)) (p : string)
    (b : list N) (acc : result (gmap string (list N))) :
  add_items distances (acc ≫= add_item p b)
  = add_items distances acc ≫= add_item p b.
Proof.
  unfold add_items.
  apply (map_fold_comm_acc _ (λ acc, acc ≫= add_item p b)).
  intros j z y. apply bind_add_item_comm.
Qed.

Lemma add_items_comm (h1 h2 : gmap string (list N))
    (acc : result (gmap string (list N))) :
  add_items h1 (add_items h2 acc) = add_items h2 (add_items h1 acc).
Proof.
  unfold add_items at 1 3.
  apply (map_fold_comm_acc _ (add_items h2)).
  intros j z y. symmetry. apply add_items_bind.
Qed.

Lemma add_items_Raise (h : gmap string (list N)) (e : exn) :
  add_items h (Raise e) = Raise e.
Proof.
  unfold add_items. rewrite map_fold_foldr.
  induction (map_to_list h) as [|[p b] l IH]; simpl; [done|].
  by rewrite IH.
Qed.

Lemma foldl_add_items_Raise (l : list (gmap string (list N))) (e : exn) :
  foldl (λ acc h, add_items h acc) (Raise e) l = Raise e.
Proof.
  induction l as [|h l IH]; simpl; [done|]. by rewrite add_items_Raise.
Qed.

Lemma for_each_add_histogram (l : list (gmap string (list N)))
    (c : gmap string (list N)) :
  for_each l Train.add_histogram c
  = foldl (λ acc h, add_items h acc) (Ok c) l.
Proof.
  revert c. induction l as [|h l IH]; intros c; simpl; [done|].
  rewrite add_histogram_add_items.
  destruct (add_items h (Ok c)) as [c'|e]; simpl; [apply IH|].
  by rewrite foldl_add_items_Raise.
Qed.

Lemma foldl_add_items_permutation (l l' : list (gmap string (list N))) :
  l ≡ₚ l' →
  ∀ acc, foldl (λ acc h, add_items h acc) acc l
         = foldl (λ acc h, add_items h acc) acc l'.
Proof.
  induction 1 as [|h l l' _ IH|h1 h2 l|l l' l'' _ IH1 _ IH2]; intros acc; simpl.
  - done.
  - apply IH.
  - by rewrite add_items_comm.
  - by rewrite IH1.
Qed.

(** C6: aggregation does not depend on the order of the histograms: a
    permutation of the collection gives the same aggregated counts (or the
    same exception, when a row is too long). *)
Theorem aggregate_counts_permutation
    (all_distances all_distances' : list (gmap string (list N))) :
  all_distances ≡ₚ all_distances' →
  Train.aggregate_counts all_distances = Train.aggregate_counts all_distances'.
Proof.
  intros Hperm. unfold Train.aggregate_counts.
  rewrite !for_each_add_histogram.
  by apply foldl_add_items_permutation.
Qed.

Lemma aggregate_counts_permutation_witness :
  [example_histogram; example_histogram_2]
    ≡ₚ [example_histogram_2; example_histogram] ∧
  Train.aggregate_counts [example_histogram; example_histogram_2]
  = Train.aggregate_counts [example_histogram_2; example_histogram] ∧
  Train.aggregate_counts [example_histogram; example_histogram_2]
  = Ok example_combined.
Proof.
  split; [apply perm_swap|].
  split; [apply aggregate_counts_permutation, perm_swap|].
  vm_compute. reflexivity.
Defined.

(** ** Keys always carry a count *)

Lemma sum_pos_exists (l : list N) :
  (0 < Py.sum l)%N → ∃ i c, l !! i = Some c ∧ (0 < c)%N.
Proof.
  induction l as [|x l IH]; simpl; [lia|]. intros Hpos.
  destruct (decide (0 < x)%N) as [Hx|Hx].
  - by exists 0, x.
  - destruct IH as (i & c & Hi & Hc); [lia|]. by exists (S i), c.
Qed.

Lemma add_item_well_formed (pair : string) (bins : list N)
    (c : gmap string (list N)) :
  well_formed c → length bins = 20 → (0 < Py.sum bins)%N →
  ∃ c', add_item pair bins c = Ok c' ∧ well_formed c'.
Proof.
  intros Hwf Hlen Hsum. rewrite add_item_closed.
  assert (length (row c pair) = 20) as Hrow.
  { unfold row. destruct (c !! pair) as [l|] eqn:Hl; simpl; [|done].
    by apply Hwf in Hl as (_ & ? & _). }
  destruct (decide (pair ∈ VALID_PAIRS ∧ bins ≠ [])) as [[Hin _]|_];
    [|by exists c].
  rewrite decide_True by lia. eexists; split; [done|].
  intros k l. destruct (decide (k = pair)) as [->|Hne].
  - rewrite lookup_insert_eq. intros [= <-].
    rewrite length_add_at, sum_add_at by lia. repeat split; [done..|lia].
  - rewrite lookup_insert_ne by done. apply Hwf.
Qed.

Lemma add_histogram_well_formed (h c : gmap string (list N)) :
  well_formed h → well_formed c →
  ∃ c', Train.add_histogram h c = Ok c' ∧ well_formed c'.
Proof.
  intros Hh Hc. rewrite add_histogram_add_items. unfold add_items.
  revert Hh.
  apply (map_fold_weak_ind (λ r m, well_formed m →
           ∃ c', r = Ok c' ∧ well_formed c')).
  - intros _. by exists c.
  - intros p b m r Hp IH Hm.
    destruct IH as (c1 & -> & Hc1).
    { intros k l Hk. apply Hm. rewrite lookup_insert_ne; [done|].
      intros <-. congruence. }
    destruct (Hm p b) as (_ & Hlen & Hsum); [by rewrite lookup_insert_eq|].
    by apply add_item_well_formed.
Qed.

Lemma aggregate_counts_well_formed (all_distances : list (gmap string (list N))) :
  Forall well_formed all_distances →
  ∃ combined, Train.aggregate_counts all_distances = Ok combined ∧
              well_formed combined.
Proof.
  intros Hall. rewrite Forall_forall in Hall.
  apply for_each_returns.
  - intros h t Hh Ht. apply add_histogram_well_formed; auto.
  - intros k l. by rewrite lookup_empty.
Qed.

(** C8: a key is created only when one of its bins is incremented. In
    every histogram the builder returns, each key has twenty bins whose
    total is at least one, so one of them is positive; aggregating such
    histograms returns, and every aggregated key has a positive
    total, so that score derivation always takes the branch
    [total_counts > 0]. *)
Theorem histogram_keys_have_counts {platform : Platform} (all_residues : list (list residue))
    (all_distances : list (gmap string (list N))) :
  Forall2 (λ residues h, Train.compute_distances residues = Ok h)
    all_residues all_distances →
  (∀ h pair bins, h ∈ all_distances → h !! pair = Some bins →
     length bins = 20 ∧ (1 ≤ Py.sum bins)%N ∧
     ∃ i c, bins !! i = Some c ∧ (0 < c)%N) ∧
  ∃ combined_counts,
    Train.aggregate_counts all_distances = Ok combined_counts ∧
    ∀ pair counts, combined_counts !! pair = Some counts →
      (0 <? Py.sum counts)%N = true ∧
      ∀ count, Train.bin_score (Py.sum counts) count
               = Rmin (if Rlt_dec 0 (Py.real count / Py.real (Py.sum counts))
                       then - ln (Py.real count / Py.real (Py.sum counts)
                                  / (1 / 20))
                       else 10) 10.
Proof.
  intros Hall.
  assert (Forall well_formed all_distances) as Hwf.
  { induction Hall as [|rs h rss hs Hrun _ IH]; constructor; [|done].
    by apply compute_distances_spec in Hrun as [? _]. }
  split.
  - intros h pair bins Hh Hbins. rewrite Forall_forall in Hwf.
    destruct (Hwf h Hh pair bins Hbins) as (_ & Hlen & Hsum).
    split; [done|]. split; [lia|]. by apply sum_pos_exists.
  - destruct (aggregate_counts_well_formed all_distances Hwf)
      as (combined & Hagg & Hcomb).
    exists combined. split; [done|]. intros pair counts Hcounts.
    destruct (Hcomb pair counts Hcounts) as (_ & _ & Hsum).
    assert ((0 <? Py.sum counts)%N = true) as Hpos by by apply N.ltb_lt.
    split; [done|]. intros count. unfold Train.bin_score. by rewrite Hpos.
Qed.

Lemma histogram_keys_have_counts_witness :
  Forall2 (λ residues h, Train.compute_distances residues = Ok h)
    [example_residues; example_residues]
    [example_histogram; example_histogram] ∧
  ∃ combined_counts,
    Train.aggregate_counts [example_histogram; example_histogram]
    = Ok combined_counts ∧
    ∀ pair counts, combined_counts !! pair = Some counts →
      (0 <? Py.sum counts)%N = true.
Proof.
  assert (Forall2 (λ residues h, Train.compute_distances residues = Ok h)
            [example_residues; example_residues]
            [example_histogram; example_histogram]) as Hall.
  { repeat constructor; vm_compute; reflexivity. }
  split; [done|].
  destruct (histogram_keys_have_counts _ _ Hall) as (_ & c & Hc & Hpos).
  exists c. split; [done|]. intros pair counts Hcounts.
  by destruct (Hpos pair counts Hcounts).
Defined.

(** ** The two builders *)

(** C9: the histogram built inside [compute_distances_and_scores] is the
    one [compute_distances] builds, for every list of residues, key for key
    and bin for bin, and the two raise on the same lists. *)
Theorem scoring_histogram_is_training_histogram {platform : Platform} (residues : list residue) :
  Scoring.distances_of residues = Train.compute_distances residues ∧
  ∀ h, Train.compute_distances residues = Ok h →
    ∃ h', Scoring.distances_of residues = Ok h' ∧
      ∀ pair i, count_at h' pair i = count_at h pair i.
Proof.
  assert (Scoring.distances_of residues = Train.compute_distances residues)
    as Heq by reflexivity.
  split; [done|]. intros h Hh. exists h. by rewrite Heq.
Qed.

(** ** Scores *)

Lemma calculate_scores_fmap (combined_counts : gmap string (list N)) :
  Train.calculate_scores combined_counts
  = Train.pair_scores <$> combined_counts.
Proof.
  unfold Train.calculate_scores.
  apply (map_fold_weak_ind (λ r m, r = Train.pair_scores <$> m)).
  - by rewrite fmap_empty.
  - intros p counts m r _ ->. by rewrite fmap_insert.
Qed.

Lemma calculate_scores_lookup (combined_counts : gmap string (list N))
    (pair : string) :
  Train.calculate_scores combined_counts !! pair
  = Train.pair_scores <$> combined_counts !! pair.
Proof. by rewrite calculate_scores_fmap, lookup_fmap. Qed.

Lemma real_nonneg (n : N) : (0 <= Py.real n)%R.
Proof. unfold Py.real. apply IZR_le. lia. Qed.

Lemma real_pos (n : N) : (0 < n)%N → (0 < Py.real n)%R.
Proof. intros. unfold Py.real. apply IZR_lt. lia. Qed.

Lemma observed_freq_nonneg (counts : list N) (count : N) :
  (0 <= observed_freq counts count)%R.
Proof.
  unfold observed_freq. case_decide; [lra|].
  apply Rle_mult_inv_pos; [apply real_nonneg | apply real_pos; lia].
Qed.

(** The score the program computes is the capped raw score. *)
Lemma bin_score_capped (counts : list N) (count : N) :
  Train.bin_score (Py.sum counts) count = Rmin (raw_score counts count) 10.
Proof.
  unfold Train.bin_score, raw_score, observed_freq.
  destruct (N.ltb_spec 0 (Py.sum counts)); case_decide; try lia; done.
Qed.

Lemma ln_le_iff (x y : R) : (0 < x)%R → (ln x <= y ↔ x <= exp y)%R.
Proof.
  intros Hx. split; intros H.
  - destruct (Rle_or_lt x (exp y)) as [|Hlt]; [done|].
    apply ln_increasing in Hlt; [|apply exp_pos].
    rewrite ln_exp in Hlt. lra.
  - destruct (Rle_or_lt (ln x) y) as [|Hlt]; [done|].
    apply exp_increasing in Hlt. rewrite exp_ln in Hlt by done. lra.
Qed.

(** The cap is reached exactly by the frequencies up to [exp (-10) / 20]. *)
Lemma capped_score_10_iff (counts : list N) (count : N) :
  Rmin (raw_score counts count) 10 = 10%R
  ↔ (observed_freq counts count * 20 <= exp (- 10))%R.
Proof.
  pose proof (observed_freq_nonneg counts count) as Hnn.
  pose proof (exp_pos (- 10)) as Hexp.
  unfold raw_score. destruct (Rlt_dec 0 (observed_freq counts count)) as [Hpos|Hz].
  - replace (observed_freq counts count / (1 / 20))%R
      with (observed_freq counts count * 20)%R by lra.
    assert (0 < observed_freq counts count * 20)%R as Hpos' by lra.
    rewrite <- (ln_le_iff _ _ Hpos'). unfold Rmin.
    destruct (Rle_dec _ _); split; lra.
  - assert (observed_freq counts count = 0%R) as -> by lra.
    rewrite Rmin_left by lra. split; [lra | done].
Qed.

Lemma exp_10_bound : (exp 10 <= 100000)%R.
Proof.
  replace 10%R with (1 + 1 + 1 + 1 + 1 + 1 + 1 + 1 + 1 + 1)%R by lra.
  rewrite !exp_plus.
  pose proof exp_le_3 as H3. pose proof (exp_pos 1) as Hpos.
  set (e := exp 1) in *.
  assert (e * e <= 9)%R as H2 by nra.
  assert (e * e * e * e <= 81)%R as H4 by nra.
  assert (e * e * e * e * e <= 243)%R as H5 by nra.
  assert (0 < e * e * e * e * e)%R as H5p.
  { repeat apply Rmult_lt_0_compat; done. }
  replace (e * e * e * e * e * e * e * e * e * e)%R
    with ((e * e * e * e * e) * (e * e * e * e * e))%R by ring.
  nra.
Qed.

(** C2, as far as it holds: every derived score is the capped raw score,
    none exceeds 10, a bin that was never observed scores 10, and a score
    is 10 exactly when the observed frequency is at most
    [exp (-10) / 20], which some positive frequencies are. *)
Theorem scores_are_capped_log_odds (combined_counts : gmap string (list N))
    (pair : string) (counts : list N) :
  combined_counts !! pair = Some counts →
  ∃ scores,
    Train.calculate_scores combined_counts !! pair = Some scores ∧
    Forall2 (λ count score,
      score = Rmin (raw_score counts count) 10 ∧
      (score <= 10)%R ∧
      (observed_freq counts count = 0%R → score = 10%R) ∧
      (score = 10%R ↔ (observed_freq counts count * 20 <= exp (- 10))%R))
      counts scores.
Proof.
  intros Hcounts. exists (Train.pair_scores counts).
  rewrite calculate_scores_lookup, Hcounts. split; [done|].
  unfold Train.pair_scores. apply Forall2_fmap_r, Forall_Forall2_diag.
  apply Forall_forall. intros count _. unfold compose.
  rewrite bin_score_capped.
  split; [done|]. split; [apply Rmin_r|].
  rewrite capped_score_10_iff. split; [|done].
  intros ->. pose proof (exp_pos (- 10)). lra.
Qed.

Lemma scores_are_capped_log_odds_witness :
  ∃ scores,
    Train.calculate_scores example_histogram !! "AC" = Some scores ∧
    length scores = 20.
Proof.
  destruct (scores_are_capped_log_odds example_histogram "AC"
              (<[3%nat := 2%N]> (replicate 20 0%N)) eq_refl)
    as (scores & Hscores & Hall).
  exists scores. split; [done|].
  by rewrite <- (Forall2_length _ _ _ Hall).
Defined.

(** The part of C2 that fails: with one count out of two millions the
    observed frequency is positive, yet the raw score exceeds the cap and
    the derived score is 10. *)
Lemma capped_score_of_a_rare_bin :
  (Train.calculate_scores {[ "AA" := rare_counts ]} !! "AA") ≫= (.!! 0%nat)
  = Some (Rmin (raw_score rare_counts 1) 10) ∧
  ¬ (Rmin (raw_score rare_counts 1) 10 = 10%R
     ↔ observed_freq rare_counts 1 = 0%R).
Proof.
  split.
  - rewrite calculate_scores_lookup, lookup_singleton_eq.
    change (Some (Train.bin_score (Py.sum rare_counts) 1)
            = Some (Rmin (raw_score rare_counts 1) 10)).
    by rewrite bin_score_capped.
  - assert (observed_freq rare_counts 1 = (1 / 2000000)%R) as Hf.
    { unfold observed_freq. rewrite decide_False by (vm_compute; congruence).
      replace (Py.sum rare_counts) with 2000000%N by (vm_compute; reflexivity).
      unfold Py.real. simpl. lra. }
    rewrite capped_score_10_iff, Hf. intros [Hcap _].
    assert (1 / 2000000 * 20 <= exp (- 10))%R as H; [|apply Hcap in H; lra].
    replace (exp (-10))%R with (/ exp 10)%R
      by (rewrite <- exp_Ropp; f_equal; lra).
    pose proof exp_10_bound. pose proof (exp_pos 10).
    apply (Rmult_le_reg_r (exp 10)); [done|].
    rewrite Rinv_l by lra. lra.
Qed.

(** ** The score of a structure *)

Lemma Rsum_with_ext {A} (f g : A → R) (l : list A) :
  (∀ x, x ∈ l → f x = g x) → Rsum_with f l = Rsum_with g l.
Proof.
  induction l as [|x l IH]; intros Hfg; simpl; [done|].
  rewrite (Hfg x) by left. rewrite IH; [done|].
  intros y Hy. apply Hfg. by right.
Qed.

Lemma Rsum_with_zero {A} (l : list A) : Rsum_with (λ _, 0%R) l = 0%R.
Proof. induction l as [|x l IH]; simpl; [done | rewrite IH; lra]. Qed.

Lemma Rsum_with_point {A} `{EqDecision A} (f g : A → R) (l : list A)
    (i : A) (d : R) :
  NoDup l → i ∈ l → (∀ k, k ≠ i → g k = f k) → g i = (f i + d)%R →
  Rsum_with g l = (Rsum_with f l + d)%R.
Proof.
  intros Hnd Hi Hne Heq.
  induction Hnd as [|x l Hx Hnd IH]; [by apply elem_of_nil in Hi|].
  simpl. destruct (decide (x = i)) as [->|Hxi].
  - rewrite Heq. rewrite (Rsum_with_ext g f); [lra|].
    intros y Hy. apply Hne. intros ->. done.
  - rewrite (Hne x) by done. apply elem_of_cons in Hi as [->|Hi]; [done|].
    rewrite IH by done. lra.
Qed.

Lemma foldl_Rplus {A} (f : A → R) (l : list A) (a : R) :
  foldl (λ acc x, (acc + f x)%R) a l = (a + Rsum_with f l)%R.
Proof.
  revert a. induction l as [|x l IH]; intros a; simpl; [lra|].
  rewrite IH. lra.
Qed.

Lemma Rsum_with_bins (f : N → R) (bins : list N) :
  length bins = 20 →
  Rsum_with f bins = Rsum_with (λ i, f (default 0%N (bins !! i))) (seq 0 20).
Proof. intros Hlen. do 21 (destruct bins as [|? bins]; try done). Qed.

(** The score of a pair is the sum of the training scores of its bins. *)
Lemma pair_score_bins (bins : list N) :
  length bins = 20 →
  Scoring.pair_score bins
  = Rsum_with (λ i, Rmin (raw_score bins (default 0%N (bins !! i))) 10)
      (seq 0 20).
Proof.
  intros Hlen.
  change (Scoring.pair_score bins)
    with (foldl (λ acc count,
            (acc + Train.bin_score (Py.sum bins) count)%R) 0%R bins).
  rewrite foldl_Rplus, Rplus_0_l.
  rewrite (Rsum_with_ext _ (λ count, Rmin (raw_score bins count) 10))
    by (intros; apply bin_score_capped).
  by rewrite (Rsum_with_bins (λ count, Rmin (raw_score bins count) 10)).
Qed.

Lemma total_score_pseudo_energy {V} (h : gmap string (list N))
    (scores : gmap string V) :
  well_formed h →
  map_fold (λ pair bins total_score,
    match scores !! pair with
    | Some _ => (total_score + Scoring.pair_score bins)%R
    | None => total_score
    end) 0%R h
  = pseudo_energy h scores.
Proof.
  induction h as [|k bins h Hk IH] using map_ind; intros Hwf.
  - rewrite map_fold_empty. unfold pseudo_energy.
    rewrite (Rsum_with_ext _ (λ _, 0%R)); [by rewrite Rsum_with_zero|].
    intros pair _. by rewrite lookup_empty.
  - rewrite map_fold_insert_L; [|intros|done].
    2:{ destruct (scores !! j1), (scores !! j2); lra. }
    rewrite IH.
    2:{ intros p l Hp. apply Hwf. rewrite lookup_insert_ne; [done|].
        intros <-. congruence. }
    destruct (Hwf k bins) as (Hin & Hlen & _); [by rewrite lookup_insert_eq|].
    set (d := match scores !! k with
              | Some _ => Scoring.pair_score bins
              | None => 0%R
              end).
    assert (pseudo_energy (<[k := bins]> h) scores
            = (pseudo_energy h scores + d)%R) as ->.
    { unfold pseudo_energy.
      apply (Rsum_with_point _ _ _ k); [apply VALID_PAIRS_NoDup|done| |].
      - intros p Hp. by rewrite lookup_insert_ne.
      - rewrite lookup_insert_eq, Hk. unfold d.
        destruct (scores !! k); [|lra].
        rewrite pair_score_bins by done. lra. }
    unfold d. destruct (scores !! k); lra.
Qed.

Lemma pseudo_energy_keys {V W} (h : gmap string (list N))
    (scores : gmap string V) (scores' : gmap string W) :
  (∀ pair, is_Some (scores' !! pair) ↔ is_Some (scores !! pair)) →
  pseudo_energy h scores' = pseudo_energy h scores.
Proof.
  intros Hkeys. apply Rsum_with_ext. intros pair _.
  specialize (Hkeys pair). destruct (h !! pair); [|done].
  destruct (scores !! pair), (scores' !! pair); try done.
  - destruct Hkeys as [_ H]. by destruct H.
  - destruct Hkeys as [H _]. by destruct H.
Qed.

Lemma compute_distances_and_scores_eq {platform : Platform} {V}
    (residues : list residue) (scores : gmap string V) :
  Scoring.compute_distances_and_scores residues scores
  = (h ← Scoring.distances_of residues; Ok (pseudo_energy h scores)).
Proof.
  unfold Scoring.compute_distances_and_scores.
  destruct (Scoring.distances_of residues) as [h|e] eqn:Hh; [|done].
  cbn [mbind result_bind]. f_equal. apply total_score_pseudo_energy.
  change (Scoring.distances_of residues)
    with (Train.compute_distances residues) in Hh.
  by apply compute_distances_spec in Hh as [? _].
Qed.

(** C5: the pseudo-energy of a structure is the sum, over the keys that
    its own histogram and the loaded table both hold, over the twenty
    bins, of the capped log-odds score of its own counts, by the formula
    of training; a key the table lacks adds nothing, and the values the
    table stores are never used: two tables with the same keys give the
    same result. *)
Theorem structure_score_from_own_counts {platform : Platform} (residues : list residue)
    (scores : gmap string (list R)) :
  Scoring.compute_distances_and_scores residues scores
  = (h ← Scoring.distances_of residues; Ok (pseudo_energy h scores)) ∧
  ∀ scores' : gmap string (list R),
    (∀ pair, is_Some (scores' !! pair) ↔ is_Some (scores !! pair)) →
    Scoring.compute_distances_and_scores residues scores'
    = Scoring.compute_distances_and_scores residues scores.
Proof.
  split; [apply compute_distances_and_scores_eq|]. intros scores' Hkeys.
  rewrite !compute_distances_and_scores_eq.
  destruct (Scoring.distances_of residues) as [h|e]; [|done].
  cbn [mbind result_bind]. f_equal. by apply pseudo_energy_keys.
Qed.

Lemma example_tables_same_keys (pair : string) :
  is_Some (example_table_2 !! pair) ↔ is_Some (example_table !! pair).
Proof.
  unfold example_table, example_table_2.
  destruct (decide (pair = "AC")) as [->|Hne].
  - by rewrite !lookup_singleton_eq.
  - by rewrite !lookup_singleton_ne.
Qed.

Lemma structure_score_from_own_counts_witness :
  Scoring.compute_distances_and_scores example_residues example_table
  = Ok (pseudo_energy example_histogram example_table) ∧
  Scoring.compute_distances_and_scores example_residues example_table_2
  = Scoring.compute_distances_and_scores example_residues example_table.
Proof.
  destruct (structure_score_from_own_counts example_residues example_table)
    as [Heq Hkeys].
  split; [|exact (Hkeys example_table_2 example_tables_same_keys)].
  rewrite Heq.
  by replace (Scoring.distances_of example_residues)
    with (Ok example_histogram) by (vm_compute; reflexivity).
Defined.

(** ** Score files *)

Lemma length_string_app (a s : string) :
  String.length (String.append a s) = String.length a + String.length s.
Proof. induction a as [|c a IH]; simpl; [done | by rewrite IH]. Qed.

Lemma string_app_inj (a b s : string) :
  String.append a s = String.append b s → a = b.
Proof.
  revert b. induction a as [|c a IH]; intros [|d b] Heq.
  - done.
  - change (s = String d (String.append b s)) in Heq.
    apply (f_equal String.length) in Heq.
    change (String.length s = S (String.length (String.append b s))) in Heq.
    rewrite length_string_app in Heq. lia.
  - change (String c (String.append a s) = s) in Heq.
    apply (f_equal String.length) in Heq.
    change (S (String.length (String.append a s)) = String.length s) in Heq.
    rewrite length_string_app in Heq. lia.
  - change (String c (String.append a s) = String d (String.append b s)) in Heq.
    injection Heq as -> Heq. f_equal. by apply IH.
Qed.

Lemma file_name_inj (p q : string) : file_name p = file_name q → p = q.
Proof. apply string_app_inj. Qed.

(** What [write_scores] leaves under the name of a pair. *)
Lemma write_scores_lookup_in (scores : gmap string (list R))
    (pairs : list string) (dir : gmap string (list string)) (pair : string) :
  foldl (λ dir pair,
    match scores !! pair with
    | Some l =>
        if Train.any_positive l
        then <[String.append pair ".txt" := map Train.format4 l]> dir
        else dir
    | None => dir
    end) dir pairs !! file_name pair
  = match scores !! pair with
    | Some l =>
        if Train.any_positive l && bool_decide (pair ∈ pairs)
        then Some (map Train.format4 l)
        else dir !! file_name pair
    | None => dir !! file_name pair
    end.
Proof.
  revert dir. induction pairs as [|x pairs IH]; intros dir; cbn [foldl].
  - destruct (scores !! pair) as [l|]; [|done].
    by rewrite andb_false_r.
  - rewrite IH. destruct (decide (x = pair)) as [->|Hne].
    + destruct (scores !! pair) as [l|]; [|done].
      destruct (Train.any_positive l); [|done]. cbn [andb].
      rewrite (bool_decide_eq_true_2 (pair ∈ pair :: pairs)) by left.
      fold (file_name pair). rewrite lookup_insert_eq.
      by destruct (bool_decide _).
    + assert (bool_decide (pair ∈ x :: pairs) = bool_decide (pair ∈ pairs)) as ->.
      { apply bool_decide_ext. rewrite elem_of_cons.
        split; [by intros [?|?] | by right]. }
      assert (∀ d' : gmap string (list string),
        match scores !! x with
        | Some l => if Train.any_positive l
                    then <[String.append x ".txt" := map Train.format4 l]> d'
                    else d'
        | None => d'
        end !! file_name pair = d' !! file_name pair) as Hother.
      { intros d'. destruct (scores !! x) as [l|]; [|done].
        destruct (Train.any_positive l); [|done].
        fold (file_name x). rewrite lookup_insert_ne; [done|].
        intros Heq. by apply file_name_inj in Heq. }
      by rewrite Hother.
Qed.

Lemma write_scores_lookup (scores : gmap string (list R))
    (output_dir : gmap string (list string)) (pair : string) :
  Train.write_scores scores output_dir !! file_name pair
  = match scores !! pair with
    | Some l =>
        if Train.any_positive l && bool_decide (pair ∈ VALID_PAIRS)
        then Some (map Train.format4 l)
        else output_dir !! file_name pair
    | None => output_dir !! file_name pair
    end.
Proof. apply write_scores_lookup_in. Qed.

Lemma write_scores_fold (scores : gmap string (list R))
    (output_dir : gmap string (list string)) :
  Train.write_scores scores output_dir
  = foldl (write_pair scores) output_dir VALID_PAIRS.
Proof. reflexivity. Qed.

Lemma write_pair_other (scores : gmap string (list R))
    (dir : gmap string (list string)) (pair name : string) :
  name ≠ file_name pair → write_pair scores dir pair !! name = dir !! name.
Proof.
  intros Hne. unfold write_pair. destruct (scores !! pair) as [l|]; [|done].
  destruct (Train.any_positive l); [|done].
  fold (file_name pair). by rewrite lookup_insert_ne.
Qed.

Lemma foldl_write_pair_other (scores : gmap string (list R))
    (pairs : list string) (dir : gmap string (list string)) (name : string) :
  (∀ pair, pair ∈ pairs → name ≠ file_name pair) →
  foldl (write_pair scores) dir pairs !! name = dir !! name.
Proof.
  revert dir. induction pairs as [|p pairs IH]; intros dir Hne; [done|].
  cbn [foldl]. rewrite IH by (intros q Hq; apply Hne; by right).
  apply write_pair_other, Hne. by left.
Qed.

Lemma foldl_write_pair_is_Some (scores : gmap string (list R))
    (pairs : list string) (dir : gmap string (list string)) (name : string) :
  is_Some (dir !! name) →
  is_Some (foldl (write_pair scores) dir pairs !! name).
Proof.
  revert dir. induction pairs as [|p pairs IH]; intros dir Hsome; [done|].
  cbn [foldl]. apply IH. unfold write_pair.
  destruct (scores !! p) as [l|]; [|done].
  destruct (Train.any_positive l); [|done].
  rewrite lookup_insert. by case_decide.
Qed.

Section Tables.

Variable float_of_string : string → option float.

Lemma read_scores_fill (input_dir : gmap string (list string)) :
  Scoring.read_scores float_of_string input_dir
  = for_each VALID_PAIRS (read_pair float_of_string input_dir) ∅.
Proof.
  apply for_each_ext. intros pair scores _.
  unfold read_pair, fill, read_file, read_lines. fold (file_name pair).
  by destruct (input_dir !! file_name pair).
Qed.

Lemma read_lines_Ok (lines : list string) (l : list float) :
  read_lines float_of_string lines = Ok l
  ↔ Forall2 (λ line x, float_of_string (Py.strip line) = Some x) lines l.
Proof.
  unfold read_lines. revert l. induction lines as [|line lines IH]; intros l.
  - split; [intros [= <-]; constructor | by inversion 1].
  - cbn [mapM]. rewrite bind_Ok. split.
    + intros (x & Hx & (k & Hk & [= <-])%bind_Ok). constructor; [|by apply IH].
      unfold Py.to_float in Hx. by destruct (float_of_string _); simplify_eq.
    + inversion 1 as [|? x ? k Hx Hk]; subst. exists x.
      unfold Py.to_float. rewrite Hx. split; [done|].
      apply bind_Ok. exists k. split; [by apply IH | done].
Qed.

Lemma read_lines_returns (lines : list string) :
  returns (read_lines float_of_string lines)
  ↔ ∀ line, line ∈ lines → is_Some (float_of_string (Py.strip line)).
Proof.
  unfold read_lines. rewrite mapM_returns.
  apply forall_proper. intros line. unfold Py.to_float.
  destruct (float_of_string (Py.strip line)) as [x|].
  - split; intros _ _; [by exists x | apply returns_Ok].
  - split; intros Hline Hin; destruct (Hline Hin) as [? ?]; done.
Qed.

Lemma read_lines_Raise (lines : list string) (e : exn) :
  read_lines float_of_string lines = Raise e → e = ValueError.
Proof.
  intros (line & _ & Hline)%mapM_Raise. unfold Py.to_float in Hline.
  destruct (float_of_string _); by simplify_eq.
Qed.

(** What [read_scores] finds under a pair, when it returns. *)
Lemma read_scores_lookup (input_dir : gmap string (list string))
    (table : gmap string (list float)) (pair : string) (l : list float) :
  Scoring.read_scores float_of_string input_dir = Ok table →
  table !! pair = Some l
  ↔ pair ∈ VALID_PAIRS ∧
    ∃ lines, input_dir !! file_name pair = Some lines ∧
      read_lines float_of_string lines = Ok l.
Proof.
  rewrite read_scores_fill. intros Hrun.
  rewrite (for_each_fill_lookup _ _ _ _ pair l Hrun), lookup_empty.
  unfold read_file. split.
  - intros [[Hin Hfile]|[_ ?]]; [|done]. split; [done|].
    destruct (input_dir !! file_name pair) as [lines|]; [|done].
    exists lines. split; [done|]. by injection Hfile.
  - intros (Hin & lines & Hlines & Hread). left. split; [done|].
    by rewrite Hlines, <- Hread.
Qed.

Lemma read_scores_returns (input_dir : gmap string (list string)) :
  returns (Scoring.read_scores float_of_string input_dir)
  ↔ ∀ pair lines, pair ∈ VALID_PAIRS →
      input_dir !! file_name pair = Some lines →
      returns (read_lines float_of_string lines).
Proof.
  rewrite read_scores_fill.
  unfold read_pair. rewrite for_each_fill_returns. unfold read_file. split.
  - intros Hall pair lines Hin Hlines. apply (Hall pair); [done|].
    by rewrite Hlines.
  - intros Hall pair m Hin Hm.
    destruct (input_dir !! file_name pair) as [lines|] eqn:Hlines; [|done].
    injection Hm as <-. by apply (Hall pair).
Qed.

Lemma read_scores_Raise (input_dir : gmap string (list string)) (e : exn) :
  Scoring.read_scores float_of_string input_dir = Raise e → e = ValueError.
Proof.
  rewrite read_scores_fill. unfold read_pair.
  intros (pair & _ & Hfile)%for_each_fill_Raise. unfold read_file in Hfile.
  destruct (input_dir !! file_name pair) as [lines|]; [|done].
  injection Hfile as Hfile. by apply read_lines_Raise in Hfile.
Qed.

Lemma read_scores_no_files (input_dir : gmap string (list string)) :
  (∀ pair, pair ∈ VALID_PAIRS → input_dir !! file_name pair = None) →
  Scoring.read_scores float_of_string input_dir = Ok ∅.
Proof.
  intros Hnone. rewrite read_scores_fill. apply for_each_unchanged.
  intros pair Hin. unfold read_pair, fill, read_file. by rewrite Hnone.
Qed.

End Tables.





Section RoundTrip.

Variable float_of_string : string → option float.


End RoundTrip.







(** ** Reading structures *)


Section Reader.

Variable float_of_string : string → option float.

Lemma parse_line_irrelevant (line : string) (residues : list residue) :
  relevant line = false →
  Train.parse_line float_of_string line residues = Ok residues.
Proof. unfold Train.parse_line, relevant. by intros ->. Qed.

Lemma parse_line_returns (line : string) (residues : list residue) :
  returns (Train.parse_line float_of_string line residues)
  ↔ (relevant line = true → readable_record float_of_string line).
Proof.
  unfold Train.parse_line, readable_record. fold (relevant line).
  destruct (relevant line).
  2:{ split; [done | intros _; apply returns_Ok]. }
  rewrite returns_bind. split.
  - intros (c & Hc & Hrest) _. rewrite Hc.
    apply returns_bind in Hrest as (n & Hn & Hrest). rewrite Hn.
    split; [apply returns_Ok|]. split; [apply returns_Ok|]. intros Hvalid.
    rewrite bool_decide_eq_true_2 in Hrest by done.
    apply returns_bind in Hrest as (x & -> & Hrest).
    apply returns_bind in Hrest as (y & -> & Hrest).
    apply returns_bind in Hrest as (z & -> & Hrest).
    repeat split; apply returns_Ok.
  - intros H. destruct (H eq_refl) as ([c Hc] & [n Hn] & Hcoord).
    exists c. split; [done|]. rewrite Hn. cbn [mbind result_bind].
    destruct (bool_decide_reflect
      (Py.strip (Py.slice 17 20 line) ∈ VALID_RESIDUES)) as [Hvalid|_];
      [|apply returns_Ok].
    destruct (Hcoord Hvalid) as ([x ->] & [y ->] & [z ->]).
    apply returns_Ok.
Qed.

Lemma parse_lines_returns (lines : list string) (residues : list residue) :
  returns (for_each lines (Train.parse_line float_of_string) residues)
  ↔ ∀ line, line ∈ lines → relevant line = true →
      readable_record float_of_string line.
Proof.
  revert residues. induction lines as [|line lines IH]; intros residues.
  - split; [by intros _ line ?%elem_of_nil | intros _; apply returns_Ok].
  - cbn [for_each]. rewrite returns_bind. split.
    + intros (rs & Hline & Hrest) l [->|Hl]%elem_of_cons.
      * apply (parse_line_returns line residues). rewrite Hline.
        apply returns_Ok.
      * by apply (IH rs).
    + intros Hall.
      destruct (proj2 (parse_line_returns line residues)) as [rs Hrs].
      { apply Hall. by left. }
      exists rs. split; [done|]. apply IH. intros l Hl. apply Hall. by right.
Qed.

Lemma parse_lines_filter (lines : list string) (residues : list residue) :
  for_each (filter (λ line, relevant line = true) lines)
    (Train.parse_line float_of_string) residues
  = for_each lines (Train.parse_line float_of_string) residues.
Proof.
  revert residues. induction lines as [|line lines IH]; intros residues; [done|].
  rewrite filter_cons. destruct (decide (relevant line = true)) as [Hr|Hr].
  - cbn [for_each]. destruct (Train.parse_line _ _ _); [apply IH | done].
  - apply not_true_is_false in Hr. cbn [for_each].
    rewrite parse_line_irrelevant by done. apply IH.
Qed.

(** Every residue the reader retains has a valid base type. *)
Lemma parse_line_valid (line : string) (residues residues' : list residue) :
  Train.parse_line float_of_string line residues = Ok residues' →
  Forall valid_residue residues → Forall valid_residue residues'.
Proof.
  unfold Train.parse_line. destruct (_ && _); [|by intros [= <-]].
  intros (c & _ & (n & _ & Hrest)%bind_Ok)%bind_Ok Hall.
  destruct (bool_decide_reflect
    (Py.strip (Py.slice 17 20 line) ∈ VALID_RESIDUES)) as [Hvalid|_];
    [|by injection Hrest as <-].
  apply bind_Ok in Hrest as (x & _ & (y & _ & (z & _ & [= <-])%bind_Ok)%bind_Ok).
  apply Forall_app. split; [done|]. by apply Forall_singleton.
Qed.

Lemma parse_pdb_valid (fs : gmap string (list string)) (file_path : string)
    (residues : list residue) :
  Train.parse_pdb float_of_string fs file_path = Ok residues →
  Forall valid_residue residues.
Proof.
  unfold Train.parse_pdb. destruct (fs !! file_path) as [lines|]; [|done].
  intros Hrun.
  apply (for_each_invariant (Forall valid_residue)) in Hrun; [done|done|].
  intros line t t' _ Ht Hline. by eapply parse_line_valid.
Qed.

Lemma int_of_string_Raise (s : string) (e : exn) :
  Py.int_of_string s = Raise e → e = ValueError.
Proof.
  unfold Py.int_of_string.
  assert (∀ sign t,
    match Py.read_digits t 0 false with
    | Some n => Ok (sign * n)%Z
    | None => Raise ValueError
    end = Raise e → e = ValueError) as Hbody.
  { intros sign t. destruct (Py.read_digits t 0 false); by intros [= <-]. }
  destruct (Py.strip s) as [|c t]; [apply Hbody|].
  destruct c as [[] [] [] [] [] [] [] []]; apply Hbody.
Qed.

Lemma to_float_Raise (s : string) (e : exn) :
  Py.to_float float_of_string s = Raise e → e = ValueError.
Proof. unfold Py.to_float. destruct (float_of_string s); by intros [= <-]. Qed.

(** A line raises [IndexError] when it has no chain column and
    [ValueError] when a field it has is not a number. *)
Lemma parse_line_Raise (line : string) (residues : list residue) (e : exn) :
  Train.parse_line float_of_string line residues = Raise e →
  relevant line = true ∧
  ¬ readable_record float_of_string line ∧
  ((e = IndexError ∧ Py.char_at 21 line = Raise IndexError) ∨
   (e = ValueError ∧ returns (Py.char_at 21 line))).
Proof.
  intros Hraise.
  assert (relevant line = true) as Hrel.
  { destruct (relevant line) eqn:Hrel; [done|].
    by rewrite parse_line_irrelevant in Hraise. }
  split; [done|]. split.
  { intros Hread.
    destruct (proj2 (parse_line_returns line residues) (λ _, Hread)) as [rs Hrs].
    congruence. }
  unfold Train.parse_line in Hraise. fold (relevant line) in Hraise.
  rewrite Hrel in Hraise.
  destruct (Py.char_at 21 line) as [c|e1] eqn:Hc; cbn [mbind result_bind] in Hraise.
  - right. split; [|apply returns_Ok].
    destruct (Py.int_of_string _) as [n|e2] eqn:Hn;
      cbn [mbind result_bind] in Hraise.
    2:{ injection Hraise as <-. by apply int_of_string_Raise in Hn. }
    destruct (bool_decide _); [|done].
    destruct (Py.to_float float_of_string (Py.slice 30 38 line)) as [x|e3] eqn:Hx;
      cbn [mbind result_bind] in Hraise.
    2:{ injection Hraise as <-. by apply to_float_Raise in Hx. }
    destruct (Py.to_float float_of_string (Py.slice 38 46 line)) as [y|e4] eqn:Hy;
      cbn [mbind result_bind] in Hraise.
    2:{ injection Hraise as <-. by apply to_float_Raise in Hy. }
    destruct (Py.to_float float_of_string (Py.slice 46 54 line)) as [z|e5] eqn:Hz;
      cbn [mbind result_bind] in Hraise; [done|].
    injection Hraise as <-. by apply to_float_Raise in Hz.
  - injection Hraise as <-. left. unfold Py.char_at in Hc.
    destruct (String.get 21 line); [done|]. injection Hc as <-. done.
Qed.

Lemma parse_pdb_Raise (fs : gmap string (list string)) (file_path : string)
    (e : exn) :
  Train.parse_pdb float_of_string fs file_path = Raise e →
  match fs !! file_path with
  | None => e = OSError
  | Some lines =>
      ∃ line, line ∈ lines ∧ relevant line = true ∧
        ¬ readable_record float_of_string line ∧
        ((e = IndexError ∧ Py.char_at 21 line = Raise IndexError) ∨
         (e = ValueError ∧ returns (Py.char_at 21 line)))
  end.
Proof.
  unfold Train.parse_pdb. destruct (fs !! file_path) as [lines|];
    [|by intros [= <-]].
  intros Hrun.
  apply (for_each_Raise (λ _, True)) in Hrun as (line & t & Hin & _ & Hline);
    [|done..].
  exists line. split; [done|]. by apply parse_line_Raise in Hline.
Qed.

(** C4, as far as it holds: the reader returns exactly when the file can
    be read and every line that starts with ATOM and contains C3' has a
    chain column, an integer residue number and, for a retained base type,
    three coordinates that [float] accepts. The other lines are skipped:
    removing them changes nothing. Both programs read alike. When the
    reader raises on a file it could open, one of the lines it looks at is
    malformed, and the exception is [IndexError] when that line stops
    before the chain column and [ValueError] otherwise; a file it cannot
    open raises [OSError]. *)
Theorem parse_pdb_returns_iff (fs : gmap string (list string))
    (file_path : string) :
  (returns (Train.parse_pdb float_of_string fs file_path)
   ↔ ∃ lines, fs !! file_path = Some lines ∧
       ∀ line, line ∈ lines → relevant line = true →
         readable_record float_of_string line) ∧
  (∀ lines,
     Train.parse_pdb float_of_string
       (<[file_path := filter (λ line, relevant line = true) lines]> fs)
       file_path
     = Train.parse_pdb float_of_string (<[file_path := lines]> fs) file_path) ∧
  Scoring.parse_pdb float_of_string fs file_path
  = Train.parse_pdb float_of_string fs file_path ∧
  (∀ e, Train.parse_pdb float_of_string fs file_path = Raise e →
     match fs !! file_path with
     | None => e = OSError
     | Some lines =>
         ∃ line, line ∈ lines ∧ relevant line = true ∧
           ¬ readable_record float_of_string line ∧
           ((e = IndexError ∧ Py.char_at 21 line = Raise IndexError) ∨
            (e = ValueError ∧ returns (Py.char_at 21 line)))
     end).
Proof.
  split; [|split; [|split; [done|]]].
  - unfold Train.parse_pdb. destruct (fs !! file_path) as [lines|].
    + rewrite parse_lines_returns. split; [eauto|].
      by intros (? & [= <-] & ?).
    + split; [by intros ?%not_returns_Raise | by intros (? & ? & _)].
  - intros lines. unfold Train.parse_pdb. rewrite !lookup_insert_eq.
    apply parse_lines_filter.
  - apply parse_pdb_Raise.
Qed.

End Reader.

(** The part of C4 that fails: a file that can be read, whose only line
    starts with ATOM, contains C3' and stops before the chain column,
    makes the reader raise. *)
Lemma parse_pdb_raises_on_short_record :
  example_fs !! "short.pdb" = Some [String.append "ATOM      1  C3'" newline] ∧
  Train.parse_pdb decimal_field example_fs "short.pdb" = Raise IndexError ∧
  ¬ returns (Train.parse_pdb decimal_field example_fs "short.pdb").
Proof.
  assert (Train.parse_pdb decimal_field example_fs "short.pdb"
          = Raise IndexError) as Hraise by (vm_compute; reflexivity).
  split; [vm_compute; reflexivity|]. split; [done|].
  rewrite Hraise. apply not_returns_Raise.
Qed.


(** ** Pairs that never occur *)






Section Training.

Context {platform : Platform}.
Variable float_of_string : string → option float.


End Training.






(** ** Evaluation of a group *)

Section Evaluation.

Context {platform : Platform}.
Variable float_of_string : string → option float.

Lemma total_gibbs_energy {V} (fs : gmap string (list string))
    (scores : gmap string V) (pdb_files : list string)
    (per_structure : list R) (start : R) :
  Forall2 (λ pdb_file score,
    (residues ← Scoring.parse_pdb float_of_string fs pdb_file;
     Scoring.compute_distances_and_scores residues scores) = Ok score)
    pdb_files per_structure →
  for_each pdb_files (λ pdb_file total_gibbs_energy,
    residues ← Scoring.parse_pdb float_of_string fs pdb_file;
    score ← Scoring.compute_distances_and_scores residues scores;
    Ok (total_gibbs_energy + score)%R) start
  = Ok (start + Rsum_with id per_structure)%R.
Proof.
  intros Hall. revert start.
  induction Hall as [|f s fl sl Hf _ IH]; intros start; cbn [for_each].
  - simpl. f_equal. lra.
  - destruct (Scoring.parse_pdb float_of_string fs f) as [rs|e]; [|done].
    cbn [mbind result_bind] in *. rewrite Hf. cbn [mbind result_bind].
    rewrite IH. f_equal. simpl. unfold id at 2. lra.
Qed.



End Evaluation.

(** * Further properties *)

(** ** The key of a pair *)

Lemma join_sorted_comm (a b : string) :
  Py.join_sorted a b = Py.join_sorted b a.
Proof.
  unfold Py.join_sorted, String.ltb.
  rewrite (String.compare_antisym a b).
  destruct (String.compare b a) eqn:Hcmp; simpl; try done.
  apply String.compare_eq_iff in Hcmp. by subst.
Qed.

Lemma pair_key_sym (r1 r2 : residue) : pair_key r1 r2 = pair_key r2 r1.
Proof. apply join_sorted_comm. Qed.

(** X1: the key of two base types does not depend on their order, for any
    two strings, and two valid base types always give one of the ten keys,
    so the test [pair in VALID_PAIRS] never rejects a pair of retained
    residues. *)
Theorem pair_key_is_canonical (a b : string) :
  Py.join_sorted a b = Py.join_sorted b a ∧
  (a ∈ VALID_RESIDUES → b ∈ VALID_RESIDUES →
   Py.join_sorted a b ∈ VALID_PAIRS).
Proof.
  split; [apply join_sorted_comm|]. intros Ha Hb.
  apply (pair_key_valid (Residue "" 0 a (0, 0, 0)%float)
                        (Residue "" 0 b (0, 0, 0)%float) Ha Hb).
Qed.

(** ** Bins, one by one *)

Lemma counted_sym {platform : Platform} (r1 r2 : residue) : counted r1 r2 = counted r2 r1.
Proof. unfold counted. by rewrite qualifies_sym, pair_key_sym. Qed.

Lemma counted_irrefl {platform : Platform} (r : residue) : counted r r = false.
Proof. unfold counted. by rewrite qualifies_irrefl. Qed.

Lemma hits_sym {platform : Platform} (pair : string) (i : nat) (r1 r2 : residue) :
  hits pair i r1 r2 = hits pair i r2 r1.
Proof. unfold hits. by rewrite counted_sym, pair_key_sym, bin_of_sym. Qed.

Lemma hits_irrefl {platform : Platform} (pair : string) (i : nat) (r : residue) :
  hits pair i r r = false.
Proof. unfold hits. by rewrite counted_irrefl. Qed.

(** What one iteration of the inner loop does, exactly. *)
Lemma visit_exact {platform : Platform} r1 r2 (h h' : gmap string (list N)) :
  visit r1 r2 h = Ok h' →
  well_formed h →
  (counted r1 r2 = false ∧ h' = h) ∨
  (counted r1 r2 = true ∧
   ∃ b, bin_of r1 r2 = Ok b ∧ (0 ≤ b < 20)%Z ∧
     h' = <[pair_key r1 r2 :=
             <[Z.to_nat b :=
                (default 0 (row h (pair_key r1 r2) !! Z.to_nat b) + 1)%N]>
               (row h (pair_key r1 r2))]> h).
Proof.
  intros Hrun Hwf. unfold counted, qualifies, separated, bin_of.
  unfold visit in Hrun. cbv beta zeta in Hrun. fold (pair_key r1 r2) in Hrun.
  destruct (bool_decide (chain r1 = chain r2) &&
            (3 <=? Z.abs (res_id r1 - res_id r2))%Z) eqn:Hsep; simpl;
    [|left; split; [done | congruence]].
  apply bind_Ok in Hrun as (d & Hd & Hrun). rewrite Hd. simpl.
  apply bind_Ok in Hrun as (b & Hb & Hrun). rewrite Hb.
  assert (0 ≤ b)%Z as Hb0.
  { apply (bin_of_nonneg r1 r2). unfold bin_of. by rewrite Hd. }
  destruct (Z.ltb_spec b 20) as [Hlt|Hge]; simpl;
    [|left; split; [done | congruence]].
  destruct (bool_decide (pair_key r1 r2 ∈ VALID_PAIRS)) eqn:Hvalid;
    [|left; split; [done | congruence]].
  right. split; [done|]. exists b. split; [done|]. split; [lia|].
  apply bind_Ok in Hrun as (bins' & Hbins & [= <-]).
  fold (row h (pair_key r1 r2)) in Hbins.
  assert (length (row h (pair_key r1 r2)) = 20) as Hlen.
  { unfold row. destruct (h !! pair_key r1 r2) as [l|] eqn:Hl; simpl.
    - by apply Hwf in Hl as (_ & ? & _).
    - done. }
  unfold Py.iadd in Hbins. rewrite index_in_range in Hbins by lia.
  cbn [mbind result_bind] in Hbins. by injection Hbins as <-.
Qed.

Lemma count_at_row (h : gmap string (list N)) (pair : string) (i : nat) :
  count_at h pair i = default 0%N (row h pair !! i).
Proof.
  unfold count_at, row. destruct (h !! pair) as [l|]; [done|].
  change (0%N = default 0%N (replicate 20 0%N !! i)).
  destruct (replicate 20 0%N !! i) as [x|] eqn:Hx; [|done].
  by apply lookup_replicate in Hx as [-> _].
Qed.

Lemma visit_count {platform : Platform} r1 r2 (h h' : gmap string (list N)) (pair : string)
    (i : nat) :
  visit r1 r2 h = Ok h' →
  well_formed h →
  well_formed h' ∧
  count_at h' pair i = (count_at h pair i + indicator (hits pair i r1 r2))%N.
Proof.
  intros Hrun Hwf.
  destruct (visit_spec _ _ _ _ Hrun Hwf) as [Hwf' _]. split; [done|].
  unfold hits.
  destruct (visit_exact _ _ _ _ Hrun Hwf)
    as [[-> ->] | [-> (b & -> & Hb & ->)]]; [simpl; lia|].
  cbn [andb]. rewrite !count_at_row.
  destruct (bool_decide_reflect (pair_key r1 r2 = pair)) as [<-|Hne]; cbn [andb].
  - rewrite row_insert_eq.
    assert (length (row h (pair_key r1 r2)) = 20) as Hlen.
    { unfold row. destruct (h !! pair_key r1 r2) as [l|] eqn:Hl; simpl.
      - by apply Hwf in Hl as (_ & ? & _).
      - done. }
    destruct (bool_decide_reflect (b = Z.of_nat i)) as [->|Hbi].
    + rewrite Nat2Z.id, list_lookup_insert_eq by lia. simpl. lia.
    + rewrite list_lookup_insert_ne by lia. simpl. lia.
  - rewrite row_insert_ne by done. simpl. lia.
Qed.

(** Every bin counts the ordered pairs that fall in it. *)
Lemma compute_distances_count {platform : Platform} (residues : list residue)
    (h : gmap string (list N)) (pair : string) (i : nat) :
  Train.compute_distances residues = Ok h →
  count_at h pair i
  = sum_with (λ r1, sum_with (λ r2, indicator (hits pair i r1 r2)) residues)
      residues.
Proof.
  rewrite compute_distances_visit. intros Hrun.
  apply (for_each_measure well_formed (λ h, count_at h pair i)
    (λ r1, sum_with (λ r2, indicator (hits pair i r1 r2)) residues)) in Hrun
    as [_ Htot].
  - rewrite Htot. unfold count_at. by rewrite lookup_empty.
  - intros k l. by rewrite lookup_empty.
  - intros r1 t t' _ Hwf Hinner.
    apply (for_each_measure well_formed (λ h, count_at h pair i)
      (λ r2, indicator (hits pair i r1 r2))) in Hinner; [done..|].
    intros r2 u u' _ Hu Hvisit. by apply visit_count.
Qed.

(** X2: each bin of each key holds twice the number of unordered pairs of
    residues that qualify, form that key and fall in that bin; so every
    count is even, and a key outside the ten or a bin from 20 on holds
    nothing. *)
Theorem histogram_bin_counts_pairs_twice {platform : Platform} (residues : list residue)
    (h : gmap string (list N)) (pair : string) (i : nat) :
  Train.compute_distances residues = Ok h →
  count_at h pair i = (2 * pairs_in_bin pair i residues)%N ∧
  (pair ∉ VALID_PAIRS ∨ 20 ≤ i → count_at h pair i = 0%N).
Proof.
  intros Hrun. split.
  - rewrite (compute_distances_count _ _ _ _ Hrun). unfold pairs_in_bin.
    apply (ordered_twice_unordered (hits pair i)
             (hits_sym pair i) (hits_irrefl pair i)).
  - apply compute_distances_spec in Hrun as [Hwf _].
    intros Hout. unfold count_at.
    destruct (h !! pair) as [bins|] eqn:Hbins; [|done].
    destruct (Hwf _ _ Hbins) as (Hin & Hlen & _).
    destruct Hout as [Hout|Hout]; [done|].
    simpl. by rewrite lookup_ge_None_2 by lia.
Qed.

Lemma histogram_bin_counts_pairs_twice_witness :
  Train.compute_distances example_residues = Ok example_histogram ∧
  count_at example_histogram "AC" 3 = (2 * pairs_in_bin "AC" 3 example_residues)%N.
Proof.
  assert (Train.compute_distances example_residues = Ok example_histogram)
    as Hrun by (vm_compute; reflexivity).
  split; [done|].
  by destruct (histogram_bin_counts_pairs_twice _ _ "AC" 3 Hrun).
Defined.

(** ** The order of the residues *)

Lemma sum_with_perm {A} (f : A → N) (l l' : list A) :
  l ≡ₚ l' → sum_with f l = sum_with f l'.
Proof.
  induction 1 as [|x l l' _ IH|x y l|l l' l'' _ IH1 _ IH2]; simpl;
    [done | by rewrite IH | lia | by rewrite IH1].
Qed.

Lemma well_formed_row (h : gmap string (list N)) (pair : string) :
  well_formed h → length (row h pair) = 20.
Proof.
  intros Hwf. unfold row. destruct (h !! pair) as [l|] eqn:Hl; simpl; [|done].
  by apply Hwf in Hl as (_ & ? & _).
Qed.

(** Two histograms of the builder with the same counts are the same. *)
Lemma well_formed_ext (h h' : gmap string (list N)) :
  well_formed h → well_formed h' →
  (∀ pair i, count_at h pair i = count_at h' pair i) → h = h'.
Proof.
  intros Hwf Hwf' Hcount.
  assert (∀ (a b : gmap string (list N)) k l,
    well_formed a → well_formed b →
    (∀ pair i, count_at a pair i = count_at b pair i) →
    a !! k = Some l → b !! k = Some l) as Hone.
  { intros a b k l Ha Hb Hab Hl.
    destruct (Ha _ _ Hl) as (_ & Hlen & Hsum).
    destruct (sum_pos_exists l Hsum) as (i & c & Hi & Hc).
    destruct (b !! k) as [l'|] eqn:Hl'.
    - f_equal. destruct (Hb _ _ Hl') as (_ & Hlen' & _).
      apply list_eq. intros j. specialize (Hab k j). unfold count_at in Hab.
      rewrite Hl, Hl' in Hab. simpl in Hab.
      destruct (decide (j < 20)) as [Hj|Hj].
      + destruct (lookup_lt_is_Some_2 l j) as [x Hx]; [lia|].
        destruct (lookup_lt_is_Some_2 l' j) as [x' Hx']; [lia|].
        rewrite Hx, Hx' in *. simpl in Hab. by subst.
      + by rewrite !lookup_ge_None_2 by lia.
    - specialize (Hab k i). unfold count_at in Hab.
      rewrite Hl, Hl' in Hab. simpl in Hab. rewrite Hi in Hab. simpl in Hab.
      lia. }
  apply map_eq. intros k.
  destruct (h !! k) as [l|] eqn:Hl.
  - symmetry. by apply (Hone h h').
  - destruct (h' !! k) as [l'|] eqn:Hl'; [|done].
    rewrite (Hone h' h k l') in Hl; by auto.
Qed.

(** X3: the histogram does not depend on the order in which the residues
    are listed: for two lists that are permutations of each other the
    builder returns for both or for neither, and the histograms it returns
    are equal. *)
Theorem histogram_ignores_residue_order {platform : Platform} (residues residues' : list residue) :
  residues ≡ₚ residues' →
  (returns (Train.compute_distances residues)
   ↔ returns (Train.compute_distances residues')) ∧
  ∀ h h', Train.compute_distances residues = Ok h →
          Train.compute_distances residues' = Ok h' → h = h'.
Proof.
  intros Hperm. split.
  - rewrite !compute_distances_returns_iff.
    split; intros Hall r1 r2 H1 H2; apply Hall.
    + by rewrite Hperm. + by rewrite Hperm.
    + by rewrite <- Hperm. + by rewrite <- Hperm.
  - intros h h' Hh Hh'.
    apply well_formed_ext.
    + by apply compute_distances_spec in Hh as [? _].
    + by apply compute_distances_spec in Hh' as [? _].
    + intros pair i.
      rewrite (compute_distances_count _ _ _ _ Hh),
              (compute_distances_count _ _ _ _ Hh').
      rewrite (sum_with_perm _ _ _ Hperm).
      apply sum_with_ext. intros r1 _. by apply sum_with_perm.
Qed.

Lemma histogram_ignores_residue_order_witness :
  example_residues ≡ₚ reverse example_residues ∧
  Train.compute_distances (reverse example_residues) = Ok example_histogram.
Proof.
  assert (example_residues ≡ₚ reverse example_residues) as Hperm
    by (symmetry; apply reverse_Permutation).
  split; [done|].
  destruct (histogram_ignores_residue_order _ _ Hperm) as [[Hret _] Heq].
  destruct Hret as [h' Hh']; [by exists example_histogram|].
  rewrite Hh'. f_equal. symmetry. by apply Heq.
Defined.

(** ** The exceptions of the builder *)

(** X4: the builder raises only when the bin of a separated pair has no
    value, with the exception of that pair: [OverflowError] from a square
    or an infinite distance, [ValueError] from a distance that is not a
    number or from an error the library reports. The index it writes is
    never out of range, so it never raises [IndexError]. *)
Theorem histogram_builder_exceptions {platform : Platform} (residues : list residue) (e : exn) :
  Train.compute_distances residues = Raise e →
  (e = OverflowError ∨ e = ValueError) ∧
  ∃ r1 r2, r1 ∈ residues ∧ r2 ∈ residues ∧
    separated r1 r2 = true ∧ bin_of r1 r2 = Raise e.
Proof.
  rewrite compute_distances_visit. intros Hrun.
  apply (for_each_Raise well_formed) in Hrun
    as (r1 & t & H1 & Ht & Hinner).
  - apply (for_each_Raise well_formed) in Hinner
      as (r2 & u & H2 & Hu & Hvisit); [|done|].
    + destruct (visit_Raise _ _ _ _ Hvisit Hu) as (Hsep & Hbin & He).
      split; [done|]. by exists r1, r2.
    + intros r2 u u' _ Hu Hvisit. by destruct (visit_spec _ _ _ _ Hvisit Hu).
  - intros k l. by rewrite lookup_empty.
  - intros r1 t t' _ Ht Hinner.
    apply (for_each_invariant well_formed) in Hinner; [done|done|].
    intros r2 u u' _ Hu Hvisit. by destruct (visit_spec _ _ _ _ Hvisit Hu).
Qed.

Lemma histogram_builder_exceptions_witness :
  Train.compute_distances far_residues = Raise OverflowError ∧
  ∃ r1 r2, r1 ∈ far_residues ∧ r2 ∈ far_residues ∧
    separated r1 r2 = true ∧ bin_of r1 r2 = Raise OverflowError.
Proof.
  assert (Train.compute_distances far_residues = Raise OverflowError) as Hrun
    by (vm_compute; reflexivity).
  split; [done|]. by destruct (histogram_builder_exceptions _ _ Hrun).
Defined.

(** ** Aggregated counts *)

Lemma add_at_lookup (bins cur : list N) (i : nat) :
  length bins ≤ length cur →
  default 0%N (add_at 0 bins cur !! i)
  = (default 0 (cur !! i) + default 0 (bins !! i))%N.
Proof.
  revert bins i. induction cur as [|c cs IH]; intros [|b bs] i Hlen;
    simpl in Hlen; try lia.
  - done.
  - simpl. lia.
  - rewrite add_at_cons. destruct i as [|i]; simpl; [done|].
    apply IH. lia.
Qed.

Lemma tidy_row (c : gmap string (list N)) (pair : string) :
  tidy c → length (row c pair) = 20.
Proof.
  intros Hc. unfold row. destruct (c !! pair) as [l|] eqn:Hl; simpl; [|done].
  by apply Hc in Hl as [_ ?].
Qed.

(** One item, from tidy counts: it is added bin by bin, or it is skipped,
    or its row is too long. *)
Lemma add_item_tidy (p : string) (b : list N) (c : gmap string (list N)) :
  tidy c →
  match add_item p b c with
  | Ok c' =>
      tidy c' ∧ (p ∈ VALID_PAIRS → length b ≤ 20) ∧
      ∀ k i, k ∈ VALID_PAIRS →
        count_at c' k i
        = (count_at c k i + if decide (k = p) then default 0 (b !! i) else 0)%N
  | Raise e => e = IndexError ∧ p ∈ VALID_PAIRS ∧ 20 < length b
  end.
Proof.
  intros Hc. rewrite add_item_closed. pose proof (tidy_row c p Hc) as Hrow.
  destruct (decide (p ∈ VALID_PAIRS ∧ b ≠ [])) as [[Hp Hb]|Hskip].
  - destruct (decide (length b ≤ length (row c p))) as [Hle|Hgt].
    + split; [|split; [lia|]].
      * intros k l. destruct (decide (k = p)) as [->|Hne].
        -- rewrite lookup_insert_eq. intros [= <-].
           by rewrite length_add_at.
        -- rewrite lookup_insert_ne by done. apply Hc.
      * intros k i _. rewrite !count_at_row.
        destruct (decide (k = p)) as [->|Hne].
        -- rewrite row_insert_eq. by apply add_at_lookup.
        -- rewrite row_insert_ne by done. lia.
    + split; [done|]. split; [done | lia].
  - split; [done|]. split.
    + intros Hp. destruct b as [|x b]; [simpl; lia|].
      destruct Hskip. by split.
    + intros k i Hk. case_decide as Hkp; [|lia]. subst k.
      destruct b as [|x b]; [by rewrite lookup_nil; simpl; lia|].
      destruct Hskip. by split.
Qed.

(** One histogram, from tidy counts. *)
Lemma add_histogram_tidy (h c : gmap string (list N)) :
  tidy c →
  match Train.add_histogram h c with
  | Ok c' =>
      tidy c' ∧ addable h ∧
      ∀ k i, k ∈ VALID_PAIRS →
        count_at c' k i = (count_at c k i + count_at h k i)%N
  | Raise e => e = IndexError ∧ ¬ addable h
  end.
Proof.
  intros Hc. rewrite add_histogram_add_items. unfold add_items.
  apply (map_fold_weak_ind (λ r m,
    match r with
    | Ok c' =>
        tidy c' ∧ addable m ∧
        ∀ k i, k ∈ VALID_PAIRS →
          count_at c' k i = (count_at c k i + count_at m k i)%N
    | Raise e => e = IndexError ∧ ¬ addable m
    end)).
  - split; [done|]. split; [by intros k l; rewrite lookup_empty|].
    intros k i _. unfold count_at at 3. rewrite lookup_empty. simpl. lia.
  - intros p b m r Hp IH. destruct r as [c1|e].
    + destruct IH as (Hc1 & Hm & Hcount). cbn [mbind result_bind].
      pose proof (add_item_tidy p b c1 Hc1) as Hitem.
      destruct (add_item p b c1) as [c2|e].
      * destruct Hitem as (Hc2 & Hlen & Hcount2). split; [done|]. split.
        -- intros k l. destruct (decide (k = p)) as [->|Hne].
           ++ rewrite lookup_insert_eq. intros [= <-]. done.
           ++ rewrite lookup_insert_ne by done. apply Hm.
        -- intros k i Hk. rewrite (Hcount2 k i Hk), (Hcount k i Hk).
           unfold count_at at 2 4. case_decide as Hkp.
           ++ subst k. rewrite lookup_insert_eq, Hp. simpl. lia.
           ++ rewrite lookup_insert_ne by done. lia.
      * destruct Hitem as (-> & Hin & Hlen). split; [done|].
        intros Hadd. specialize (Hadd p b). rewrite lookup_insert_eq in Hadd.
        specialize (Hadd eq_refl Hin). lia.
    + destruct IH as [-> Hbad]. split; [done|]. intros Hadd. apply Hbad.
      intros k l Hk. apply Hadd. rewrite lookup_insert_ne; [done|].
      intros <-. congruence.
Qed.

Lemma aggregate_from (l : list (gmap string (list N)))
    (c : gmap string (list N)) :
  tidy c →
  match for_each l Train.add_histogram c with
  | Ok c' =>
      tidy c' ∧ Forall addable l ∧
      ∀ k i, k ∈ VALID_PAIRS →
        count_at c' k i
        = (count_at c k i + sum_with (λ h, count_at h k i) l)%N
  | Raise e => e = IndexError ∧ ¬ Forall addable l
  end.
Proof.
  revert c. induction l as [|h l IH]; intros c Hc; cbn [for_each].
  - split; [done|]. split; [done|]. intros k i _. simpl. lia.
  - pose proof (add_histogram_tidy h c Hc) as Hh.
    destruct (Train.add_histogram h c) as [c1|e]; cbn [mbind result_bind].
    + destruct Hh as (Hc1 & Hadd & Hcount). specialize (IH c1 Hc1).
      destruct (for_each l Train.add_histogram c1) as [c2|e].
      * destruct IH as (Hc2 & Hall & Hcount2). split; [done|].
        split; [by constructor|]. intros k i Hk.
        rewrite (Hcount2 k i Hk), (Hcount k i Hk). simpl. lia.
      * destruct IH as [-> Hbad]. split; [done|].
        intros Hall. apply Hbad. by apply Forall_cons in Hall as [_ ?].
    + destruct Hh as [-> Hbad]. split; [done|].
      intros Hall. apply Hbad. by apply Forall_cons in Hall as [? _].
Qed.

Lemma tidy_empty : tidy ∅.
Proof. intros k l. by rewrite lookup_empty. Qed.

(** X5: [aggregate_counts] returns exactly when no row of a valid key has
    more than twenty bins, and raises [IndexError] otherwise. What it
    returns has only valid keys, twenty bins each, and every count is the
    sum of the counts of the histograms at that key and bin; keys that are
    not pairs are dropped. *)
Theorem aggregate_counts_sums (all_distances : list (gmap string (list N))) :
  (returns (Train.aggregate_counts all_distances)
   ↔ Forall addable all_distances) ∧
  (∀ e, Train.aggregate_counts all_distances = Raise e → e = IndexError) ∧
  ∀ combined_counts,
    Train.aggregate_counts all_distances = Ok combined_counts →
    tidy combined_counts ∧
    ∀ pair i, pair ∈ VALID_PAIRS →
      count_at combined_counts pair i
      = sum_with (λ h, count_at h pair i) all_distances.
Proof.
  unfold Train.aggregate_counts.
  pose proof (aggregate_from all_distances ∅ tidy_empty) as Hagg.
  destruct (for_each all_distances Train.add_histogram ∅) as [c|e].
  - destruct Hagg as (Hc & Hall & Hcount).
    split; [split; [done | intros _; by exists c]|]. split; [done|].
    intros c' [= <-]. split; [done|]. intros pair i Hp.
    rewrite (Hcount pair i Hp). unfold count_at at 1.
    rewrite lookup_empty. simpl. lia.
  - destruct Hagg as [-> Hbad].
    split; [split; [by intros ?%not_returns_Raise | done]|].
    split; [by intros e [= <-] | done].
Qed.

Lemma aggregate_counts_sums_witness :
  Train.aggregate_counts [example_histogram; long_histogram]
  = Raise IndexError ∧
  ∃ combined_counts,
    Train.aggregate_counts [example_histogram; foreign_histogram]
    = Ok combined_counts ∧
    combined_counts !! "XY" = None ∧
    count_at combined_counts "AC" 3
    = sum_with (λ h, count_at h "AC" 3)
        [example_histogram; foreign_histogram].
Proof.
  split; [vm_compute; reflexivity|].
  destruct (aggregate_counts_sums [example_histogram; foreign_histogram])
    as (_ & _ & Hok).
  destruct (Train.aggregate_counts [example_histogram; foreign_histogram])
    as [c|e] eqn:Hc; [|by vm_compute in Hc].
  exists c. split; [done|]. destruct (Hok c eq_refl) as [Htidy Hcount].
  split.
  - apply eq_None_not_Some. intros [l Hl].
    apply Htidy in Hl as [Hin _]. revert Hin.
    apply (bool_decide_unpack _). by vm_compute.
  - apply Hcount. apply (bool_decide_unpack _). by vm_compute.
Defined.

(** X6: the aggregate of a single histogram of the builder is that
    histogram. *)
Theorem aggregate_single_histogram {platform : Platform} (residues : list residue)
    (h : gmap string (list N)) :
  Train.compute_distances residues = Ok h →
  Train.aggregate_counts [h] = Ok h.
Proof.
  intros Hrun. apply compute_distances_spec in Hrun as [Hwf _].
  destruct (aggregate_counts_well_formed [h]) as (c & Hc & Hwfc);
    [by constructor|].
  rewrite Hc. f_equal. apply well_formed_ext; [done..|].
  intros pair i.
  pose proof (aggregate_from [h] ∅ tidy_empty) as Hagg.
  unfold Train.aggregate_counts in Hc. rewrite Hc in Hagg.
  destruct Hagg as (_ & _ & Hcount).
  destruct (decide (pair ∈ VALID_PAIRS)) as [Hp|Hp].
  - rewrite (Hcount pair i Hp). unfold count_at at 1.
    rewrite lookup_empty. simpl. lia.
  - unfold count_at.
    destruct (c !! pair) as [l|] eqn:Hl; [by apply Hwfc in Hl as [? _]|].
    destruct (h !! pair) as [l'|] eqn:Hl'; [by apply Hwf in Hl' as [? _]|].
    done.
Qed.

Lemma aggregate_single_histogram_witness :
  Train.compute_distances example_residues = Ok example_histogram ∧
  Train.aggregate_counts [example_histogram] = Ok example_histogram.
Proof.
  assert (Train.compute_distances example_residues = Ok example_histogram)
    as Hrun by (vm_compute; reflexivity).
  split; [done|]. exact (aggregate_single_histogram _ _ Hrun).
Defined.

(** ** The range of the scores *)

Lemma ln_le_compat (x y : R) : (0 < x → x <= y → ln x <= ln y)%R.
Proof.
  intros Hx Hxy. apply ln_le_iff; [done|]. rewrite exp_ln by lra. done.
Qed.


Lemma ln_20_pos : (0 < ln 20)%R.
Proof. rewrite <- ln_1. apply ln_increasing; lra. Qed.

Lemma elem_le_sum (l : list N) (c : N) : c ∈ l → (c ≤ Py.sum l)%N.
Proof.
  induction l as [|x l IH]; [by intros ?%elem_of_nil|].
  intros [->|Hc]%elem_of_cons; simpl; [lia|]. specialize (IH Hc). lia.
Qed.

Lemma real_le (a b : N) : (a ≤ b)%N → (Py.real a <= Py.real b)%R.
Proof. intros. unfold Py.real. apply IZR_le. lia. Qed.

Lemma bin_score_positive_total (t c : N) :
  (0 < t)%N → (0 < c)%N →
  Train.bin_score t c = Rmin (- ln (Py.real c / Py.real t * 20)) 10.
Proof.
  intros Ht Hc. unfold Train.bin_score.
  destruct (N.ltb_spec 0 t); [|lia].
  pose proof (real_pos t Ht). pose proof (real_pos c Hc).
  assert (0 < Py.real c / Py.real t)%R by by apply Rdiv_lt_0_compat.
  destruct (Rlt_dec 0 (Py.real c / Py.real t)); [|done].
  do 2 f_equal. f_equal. lra.
Qed.

Lemma bin_score_unobserved (t c : N) :
  (t = 0 ∨ c = 0)%N → Train.bin_score t c = 10%R.
Proof.
  intros Hz. unfold Train.bin_score.
  assert ((if (0 <? t)%N then (Py.real c / Py.real t)%R else 0%R) = 0%R) as ->.
  { destruct (N.ltb_spec 0 t); [|done]. destruct Hz as [->| ->]; [lia|].
    unfold Py.real. simpl. lra. }
  destruct (Rlt_dec 0 0); [lra|]. apply Rmin_left. lra.
Qed.

(** X7: every score of a row lies between [- ln 20], for a bin that holds
    all the counts of its pair, and the cap 10; the table has the keys of
    the counts and a score for every bin. *)
Theorem scores_range (combined_counts : gmap string (list N))
    (pair : string) (counts : list N) :
  combined_counts !! pair = Some counts →
  ∃ scores,
    Train.calculate_scores combined_counts !! pair = Some scores ∧
    length scores = length counts ∧
    Forall (λ score, (- ln 20 <= score <= 10)%R) scores.
Proof.
  intros Hcounts. exists (Train.pair_scores counts).
  rewrite calculate_scores_lookup, Hcounts. split; [done|].
  unfold Train.pair_scores. split; [by rewrite length_map|].
  apply Forall_fmap, Forall_forall. intros c Hc. unfold compose.
  split; [|apply Rmin_r].
  pose proof (elem_le_sum _ _ Hc) as Hle. pose proof ln_20_pos.
  destruct (decide (0 < c)%N) as [Hpos|Hz].
  - rewrite bin_score_positive_total by lia.
    apply Rmin_glb; [|lra].
    pose proof (real_pos c Hpos). pose proof (real_le _ _ Hle).
    assert (0 < Py.real c / Py.real (Py.sum counts) * 20 <= 20)%R as [? ?].
    { split.
      - apply Rmult_lt_0_compat; [apply Rdiv_lt_0_compat|]; lra.
      - assert (Py.real c / Py.real (Py.sum counts) <= 1)%R; [|lra].
        apply (Rmult_le_reg_r (Py.real (Py.sum counts))); [lra|].
        unfold Rdiv. rewrite Rmult_assoc, Rinv_l by lra. lra. }
    pose proof (ln_le_compat _ 20 ltac:(done) ltac:(done)). lra.
  - rewrite bin_score_unobserved by lia. lra.
Qed.

Lemma scores_range_witness :
  ∃ scores,
    Train.calculate_scores example_histogram !! "AC" = Some scores ∧
    Forall (λ score, (- ln 20 <= score <= 10)%R) scores.
Proof.
  destruct (scores_range example_histogram "AC"
              (<[3%nat := 2%N]> (replicate 20 0%N)) eq_refl)
    as (scores & Hs & _ & Hall).
  by exists scores.
Defined.

(** X8: within a pair, a bin with more counts never has a higher score. *)
Theorem more_counts_lower_score (total_counts c1 c2 : N) :
  (c1 ≤ c2)%N →
  (Train.bin_score total_counts c2 <= Train.bin_score total_counts c1)%R.
Proof.
  intros Hle.
  destruct (decide (total_counts = 0 ∨ c1 = 0)%N) as [Hz|Hnz].
  - rewrite (bin_score_unobserved total_counts c1) by done.
    unfold Train.bin_score. apply Rmin_r.
  - rewrite !bin_score_positive_total by lia.
    assert (0 < total_counts)%N as Ht by lia.
    assert (0 < c1)%N as Hc1 by lia.
    pose proof (real_pos _ Ht). pose proof (real_pos _ Hc1).
    pose proof (real_le _ _ Hle).
    apply Rle_min_compat_r.
    assert (0 < Py.real c1 / Py.real total_counts * 20)%R.
    { apply Rmult_lt_0_compat; [apply Rdiv_lt_0_compat|]; lra. }
    assert (Py.real c1 / Py.real total_counts * 20
            <= Py.real c2 / Py.real total_counts * 20)%R.
    { apply Rmult_le_compat_r; [lra|].
      apply Rmult_le_compat_r; [|done].
      left. by apply Rinv_0_lt_compat. }
    pose proof (ln_le_compat _ _ ltac:(done) ltac:(done)). lra.
Qed.

Lemma more_counts_lower_score_witness :
  (Train.bin_score 10 7 <= Train.bin_score 10 3)%R.
Proof. apply more_counts_lower_score. lia. Defined.

(** ** Which pairs are written *)








(** ** What writing leaves alone *)

(** X10: [write_scores] only ever writes the files of the ten pairs: any
    other name keeps what the directory held, and so does the file of a
    pair that has no scores or no positive score, which may be the file of
    an earlier training. Nothing is removed. *)
Theorem write_scores_leaves_the_rest (scores : gmap string (list R))
    (output_dir : gmap string (list string)) (name : string) :
  ((∀ pair, pair ∈ VALID_PAIRS → name ≠ file_name pair) →
   Train.write_scores scores output_dir !! name = output_dir !! name) ∧
  (∀ pair, name = file_name pair →
     (∀ l, scores !! pair = Some l → Train.any_positive l = false) →
     Train.write_scores scores output_dir !! name = output_dir !! name) ∧
  (is_Some (output_dir !! name) →
   is_Some (Train.write_scores scores output_dir !! name)).
Proof.
  split; [|split].
  - rewrite write_scores_fold. apply foldl_write_pair_other.
  - intros pair -> Hnot. rewrite write_scores_lookup.
    destruct (scores !! pair) as [l|]; [|done]. by rewrite (Hnot l eq_refl).
  - rewrite write_scores_fold. apply foldl_write_pair_is_Some.
Qed.

Lemma write_scores_leaves_the_rest_witness :
  Train.write_scores example_table_2 stale_dir !! "notes.txt"
  = Some ["remember"] ∧
  Train.write_scores example_table_2 stale_dir !! "CG.txt"
  = Some (replicate 20 (String.append "1.2345" newline)).
Proof.
  destruct (write_scores_leaves_the_rest example_table_2 stale_dir "notes.txt")
    as (Hother & _ & _).
  destruct (write_scores_leaves_the_rest example_table_2 stale_dir "CG.txt")
    as (_ & Hstale & _).
  split.
  - rewrite Hother; [done|]. intros pair Hin.
    apply (bool_decide_unpack _). revert pair Hin.
    apply Forall_forall. apply (bool_decide_unpack _). by vm_compute.
  - rewrite (Hstale "CG" eq_refl); [done|].
    intros l. unfold example_table_2. by rewrite lookup_singleton_ne.
Defined.

(** ** The order of the set of pairs *)

Lemma foldl_comm_permutation {A B} (f : B → A → B) (l l' : list A) :
  (∀ b x y, f (f b x) y = f (f b y) x) →
  l ≡ₚ l' → ∀ b, foldl f b l = foldl f b l'.
Proof.
  intros Hcomm.
  induction 1 as [|x l l' _ IH|x y l|l l' l'' _ IH1 _ IH2]; intros b; simpl.
  - done.
  - apply IH.
  - by rewrite Hcomm.
  - by rewrite IH1.
Qed.

Lemma write_pair_comm (scores : gmap string (list R))
    (dir : gmap string (list string)) (p q : string) :
  write_pair scores (write_pair scores dir p) q
  = write_pair scores (write_pair scores dir q) p.
Proof.
  destruct (decide (p = q)) as [->|Hne]; [done|].
  unfold write_pair.
  destruct (scores !! p) as [lp|], (scores !! q) as [lq|]; try done.
  destruct (Train.any_positive lp), (Train.any_positive lq); try done.
  apply insert_insert_ne. fold (file_name p) (file_name q).
  intros Heq. by apply file_name_inj in Heq.
Qed.

(** A loop that fills a table does not depend on the order of its keys,
    when all that can be raised is one exception. *)
Lemma for_each_fill_permutation {V} (E : string → option (result V))
    (l l' : list string) :
  (∀ p q e e', E p = Some (Raise e) → E q = Some (Raise e') → e = e') →
  l ≡ₚ l' → ∀ r, for_each l (fill E) r = for_each l' (fill E) r.
Proof.
  intros Hexn.
  induction 1 as [|x l l' _ IH|x y l|l l' l'' _ IH1 _ IH2]; intros r.
  - done.
  - cbn [for_each]. destruct (fill E x r); [apply IH | done].
  - cbn [for_each]. unfold fill.
    destruct (decide (x = y)) as [->|Hne]; [done|].
    destruct (E x) as [[vx|ex]|] eqn:Hx, (E y) as [[vy|ey]|] eqn:Hy;
      cbn [mbind result_bind]; rewrite ?Hx, ?Hy; cbn [mbind result_bind];
      try done.
    + by rewrite insert_insert_ne.
    + f_equal. by eapply Hexn.
  - by rewrite IH1.
Qed.

(** X11: the pairs are a set, iterated in an order the program does not
    choose: whatever the order, [write_scores] leaves the same directory
    and [read_scores] loads the same table or raises the same exception;
    the list of [plot.py] gives the table of [scoring.py]. *)
Theorem pair_order_is_irrelevant (float_of_string : string → option float)
    (pairs : list string) (scores : gmap string (list R))
    (dir : gmap string (list string)) :
  pairs ≡ₚ VALID_PAIRS →
  foldl (write_pair scores) dir pairs = Train.write_scores scores dir ∧
  for_each pairs (read_pair float_of_string dir) ∅
  = Scoring.read_scores float_of_string dir ∧
  Plot.read_scores float_of_string dir
  = Scoring.read_scores float_of_string dir.
Proof.
  intros Hperm. split; [|split; [|done]].
  - rewrite write_scores_fold.
    apply foldl_comm_permutation; [apply write_pair_comm | done].
  - rewrite read_scores_fill. unfold read_pair.
    apply for_each_fill_permutation; [|done].
    intros p q e e' Hp Hq. unfold read_file in Hp, Hq.
    destruct (dir !! file_name p) as [lp|]; [|done].
    destruct (dir !! file_name q) as [lq|]; [|done].
    injection Hp as Hp. injection Hq as Hq.
    apply read_lines_Raise in Hp, Hq. congruence.
Qed.

Lemma pair_order_is_irrelevant_witness :
  reverse VALID_PAIRS ≡ₚ VALID_PAIRS ∧
  foldl (write_pair example_table_2) stale_dir (reverse VALID_PAIRS)
  = Train.write_scores example_table_2 stale_dir ∧
  for_each (reverse VALID_PAIRS) (read_pair decimal_field blank_dir) ∅
  = Scoring.read_scores decimal_field blank_dir.
Proof.
  split; [apply reverse_Permutation|].
  destruct (pair_order_is_irrelevant decimal_field (reverse VALID_PAIRS)
              example_table_2 stale_dir (reverse_Permutation _)) as [Hw _].
  destruct (pair_order_is_irrelevant decimal_field (reverse VALID_PAIRS)
              example_table_2 blank_dir (reverse_Permutation _))
    as (_ & Hr & _).
  done.
Defined.

(** ** What reading finds *)

(** X12: [read_scores] returns exactly when [float] accepts every line of
    every file of a pair, and raises [ValueError] otherwise, on a blank
    line for one. The table it returns has a key exactly for the pairs
    whose file exists, with the number of each line, in order; files under
    other names are ignored, and a directory without score files gives the
    empty table. After [write_scores], a pair that was not written reads
    as it did before. *)
Theorem read_scores_finds_the_files (float_of_string : string → option float)
    (input_dir : gmap string (list string)) :
  (returns (Scoring.read_scores float_of_string input_dir)
   ↔ ∀ pair lines line, pair ∈ VALID_PAIRS →
       input_dir !! file_name pair = Some lines → line ∈ lines →
       is_Some (float_of_string (Py.strip line))) ∧
  (∀ e, Scoring.read_scores float_of_string input_dir = Raise e →
        e = ValueError) ∧
  (∀ table, Scoring.read_scores float_of_string input_dir = Ok table →
     ∀ pair l, table !! pair = Some l
       ↔ pair ∈ VALID_PAIRS ∧
         ∃ lines, input_dir !! file_name pair = Some lines ∧
           Forall2 (λ line x, float_of_string (Py.strip line) = Some x)
             lines l) ∧
  ((∀ pair, pair ∈ VALID_PAIRS → input_dir !! file_name pair = None) →
   Scoring.read_scores float_of_string input_dir = Ok ∅) ∧
  (∀ (scores : gmap string (list R)) pair table table',
     (∀ l, scores !! pair = Some l → Train.any_positive l = false) →
     Scoring.read_scores float_of_string input_dir = Ok table →
     Scoring.read_scores float_of_string (Train.write_scores scores input_dir)
     = Ok table' →
     table' !! pair = table !! pair).
Proof.
  split; [|split; [|split; [|split]]].
  - rewrite read_scores_returns. split.
    + intros Hall pair lines line Hin Hlines.
      by apply read_lines_returns, (Hall pair).
    + intros Hall pair lines Hin Hlines. apply read_lines_returns.
      intros line. by apply (Hall pair lines).
  - apply read_scores_Raise.
  - intros table Hread pair l.
    rewrite (read_scores_lookup _ _ _ pair l Hread).
    split; intros (Hin & lines & Hlines & Hl); (split; [done|]);
      exists lines; (split; [done|]); by apply read_lines_Ok.
  - apply read_scores_no_files.
  - intros scores pair table table' Hnot Hread Hread'.
    assert (Train.write_scores scores input_dir !! file_name pair
            = input_dir !! file_name pair) as Hsame.
    { rewrite write_scores_lookup. destruct (scores !! pair) as [l|]; [|done].
      by rewrite (Hnot l eq_refl). }
    apply option_eq. intros l.
    rewrite (read_scores_lookup _ _ _ pair l Hread),
            (read_scores_lookup _ _ _ pair l Hread').
    by rewrite Hsame.
Qed.

Lemma read_scores_finds_the_files_witness :
  Scoring.read_scores decimal_field stale_dir
  = Ok {[ "CG" := replicate 20 0x1.3c083126e978dp+0%float ]} ∧
  Scoring.read_scores decimal_field blank_dir = Raise ValueError ∧
  (returns (Scoring.read_scores decimal_field blank_dir)
   ↔ ∀ pair lines line, pair ∈ VALID_PAIRS →
       blank_dir !! file_name pair = Some lines → line ∈ lines →
       is_Some (decimal_field (Py.strip line))).
Proof.
  split; [by vm_compute|]. split; [by vm_compute|].
  by destruct (read_scores_finds_the_files decimal_field blank_dir)
    as [Hret _].
Defined.

(** ** Groups without score files, groups with a bad file *)

Lemma pseudo_energy_empty_table {V} (h : gmap string (list N)) :
  pseudo_energy h (∅ : gmap string V) = 0%R.
Proof.
  unfold pseudo_energy. rewrite (Rsum_with_ext _ (λ _, 0%R));
    [apply Rsum_with_zero|].
  intros pair _. rewrite lookup_empty. by destruct (h !! pair).
Qed.

Lemma Rsum_with_zeros (l : list R) :
  Forall (λ x, x = 0%R) l → Rsum_with id l = 0%R.
Proof. induction 1 as [|x l -> _ IH]; simpl; [done|]. rewrite IH. unfold id. lra. Qed.

Section Groups.

Context {platform : Platform}.
Variable float_of_string : string → option float.

(** X13: when the score directory holds none of the ten files, every
    structure scores 0 and so does every group whose files are read and
    measured, whatever the structures are. *)
Theorem no_score_files_no_energy (fs : gmap string (list string))
    (score_dir : gmap string (list string)) (pdb_files : list string) :
  (∀ pair, pair ∈ VALID_PAIRS → score_dir !! file_name pair = None) →
  (∀ pdb_file, pdb_file ∈ pdb_files →
     returns (residues ← Scoring.parse_pdb float_of_string fs pdb_file;
              Scoring.distances_of residues)) →
  Scoring.evaluate_structures float_of_string fs pdb_files score_dir
  = Ok 0%R.
Proof.
  intros Hnone Hfiles. unfold Scoring.evaluate_structures.
  rewrite (read_scores_no_files _ _ Hnone). cbn [mbind result_bind].
  destruct pdb_files as [|f files]; [done|].
  assert (Forall2 (λ pdb_file score,
    (residues ← Scoring.parse_pdb float_of_string fs pdb_file;
     Scoring.compute_distances_and_scores residues
       (∅ : gmap string (list float))) = Ok score)
    (f :: files) (replicate (length (f :: files)) 0%R)) as Hall.
  { apply Forall2_replicate_r; [done|].
    apply Forall_forall. intros g Hg. cbv [flip].
    destruct (Hfiles g Hg) as [h Hh].
    apply bind_Ok in Hh as (rs & -> & Hh). cbn [mbind result_bind].
    rewrite compute_distances_and_scores_eq, Hh. cbn [mbind result_bind].
    by rewrite pseudo_energy_empty_table. }
  rewrite (total_gibbs_energy float_of_string fs _ _ _ 0%R Hall).
  cbn [mbind result_bind].
  replace (0 <? length (f :: files)) with true by done.
  rewrite Rsum_with_zeros by (by apply Forall_replicate).
  unfold Py.truediv. cbn [length Nat.eqb]. f_equal. unfold Rdiv. lra.
Qed.

Lemma evaluate_loop_returns {V} (fs : gmap string (list string))
    (scores : gmap string V) (pdb_files : list string) (start : R) :
  (∀ f, f ∈ pdb_files →
     returns (residues ← Scoring.parse_pdb float_of_string fs f;
              Scoring.distances_of residues)) →
  returns (for_each pdb_files (λ pdb_file total_gibbs_energy,
    residues ← Scoring.parse_pdb float_of_string fs pdb_file;
    score ← Scoring.compute_distances_and_scores residues scores;
    Ok (total_gibbs_energy + score)%R) start).
Proof.
  intros Hfiles.
  destruct (for_each_returns (λ _, True) pdb_files
    (λ pdb_file total_gibbs_energy,
      residues ← Scoring.parse_pdb float_of_string fs pdb_file;
      score ← Scoring.compute_distances_and_scores residues scores;
      Ok (total_gibbs_energy + score)%R) start) as (t & Ht & _);
    [|done|by exists t].
  intros f u Hf _. destruct (Hfiles f Hf) as [h Hh].
  apply bind_Ok in Hh as (rs & -> & Hh). cbn [mbind result_bind].
  rewrite compute_distances_and_scores_eq, Hh. cbn [mbind result_bind].
  eauto.
Qed.

Lemma evaluate_structures_returns (fs : gmap string (list string))
    (score_dir : gmap string (list string)) (pdb_files : list string) :
  returns (Scoring.read_scores float_of_string score_dir) →
  (∀ f, f ∈ pdb_files →
     returns (residues ← Scoring.parse_pdb float_of_string fs f;
              Scoring.distances_of residues)) →
  returns (Scoring.evaluate_structures float_of_string fs pdb_files
             score_dir).
Proof.
  intros [scores Hscores] Hfiles. unfold Scoring.evaluate_structures.
  rewrite Hscores. cbn [mbind result_bind].
  destruct (evaluate_loop_returns fs scores pdb_files 0%R Hfiles) as [t ->].
  cbn [mbind result_bind]. destruct pdb_files as [|f files]; [apply returns_Ok|].
  replace (0 <? length (f :: files)) with true by done. apply returns_Ok.
Qed.

(** X14: the score files are read before any structure: when one of them
    has a line that [float] does not accept, the evaluation raises
    [ValueError] whatever the group is, the empty group included. When
    they are loaded, a structure file that cannot be opened makes the
    evaluation of its group raise [OSError], once the files before it were
    scored; no average of the other files is returned. *)
Theorem missing_file_aborts_evaluation (fs : gmap string (list string))
    (score_dir : gmap string (list string)) (before after : list string)
    (pdb_file : string) :
  (¬ returns (Scoring.read_scores float_of_string score_dir) →
   ∀ pdb_files,
     Scoring.evaluate_structures float_of_string fs pdb_files score_dir
     = Raise ValueError) ∧
  (returns (Scoring.read_scores float_of_string score_dir) →
   fs !! pdb_file = None →
   (∀ f, f ∈ before →
      returns (residues ← Scoring.parse_pdb float_of_string fs f;
               Scoring.distances_of residues)) →
   Scoring.evaluate_structures float_of_string fs
     (before ++ pdb_file :: after) score_dir
   = Raise OSError).
Proof.
  split.
  - intros Hnot pdb_files. unfold Scoring.evaluate_structures.
    destruct (Scoring.read_scores float_of_string score_dir) as [t|e] eqn:Hread.
    + destruct Hnot. apply returns_Ok.
    + by rewrite (read_scores_Raise _ _ _ Hread).
  - intros [scores Hscores] Hmissing Hbefore.
    unfold Scoring.evaluate_structures. rewrite Hscores.
    cbn [mbind result_bind].
    destruct (evaluate_loop_returns fs scores before 0%R Hbefore) as [t Ht].
    rewrite (for_each_stops before after pdb_file _ 0%R t OSError Ht); [done|].
    unfold Scoring.parse_pdb. by rewrite Hmissing.
Qed.

(** X15: training returns exactly when every file of the corpus is read
    and measured: one bad file aborts the whole batch, and nothing else
    can fail. With no file at all it returns the output directory as it
    was. *)
Theorem training_returns_iff (fs : gmap string (list string))
    (pdb_files : list string) (output_dir : gmap string (list string)) :
  (returns (Train.process_pdb_files_parallel float_of_string fs pdb_files
              output_dir)
   ↔ ∀ pdb_file, pdb_file ∈ pdb_files →
       returns (Train.process_single_file float_of_string fs pdb_file)) ∧
  Train.process_pdb_files_parallel float_of_string fs [] output_dir
  = Ok output_dir.
Proof.
  split.
  - unfold Train.process_pdb_files_parallel.
    rewrite <- mapM_returns, returns_bind. split.
    + intros (hs & -> & _). apply returns_Ok.
    + intros [hs Hhs]. exists hs. split; [done|].
      destruct (aggregate_counts_well_formed hs) as (c & -> & _).
      { apply (mapM_Forall well_formed _ _ _) with (2 := Hhs).
        intros f h (rs & _ & Hrun)%bind_Ok.
        by apply compute_distances_spec in Hrun as [? _]. }
      apply returns_Ok.
  - reflexivity.
Qed.

End Groups.

Lemma no_score_files_no_energy_witness :
  Scoring.evaluate_structures decimal_field example_fs ["a.pdb"; "a.pdb"] ∅
  = Ok 0%R.
Proof.
  apply no_score_files_no_energy.
  - intros pair _. apply lookup_empty.
  - intros f [->|[->|[]%elem_of_nil]%elem_of_cons]%elem_of_cons;
      exists example_histogram; vm_compute; reflexivity.
Defined.

Lemma missing_file_aborts_evaluation_witness :
  Scoring.evaluate_structures decimal_field example_fs [] blank_dir
  = Raise ValueError ∧
  Scoring.evaluate_structures decimal_field example_fs
    (["a.pdb"] ++ "missing.pdb" :: ["a.pdb"]) stale_dir
  = Raise OSError.
Proof.
  destruct (missing_file_aborts_evaluation decimal_field example_fs blank_dir
              [] [] "missing.pdb") as [Hbad _].
  destruct (missing_file_aborts_evaluation decimal_field example_fs stale_dir
              ["a.pdb"] ["a.pdb"] "missing.pdb") as [_ Hmissing].
  split.
  - apply Hbad.
    replace (Scoring.read_scores decimal_field blank_dir)
      with (@Raise (gmap string (list float)) ValueError) by (by vm_compute).
    apply not_returns_Raise.
  - apply Hmissing.
    + eexists. by vm_compute.
    + by vm_compute.
    + intros f [->|[]%elem_of_nil]%elem_of_cons.
      exists example_histogram. vm_compute. reflexivity.
Defined.

(** ** What the reader keeps *)

Lemma strip_char (c : ascii) :
  String.length (Py.strip (String c EmptyString)) ≤ 1.
Proof. unfold Py.strip. cbn. destruct (Py.is_space c) eqn:Hc; cbn; [lia|]. rewrite Hc. cbn. lia. Qed.

Section Kept.

Variable float_of_string : string → option float.

Lemma parse_line_cases (line : string) (residues residues' : list residue) :
  Train.parse_line float_of_string line residues = Ok residues' →
  (retained line = false ∧ residues' = residues) ∨
  (retained line = true ∧
   ∃ r, residues' = residues ++ [r] ∧ read_from float_of_string line r ∧
        valid_residue r ∧ String.length (chain r) ≤ 1).
Proof.
  unfold Train.parse_line, retained. fold (relevant line).
  destruct (relevant line); [|intros [= <-]; by left].
  intros (c & Hc & (n & Hn & Hrest)%bind_Ok)%bind_Ok.
  destruct (bool_decide_reflect
    (Py.strip (Py.slice 17 20 line) ∈ VALID_RESIDUES)) as [Hvalid|_];
    [|injection Hrest as <-; by left].
  apply bind_Ok in Hrest
    as (x & Hx & (y & Hy & (z & Hz & [= <-])%bind_Ok)%bind_Ok).
  right. split; [done|]. eexists. split; [done|].
  unfold read_from, valid_residue. cbn [chain res_id res_name coord fst snd].
  rewrite Hc. cbn [mbind result_bind].
  repeat split; try done.
  unfold Py.char_at in Hc. destruct (String.get 21 line); [|done].
  injection Hc as <-. apply strip_char.
Qed.

Lemma parse_lines_kept (lines : list string) (residues residues' : list residue) :
  for_each lines (Train.parse_line float_of_string) residues = Ok residues' →
  ∃ new, residues' = residues ++ new ∧
    Forall2 (read_from float_of_string)
      (filter (λ line, retained line = true) lines) new ∧
    Forall (λ r, valid_residue r ∧ String.length (chain r) ≤ 1) new.
Proof.
  revert residues. induction lines as [|line lines IH]; intros residues.
  - intros [= <-]. exists []. by rewrite app_nil_r.
  - cbn [for_each]. intros (rs & Hline & Hrest)%bind_Ok.
    destruct (IH _ Hrest) as (new & -> & Hnew & Hall).
    rewrite filter_cons.
    apply parse_line_cases in Hline as [[Hkept ->]|(Hkept & r & -> & Hr & Hv)].
    + exists new. rewrite decide_False by (rewrite Hkept; done). done.
    + exists (r :: new). rewrite decide_True by done.
      rewrite <- app_assoc. split; [done|]. split; by constructor.
Qed.

(** X16: the residues the reader returns are read, one each and in file
    order, from the lines that start with ATOM, contain C3' and have a
    base type A, U, G or C in columns 18 to 20: chain from column 22,
    number from columns 23 to 26, coordinates from columns 31 to 54. Every
    one has a valid base type and a chain of at most one character. *)
Theorem parse_pdb_reads_retained_lines (fs : gmap string (list string))
    (file_path : string) (residues : list residue) :
  Train.parse_pdb float_of_string fs file_path = Ok residues →
  ∃ lines, fs !! file_path = Some lines ∧
    Forall2 (read_from float_of_string)
      (filter (λ line, retained line = true) lines) residues ∧
    Forall (λ r, valid_residue r ∧ String.length (chain r) ≤ 1) residues.
Proof.
  unfold Train.parse_pdb. destruct (fs !! file_path) as [lines|]; [|done].
  intros (new & -> & Hnew & Hall)%parse_lines_kept.
  exists lines. done.
Qed.

End Kept.

Lemma parse_pdb_reads_retained_lines_witness :
  ∃ lines, example_fs !! "a.pdb" = Some lines ∧
    Forall2 (read_from decimal_field)
      (filter (λ line, retained line = true) lines) example_residues ∧
    Forall (λ r, valid_residue r ∧ String.length (chain r) ≤ 1)
      example_residues.
Proof.
  apply (parse_pdb_reads_retained_lines decimal_field example_fs "a.pdb").
  vm_compute. reflexivity.
Defined.

(** ** Interpolation for the plots *)

Lemma getitem_nat {A} (l : list A) (i : nat) :
  Py.getitem l (Z.of_nat i)
  = match l !! i with Some x => Ok x | None => Raise IndexError end.
Proof.
  unfold Py.getitem, Py.index.
  replace (Z.of_nat i <? 0)%Z with false by (symmetry; apply Z.ltb_ge; lia).
  replace (0 <=? Z.of_nat i)%Z with true by (symmetry; apply Z.leb_le; lia).
  destruct (Z.ltb_spec (Z.of_nat i) (Z.of_nat (length l))) as [Hlt|Hge].
  - cbn. rewrite Nat2Z.id. done.
  - cbn. rewrite lookup_ge_None_2; [done | lia].
Qed.

Lemma distance_bins_lookup (i : nat) :
  Plot.distance_bins !! i
  = if decide (i < 20) then Some (Z.of_nat (i + 1)) else None.
Proof.
  unfold Plot.distance_bins. rewrite list_lookup_fmap.
  destruct (decide (i < 20)) as [Hlt|Hge].
  - rewrite lookup_seq_lt by done. cbn. do 2 f_equal. lia.
  - rewrite lookup_seq_ge by lia. done.
Qed.

Lemma segment_eq (x1 x2 : Z) (y1 y2 : R) (acc : list (R * R)) :
  Plot.segment x1 x2 y1 y2 acc
  = acc ++ map (λ j : nat,
      (IZR x1 + IZR ((x2 - x1) * Z.of_nat j) / 9,
       y1 + (y2 - y1) * INR j / 9)%R) (seq 0 10).
Proof.
  unfold Plot.segment. cbv zeta.
  change (Z.to_nat 10) with 10%nat. change (10 - 1)%Z with 9%Z.
  cbn [seq foldl map]. by rewrite <- !app_assoc.
Qed.

Lemma interpolate_step (score_list : list R) (i : nat) (acc : list (R * R)) :
  i + 1 < length score_list →
  (x1 ← Py.getitem Plot.distance_bins (Z.of_nat i);
   y1 ← Py.getitem score_list (Z.of_nat i);
   x2 ← Py.getitem Plot.distance_bins (Z.of_nat (i + 1));
   y2 ← Py.getitem score_list (Z.of_nat (i + 1));
   Ok (Plot.segment x1 x2 y1 y2 acc))
  = if decide (i + 1 < 20)
    then Ok (acc ++ map (interpolated score_list i) (seq 0 10))
    else Raise IndexError.
Proof.
  intros Hi. rewrite !getitem_nat, !distance_bins_lookup.
  destruct (lookup_lt_is_Some_2 score_list i) as [y1 Hy1]; [lia|].
  destruct (lookup_lt_is_Some_2 score_list (i + 1)) as [y2 Hy2]; [lia|].
  rewrite Hy1, Hy2.
  destruct (decide (i + 1 < 20)) as [Hlt|Hge].
  - rewrite decide_True by lia. cbn [mbind result_bind].
    rewrite segment_eq. do 2 f_equal. apply map_ext. intros j.
    unfold interpolated, knot. rewrite Hy1, Hy2. cbn [default]. f_equal.
    replace (Z.of_nat (i + 1 + 1) - Z.of_nat (i + 1))%Z with 1%Z by lia.
    rewrite Z.mul_1_l, <- !INR_IZR_INZ. done.
  - destruct (decide (i < 20)); cbn [mbind result_bind]; done.
Qed.

Lemma for_each_blocks {A P} (pts : A → list P) (l : list A)
    (body : A → list P → result (list P)) (acc : list P) :
  (∀ i acc, i ∈ l → body i acc = Ok (acc ++ pts i)) →
  for_each l body acc = Ok (acc ++ concat (map pts l)).
Proof.
  revert acc. induction l as [|x l IH]; intros acc Hbody; cbn.
  - by rewrite app_nil_r.
  - rewrite Hbody by left. cbn. rewrite IH by (intros; apply Hbody; by right).
    by rewrite app_assoc.
Qed.

Lemma length_blocks {A P} (pts : A → list P) (l : list A) (n : nat) :
  (∀ i, length (pts i) = n) → length (concat (map pts l)) = n * length l.
Proof.
  intros Hn. induction l as [|x l IH]; cbn; [lia|].
  rewrite length_app, IH, Hn. lia.
Qed.

Lemma lookup_blocks {P} (pts : nat → list P) (n : nat) (a len i j : nat) :
  (∀ k, length (pts k) = n) → i < len → j < n →
  concat (map pts (seq a len)) !! (n * i + j) = pts (a + i) !! j.
Proof.
  intros Hn. revert a i. induction len as [|len IH]; intros a i Hi Hj; [lia|].
  cbn [seq map concat]. destruct i as [|i].
  - rewrite lookup_app_l by (rewrite Hn; lia).
    by replace (n * 0 + j) with j by lia; replace (a + 0) with a by lia.
  - rewrite lookup_app_r by (rewrite Hn; lia). rewrite Hn.
    replace (n * S i + j - n) with (n * i + j) by lia.
    rewrite IH by lia. f_equal. f_equal. lia.
Qed.

Lemma interpolate_scores_short (score_list : list R) :
  length score_list ≤ 20 →
  Plot.interpolate_scores score_list
  = Ok (concat (map (λ i, map (interpolated score_list i) (seq 0 10))
                    (seq 0 (length score_list - 1)))).
Proof.
  intros Hlen. unfold Plot.interpolate_scores.
  rewrite (for_each_blocks
    (λ i, map (interpolated score_list i) (seq 0 10))); [done|].
  intros i acc [_ Hi]%elem_of_seq.
  rewrite interpolate_step by lia. by rewrite decide_True by lia.
Qed.

Lemma interpolate_scores_long (score_list : list R) :
  20 < length score_list →
  Plot.interpolate_scores score_list = Raise IndexError.
Proof.
  intros Hlen. unfold Plot.interpolate_scores.
  assert (seq 0 (length score_list - 1)
          = seq 0 19 ++ 19 :: seq 20 (length score_list - 21)) as ->.
  { replace (length score_list - 1)
      with (19 + S (length score_list - 21)) by lia.
    by rewrite seq_app. }
  eapply for_each_stops.
  - apply (for_each_blocks
      (λ i, map (interpolated score_list i) (seq 0 10))).
    intros i acc [_ Hi]%elem_of_seq.
    rewrite interpolate_step by lia. by rewrite decide_True by lia.
  - rewrite interpolate_step by lia. by rewrite decide_False by lia.
Qed.

(** X17: the interpolation returns exactly for lists of at most twenty
    scores; a longer list raises [IndexError], the only exception it has.
    A list of [n] scores gives ten points for each of its [n - 1]
    intervals, and none when it has fewer than two scores. *)
Theorem interpolate_scores_returns_iff (score_list : list R) :
  (returns (Plot.interpolate_scores score_list)
   ↔ length score_list ≤ 20) ∧
  (∀ e, Plot.interpolate_scores score_list = Raise e → e = IndexError) ∧
  (∀ points, Plot.interpolate_scores score_list = Ok points →
     length points = 10 * (length score_list - 1)).
Proof.
  destruct (decide (length score_list ≤ 20)) as [Hle|Hgt].
  - rewrite interpolate_scores_short by done. split; [|split].
    + split; [done | intros _; apply returns_Ok].
    + done.
    + intros points [= <-]. rewrite (length_blocks _ _ 10) by done.
      by rewrite length_seq.
  - rewrite interpolate_scores_long by lia. split; [|split].
    + split; [by intros [? ?] | lia].
    + by intros e [= <-].
    + done.
Qed.

(** X18: the points of the interpolation, read with real arithmetic. The
    [j]-th point of interval [i] lies a fraction [j / 9] of the way from
    the score at distance [i + 1] to the score at distance [i + 2]; the
    first point of each interval is the score itself, and the distances of
    the interval span one unit. *)
Theorem interpolated_points (score_list : list R) (points : list (R * R))
    (i j : nat) :
  Plot.interpolate_scores score_list = Ok points →
  i + 1 < length score_list → j < 10 →
  points !! (10 * i + j) = Some (interpolated score_list i j) ∧
  points !! (10 * i) = Some (INR (i + 1), knot score_list i) ∧
  (INR (i + 1) <= (interpolated score_list i j).1 <= INR (i + 1) + 1)%R.
Proof.
  intros Hrun Hi Hj.
  assert (length score_list ≤ 20) as Hlen.
  { destruct (decide (length score_list ≤ 20)) as [|Hgt]; [done|].
    by rewrite interpolate_scores_long in Hrun by lia. }
  rewrite interpolate_scores_short in Hrun by done. injection Hrun as <-.
  assert (∀ k, k < 10 →
    concat (map (λ i, map (interpolated score_list i) (seq 0 10))
                (seq 0 (length score_list - 1))) !! (10 * i + k)
    = Some (interpolated score_list i k)) as Hlookup.
  { intros k Hk.
    rewrite (lookup_blocks
      (λ i, map (interpolated score_list i) (seq 0 10)) 10) by
      (try (intros; by rewrite length_map, length_seq); lia).
    rewrite list_lookup_fmap, lookup_seq_lt by done. done. }
  split; [by apply Hlookup|]. split.
  - replace (10 * i) with (10 * i + 0) at 1 by lia.
    rewrite Hlookup by lia. f_equal. unfold interpolated.
    change (INR 0) with 0%R. f_equal; lra.
  - unfold interpolated. cbn [fst].
    assert (0 <= INR j <= 9)%R as [? ?].
    { split; [apply pos_INR|]. replace 9%R with (INR 9) by (simpl; lra).
      apply le_INR. lia. }
    lra.
Qed.

Lemma interpolated_points_witness :
  Plot.interpolate_scores [1; 4]%R
  = Ok (map (interpolated [1; 4]%R 0) (seq 0 10)) ∧
  map (interpolated [1; 4]%R 0) (seq 0 10) !! (10 * 0 + 3)
  = Some (interpolated [1; 4]%R 0 3) ∧
  map (interpolated [1; 4]%R 0) (seq 0 10) !! (10 * 0)
  = Some (INR (0 + 1), knot [1; 4]%R 0) ∧
  (INR (0 + 1) <= (interpolated [1; 4]%R 0 3).1 <= INR (0 + 1) + 1)%R.
Proof.
  assert (Plot.interpolate_scores [1; 4]%R
          = Ok (map (interpolated [1; 4]%R 0) (seq 0 10))) as Hrun.
  { rewrite interpolate_scores_short by (cbn; lia). cbn [length seq map concat minus].
    by rewrite app_nil_r. }
  split; [done|].
  apply (interpolated_points [1; 4]%R _ 0 3 Hrun); cbn; lia.
Defined.

(** ** The puzzles of a data set *)

Section Puzzles.

Context {platform : Platform}.
Variable float_of_string : string → option float.

Lemma evaluate_all_puzzles_fill (dirs fs : gmap string (list string))
    (base_dir : string) (score_dir : gmap string (list string))
    (entries : list string) :
  dirs !! base_dir = Some entries →
  Scoring.evaluate_all_puzzles float_of_string dirs fs base_dir score_dir
  = for_each entries
      (fill (λ puzzle_dir,
         (λ pdb_files, Scoring.evaluate_structures float_of_string fs
                         pdb_files score_dir)
         <$> puzzle_files dirs base_dir puzzle_dir)) ∅.
Proof.
  intros Hbase. unfold Scoring.evaluate_all_puzzles. rewrite Hbase.
  apply for_each_ext. intros p r _. unfold fill, puzzle_files.
  by destruct (dirs !! Py.path_join base_dir p).
Qed.

(** X19: the table of results has one entry for each name listed in the
    base directory that is itself a directory, and none for the other
    names; its value is the group evaluation of the [.pdb] files of that
    directory, which is 0 when it holds none. *)
Theorem puzzle_results (dirs fs : gmap string (list string))
    (base_dir : string) (score_dir : gmap string (list string))
    (results : gmap string R) :
  Scoring.evaluate_all_puzzles float_of_string dirs fs base_dir score_dir
  = Ok results →
  ∃ entries, dirs !! base_dir = Some entries ∧
    (∀ puzzle_dir gibbs_energy,
       results !! puzzle_dir = Some gibbs_energy
       ↔ puzzle_dir ∈ entries ∧
         ∃ pdb_files,
           puzzle_files dirs base_dir puzzle_dir = Some pdb_files ∧
           Scoring.evaluate_structures float_of_string fs pdb_files score_dir
           = Ok gibbs_energy) ∧
    (∀ puzzle_dir, puzzle_dir ∈ entries →
       puzzle_files dirs base_dir puzzle_dir = Some [] →
       results !! puzzle_dir = Some 0%R).
Proof.
  destruct (dirs !! base_dir) as [entries|] eqn:Hbase.
  2:{ unfold Scoring.evaluate_all_puzzles. by rewrite Hbase. }
  rewrite (evaluate_all_puzzles_fill _ _ _ _ _ Hbase). intros Hrun.
  exists entries. split; [done|].
  assert (∀ puzzle_dir gibbs_energy,
    results !! puzzle_dir = Some gibbs_energy
    ↔ puzzle_dir ∈ entries ∧
      ∃ pdb_files,
        puzzle_files dirs base_dir puzzle_dir = Some pdb_files ∧
        Scoring.evaluate_structures float_of_string fs pdb_files score_dir
        = Ok gibbs_energy) as Hiff.
  { intros p v. rewrite (for_each_fill_lookup _ _ _ _ p v Hrun).
    rewrite lookup_empty. split.
    - intros [[Hp HE]|[_ ?]]; [|done]. split; [done|].
      destruct (puzzle_files dirs base_dir p) as [files|]; [|done].
      exists files. split; [done|]. by injection HE.
    - intros (Hp & files & Hfiles & Heval). left. split; [done|].
      by rewrite Hfiles, <- Heval. }
  split; [done|].
  intros p Hp Hfiles. apply Hiff. split; [done|]. exists []. split; [done|].
  assert (returns (Scoring.evaluate_structures float_of_string fs []
                     score_dir)) as [v Hv].
  { apply (proj1 (for_each_fill_returns _ entries ∅)
             (ex_intro _ results Hrun) p); [done|]. by rewrite Hfiles. }
  rewrite Hv. unfold Scoring.evaluate_structures in Hv.
  destruct (Scoring.read_scores float_of_string score_dir); [|done].
  cbn in Hv. by injection Hv as <-.
Qed.

(** X20: the evaluation of a data set returns exactly when the base
    directory can be listed and the group of every puzzle directory in it
    evaluates: one unreadable structure anywhere leaves no table at all. A
    base directory that cannot be listed raises [OSError]. *)
Theorem puzzles_all_or_nothing (dirs fs : gmap string (list string))
    (base_dir : string) (score_dir : gmap string (list string)) :
  (returns (Scoring.evaluate_all_puzzles float_of_string dirs fs base_dir
              score_dir)
   ↔ ∃ entries, dirs !! base_dir = Some entries ∧
       ∀ puzzle_dir pdb_files, puzzle_dir ∈ entries →
         puzzle_files dirs base_dir puzzle_dir = Some pdb_files →
         returns (Scoring.evaluate_structures float_of_string fs pdb_files
                    score_dir)) ∧
  (dirs !! base_dir = None →
   Scoring.evaluate_all_puzzles float_of_string dirs fs base_dir score_dir
   = Raise OSError).
Proof.
  split.
  - destruct (dirs !! base_dir) as [entries|] eqn:Hbase.
    + rewrite (evaluate_all_puzzles_fill _ _ _ _ _ Hbase).
      rewrite for_each_fill_returns. split.
      * intros Hall. exists entries. split; [done|].
        intros p files Hp Hfiles. apply (Hall p); [done|]. by rewrite Hfiles.
      * intros (? & [= <-] & Hall) p m Hp Hm.
        destruct (puzzle_files dirs base_dir p) as [files|] eqn:Hfiles; [|done].
        injection Hm as <-. by apply (Hall p).
    + unfold Scoring.evaluate_all_puzzles. rewrite Hbase. split.
      * by intros [? ?].
      * by intros (? & ? & _).
  - intros Hbase. unfold Scoring.evaluate_all_puzzles. by rewrite Hbase.
Qed.

End Puzzles.

Lemma puzzle_results_witness :
  ∃ results,
    Scoring.evaluate_all_puzzles decimal_field example_dirs example_puzzle_fs
      "data" ∅ = Ok results ∧
    ∃ entries, example_dirs !! "data" = Some entries ∧
      (∀ puzzle_dir gibbs_energy,
         results !! puzzle_dir = Some gibbs_energy
         ↔ puzzle_dir ∈ entries ∧
           ∃ pdb_files,
             puzzle_files example_dirs "data" puzzle_dir = Some pdb_files ∧
             Scoring.evaluate_structures decimal_field example_puzzle_fs
               pdb_files ∅ = Ok gibbs_energy) ∧
      (∀ puzzle_dir, puzzle_dir ∈ entries →
         puzzle_files example_dirs "data" puzzle_dir = Some [] →
         results !! puzzle_dir = Some 0%R).
Proof.
  assert (returns (Scoring.evaluate_all_puzzles decimal_field example_dirs
                     example_puzzle_fs "data" ∅)) as [results Hrun].
  { rewrite (evaluate_all_puzzles_fill decimal_field _ _ _ _
               ["p1"; "README"; "p2"]) by (by vm_compute).
    apply for_each_fill_returns. intros p m Hp Hm.
    assert (puzzle_files example_dirs "data" p = Some ["data/p1/a.pdb"] ∨
            puzzle_files example_dirs "data" p = Some [] ∨
            puzzle_files example_dirs "data" p = None) as [Hf|[Hf|Hf]].
    { revert Hp.
      intros [->|[->|[->|[]%elem_of_nil]%elem_of_cons]%elem_of_cons]%elem_of_cons;
        vm_compute; auto. }
    - rewrite Hf in Hm. injection Hm as <-.
      apply evaluate_structures_returns; [eexists; by vm_compute|].
      intros f [->|[]%elem_of_nil]%elem_of_cons.
      exists example_histogram. vm_compute. reflexivity.
    - rewrite Hf in Hm. injection Hm as <-.
      apply evaluate_structures_returns; [eexists; by vm_compute|].
      by intros f ?%elem_of_nil.
    - by rewrite Hf in Hm. }
  exists results. split; [done|].
  exact (puzzle_results decimal_field _ _ _ _ _ Hrun).
Defined.

(** ** Structures without separated residues *)

(** X21: when no two residues of the structure are in the same chain and
    three or more positions apart, no distance is computed: the histogram
    is empty whatever the coordinates are, and the structure scores 0
    under every table. *)
Theorem no_separated_pair_no_counts {platform : Platform} (residues : list residue) :
  (∀ r1 r2, r1 ∈ residues → r2 ∈ residues → separated r1 r2 = false) →
  Train.compute_distances residues = Ok ∅ ∧
  ∀ V (scores : gmap string V),
    Scoring.compute_distances_and_scores residues scores = Ok 0%R.
Proof.
  intros Hnear.
  assert (Train.compute_distances residues = Ok ∅) as Hrun.
  { rewrite compute_distances_visit. apply for_each_unchanged.
    intros r1 Hr1. apply for_each_unchanged. intros r2 Hr2.
    specialize (Hnear r1 r2 Hr1 Hr2). unfold separated in Hnear.
    unfold visit. by rewrite Hnear. }
  split; [done|]. intros V scores.
  rewrite compute_distances_and_scores_eq.
  change (Scoring.distances_of residues)
    with (Train.compute_distances residues).
  rewrite Hrun. cbn [mbind result_bind]. f_equal.
  unfold pseudo_energy. rewrite (Rsum_with_ext _ (λ _, 0%R));
    [apply Rsum_with_zero|].
  intros pair _. by rewrite lookup_empty.
Qed.

Lemma no_separated_pair_no_counts_witness :
  Train.compute_distances near_residues = Ok ∅ ∧
  ∀ V (scores : gmap string V),
    Scoring.compute_distances_and_scores near_residues scores = Ok 0%R.
Proof.
  apply no_separated_pair_no_counts. unfold near_residues.
  intros r1 r2
    [->|[->|[->|[]%elem_of_nil]%elem_of_cons]%elem_of_cons]%elem_of_cons
    [->|[->|[->|[]%elem_of_nil]%elem_of_cons]%elem_of_cons]%elem_of_cons;
    vm_compute; reflexivity.
Defined.

(** ** A group of two structures *)




